(** * Substack reader: fetcher, cover renderer and packager of [App.py]

    A shallow embedding of the three pipeline stages of [App.py]
    ([get_substack_api_data], [generate_cover], [create_epub]) and the
    properties of its specification.

    Python strings are modelled as [string] (the UTF-8 bytes of the text):
    every separator the program searches for is ASCII, so cutting the bytes
    cuts the text at the same places.  Values decoded from JSON keep their
    dynamic type ([jvalue]); an operation Python would refuse raises, which is
    a [Raise] carrying [str(e)]. *)

From Stdlib Require Import String Ascii List ZArith Lia Bool Floats.
From Stdlib Require Strings.Byte.
Import ListNotations.
Open Scope string_scope.
Open Scope Z_scope.

(** ** Results of fallible Python code *)

Inductive result (A : Type) : Type :=
| Ok (a : A)
| Raise (msg : string).
Arguments Ok {A} a.
Arguments Raise {A} msg.

Definition rbind {A B} (r : result A) (k : A -> result B) : result B :=
  match r with
  | Ok a => k a
  | Raise m => Raise m
  end.

(** Every exception the result may hold has a non-empty text. *)
Definition described {A : Type} (r : result A) : Prop :=
  forall m, r = Raise m -> m <> "".

Declare Scope res_scope.
Delimit Scope res_scope with res.
Notation "x <- c ;; k" := (rbind c (fun x => k))
  (at level 61, c at next level, right associativity) : res_scope.

(** ** Python [str] operations *)
Module PyStr.

(** The quote and newline characters, written by code. *)
Definition dq : string := String (ascii_of_nat 34) "".
Definition nl : string := String (ascii_of_nat 10) "".

(** [s.startswith(p)] *)
Fixpoint startswith (p s : string) : bool :=
  match p, s with
  | EmptyString, _ => true
  | String a p', String b s' => if Ascii.eqb a b then startswith p' s' else false
  | String _ _, EmptyString => false
  end.

(** [sep in s] *)
Fixpoint contains (sep s : string) : bool :=
  match s with
  | EmptyString => startswith sep s
  | String _ s' => startswith sep s || contains sep s'
  end.

(** [s.split(sep)] for a non-empty [sep]: the occurrences of [sep] are
    taken from the left and do not overlap.  [skip] counts the characters
    of a separator that is being stepped over. *)
Fixpoint split_from (sep s : string) (skip : nat) : list string :=
  match s with
  | EmptyString => [EmptyString]
  | String c s' =>
      match skip with
      | S k => split_from sep s' k
      | O =>
          if startswith sep s
          then EmptyString :: split_from sep s' (Nat.pred (String.length sep))
          else match split_from sep s' O with
               | h :: t => String c h :: t
               | [] => [String c EmptyString]
               end
      end
  end.

Definition split (sep s : string) : list string := split_from sep s O.

(** [s.replace(old, new)] for a non-empty [old]. *)
Fixpoint replace_from (old new s : string) (skip : nat) : string :=
  match s with
  | EmptyString => EmptyString
  | String c s' =>
      match skip with
      | S k => replace_from old new s' k
      | O =>
          if startswith old s
          then new ++ replace_from old new s' (Nat.pred (String.length old))
          else String c (replace_from old new s' O)
      end
  end.

Definition replace (old new s : string) : string := replace_from old new s O.

(** [l[i]]: an [IndexError] out of range. *)
Definition item (l : list string) (i : nat) : result string :=
  match nth_error l i with
  | Some x => Ok x
  | None => Raise "list index out of range"
  end.

(** Decimal digits of a natural number, most significant first. *)
Fixpoint digits_fuel (fuel n : nat) (acc : string) : string :=
  match fuel with
  | O => acc
  | S f =>
      let d := String (ascii_of_nat (48 + Nat.modulo n 10)) acc in
      match Nat.div n 10 with
      | O => d
      | q => digits_fuel f q d
      end
  end.

Definition of_nat (n : nat) : string := digits_fuel (S n) n "".

(** [str(z)] for an [int]. *)
Definition of_Z (z : Z) : string :=
  match z with
  | Z0 => "0"
  | Zpos p => of_nat (Pos.to_nat p)
  | Zneg p => "-" ++ of_nat (Pos.to_nat p)
  end.

End PyStr.

(** ** Values decoded from JSON, with Python's dynamic operations *)

#[warnings="-register-all"]
Inductive jvalue : Type :=
| JNull
| JBool (b : bool)
| JInt (z : Z)
| JFloat (f : float)
| JStr (s : string)
| JArr (l : list jvalue)
| JObj (kv : list (string * jvalue)).

Module Py.

(** [type(v).__name__] *)
Definition type_name (v : jvalue) : string :=
  match v with
  | JNull => "NoneType"
  | JBool _ => "bool"
  | JInt _ => "int"
  | JFloat _ => "float"
  | JStr _ => "str"
  | JArr _ => "list"
  | JObj _ => "dict"
  end.

(** [bool(v)]: the test of [if v:] and [not v]. *)
Definition truthy (v : jvalue) : bool :=
  match v with
  | JNull => false
  | JBool b => b
  | JInt z => negb (z =? 0)
  | JFloat f => negb (PrimFloat.eqb f PrimFloat.zero)
  | JStr s => negb (String.eqb s "")
  | JArr l => match l with [] => false | _ => true end
  | JObj kv => match kv with [] => false | _ => true end
  end.

(** A key of a decoded object. *)
Fixpoint lookup (k : string) (kv : list (string * jvalue)) : option jvalue :=
  match kv with
  | [] => None
  | (k', v) :: rest => if String.eqb k k' then Some v else lookup k rest
  end.

Definition no_attribute (v : jvalue) (attr : string) : string :=
  "'" ++ type_name v ++ "' object has no attribute '" ++ attr ++ "'".

Definition lookup_default (k : string) (default : jvalue) (kv : list (string * jvalue)) : jvalue :=
  match lookup k kv with
  | Some v => v
  | None => default
  end.

(** [d.get(key, default)]: only a dict has [get]. *)
Definition get (d : jvalue) (key : string) (default : jvalue) : result jvalue :=
  match d with
  | JObj kv => Ok (lookup_default key default kv)
  | _ => Raise (no_attribute d "get")
  end.

(** [v[0]].  A decoded object has string keys only, so [0] is a
    [KeyError], whose text is the key.  The first character of a string is
    given by its first byte: the callers only ask it for [get], which no
    string has. *)
Definition getitem0 (v : jvalue) : result jvalue :=
  match v with
  | JArr [] => Raise "list index out of range"
  | JArr (x :: _) => Ok x
  | JStr EmptyString => Raise "string index out of range"
  | JStr (String c _) => Ok (JStr (String c EmptyString))
  | JObj _ => Raise "0"
  | _ => Raise ("'" ++ type_name v ++ "' object is not subscriptable")
  end.

Fixpoint chars (s : string) : list jvalue :=
  match s with
  | EmptyString => []
  | String c s' => JStr (String c EmptyString) :: chars s'
  end.

(** The elements a [for] loop visits: the items of a list, the keys of a
    dict, the characters of a string. *)
Definition iter (v : jvalue) : result (list jvalue) :=
  match v with
  | JArr l => Ok l
  | JObj kv => Ok (map (fun p => JStr (fst p)) kv)
  | JStr s => Ok (chars s)
  | _ => Raise ("'" ++ type_name v ++ "' object is not iterable")
  end.

(** [v.replace(old, new)]: only a string has [replace]. *)
Definition replace (v : jvalue) (old new : string) : result string :=
  match v with
  | JStr s => Ok (PyStr.replace old new s)
  | _ => Raise (no_attribute v "replace")
  end.

Section Repr.
(** [repr(v)] of CPython, used for floats, containers and quoted strings. *)
Variable py_repr : jvalue -> string.

(** [str(v)], which is what an f-string field [{v}] inserts. *)
Definition str (v : jvalue) : string :=
  match v with
  | JStr s => s
  | JNull => "None"
  | JBool true => "True"
  | JBool false => "False"
  | JInt z => PyStr.of_Z z
  | _ => py_repr v
  end.
End Repr.

End Py.

(** ** [datetime.fromisoformat] and [strftime] *)

(** Modelled from the Python documentation: [datetime] is the standard
    library's, not this repository's.  [fromisoformat] accepts the format
    [YYYY-MM-DD[*HH[:MM[:SS[.fff[fff]]]]][+HH:MM[:SS[.ffffff]]]], where [*]
    is any one character, and then builds the [datetime], which checks the
    range of every field.  Python 3.11 accepts further ISO 8601 forms:
    what it reads of them is a parameter of [fromisoformat]. *)
Module PyDatetime.

Record datetime : Type := {
  year : Z; month : Z; day : Z;
  hour : Z; minute : Z; second : Z; microsecond : Z;
  (** the UTC offset, in microseconds, of an aware value *)
  utcoffset : option Z
}.

Definition digit (c : ascii) : option Z :=
  let n := nat_of_ascii c in
  if (48 <=? n)%nat && (n <=? 57)%nat then Some (Z.of_nat (n - 48)) else None.

(** Exactly [n] decimal digits. *)
Fixpoint digits (n : nat) (s : string) (acc : Z) : option (Z * string) :=
  match n with
  | O => Some (acc, s)
  | S k =>
      match s with
      | String c s' =>
          match digit c with
          | Some d => digits k s' (acc * 10 + d)
          | None => None
          end
      | EmptyString => None
      end
  end.

Definition expect (c : ascii) (s : string) : option string :=
  match s with
  | String c' s' => if Ascii.eqb c c' then Some s' else None
  | EmptyString => None
  end.

Definition obind {A B} (o : option A) (k : A -> option B) : option B :=
  match o with
  | Some a => k a
  | None => None
  end.

Notation "x <-? c ;; k" := (obind c (fun x => k))
  (at level 61, c at next level, right associativity).
Notation "' ( x , y ) <-? c ;; k" := (obind c (fun p => let '(x, y) := p in k))
  (at level 61, x name, y name, c at next level, right associativity).

(** [YYYY-MM-DD] *)
Definition parse_date (s : string) : option (Z * Z * Z * string) :=
  '(y, s1) <-? digits 4 s 0 ;;
  s2 <-? expect "-" s1 ;;
  '(m, s3) <-? digits 2 s2 0 ;;
  s4 <-? expect "-" s3 ;;
  '(d, s5) <-? digits 2 s4 0 ;;
  Some (y, m, d, s5).

(** One character: one UTF-8 sequence, a first byte and the continuation
    bytes [10xxxxxx] after it. *)
Fixpoint drop_continuation (s : string) : string :=
  match s with
  | String c s' =>
      let n := nat_of_ascii c in
      if (128 <=? n)%nat && (n <? 192)%nat then drop_continuation s' else s
  | EmptyString => s
  end.

Definition drop_char (s : string) : option string :=
  match s with
  | String _ s' => Some (drop_continuation s')
  | EmptyString => None
  end.

(** The fraction after the point: [fff] or [ffffff] in a time, [ffffff] in
    an offset. *)
Definition parse_fraction (millis : bool) (s : string) : option (Z * string) :=
  match digits 6 s 0 with
  | Some r => Some r
  | None =>
      if millis
      then '(v, r) <-? digits 3 s 0 ;; Some (v * 1000, r)
      else None
  end.

Definition parse_seconds (millis : bool) (s : string) : option (Z * Z * string) :=
  '(sec, s1) <-? digits 2 s 0 ;;
  match s1 with
  | String "." s2 => '(us, s3) <-? parse_fraction millis s2 ;; Some (sec, us, s3)
  | _ => Some (sec, 0, s1)
  end.

(** [HH[:MM[:SS[.fff[fff]]]]] *)
Definition parse_time (s : string) : option (Z * Z * Z * Z * string) :=
  '(h, s1) <-? digits 2 s 0 ;;
  match s1 with
  | String ":" s2 =>
      '(mi, s3) <-? digits 2 s2 0 ;;
      match s3 with
      | String ":" s4 =>
          match parse_seconds true s4 with
          | Some (sec, us, s5) => Some (h, mi, sec, us, s5)
          | None => None
          end
      | _ => Some (h, mi, 0, 0, s3)
      end
  | _ => Some (h, 0, 0, 0, s1)
  end.

(** [+HH:MM[:SS[.ffffff]]], to the end of the string; the offset in
    microseconds. *)
Definition parse_offset (s : string) : option Z :=
  match s with
  | String c s0 =>
      sign <-? (if Ascii.eqb c "+" then Some 1
                else if Ascii.eqb c "-" then Some (-1) else None) ;;
      '(h, s1) <-? digits 2 s0 0 ;;
      s2 <-? expect ":" s1 ;;
      '(mi, s3) <-? digits 2 s2 0 ;;
      match s3 with
      | EmptyString => Some (sign * ((h * 3600 + mi * 60) * 1000000))
      | String ":" s4 =>
          match parse_seconds false s4 with
          | Some (sec, us, EmptyString) =>
              Some (sign * ((h * 3600 + mi * 60 + sec) * 1000000 + us))
          | _ => None
          end
      | _ => None
      end
  | EmptyString => None
  end.

Definition parse_isoformat (s : string) : option datetime :=
  '(ymd, rest) <-? parse_date s ;;
  let '(y, m, d) := ymd in
  match rest with
  | EmptyString => Some (Build_datetime y m d 0 0 0 0 None)
  | _ =>
      t <-? drop_char rest ;;
      match parse_time t with
      | Some (h, mi, sec, us, EmptyString) => Some (Build_datetime y m d h mi sec us None)
      | Some (h, mi, sec, us, tz) =>
          off <-? parse_offset tz ;;
          Some (Build_datetime y m d h mi sec us (Some off))
      | None => None
      end
  end.

Definition is_leap (y : Z) : bool :=
  (y mod 4 =? 0) && (negb (y mod 100 =? 0) || (y mod 400 =? 0)).

Definition days_in_month (y m : Z) : Z :=
  if m =? 2 then (if is_leap y then 29 else 28)
  else if (m =? 4) || (m =? 6) || (m =? 9) || (m =? 11) then 30
  else 31.

Definition day_us : Z := 86400 * 1000000.

(** The checks of the [datetime] and [timezone] constructors. *)
Definition check_fields (dt : datetime) : result datetime :=
  if negb ((1 <=? year dt) && (year dt <=? 9999))
  then Raise ("year " ++ PyStr.of_Z (year dt) ++ " is out of range")
  else if negb ((1 <=? month dt) && (month dt <=? 12))
  then Raise "month must be in 1..12"
  else if negb ((1 <=? day dt) && (day dt <=? days_in_month (year dt) (month dt)))
  then Raise "day is out of range for month"
  else if negb (hour dt <=? 23) then Raise "hour must be in 0..23"
  else if negb (minute dt <=? 59) then Raise "minute must be in 0..59"
  else if negb (second dt <=? 59) then Raise "second must be in 0..59"
  else match utcoffset dt with
       | Some off =>
           if (- day_us <? off) && (off <? day_us) then Ok dt
           else Raise "offset must be a timedelta strictly between -timedelta(hours=24) and timedelta(hours=24)."
       | None => Ok dt
       end.

Section Repr.
Variable py_repr : jvalue -> string.
(** What a later Python reads of a string outside the format above: the
    fields of the further ISO 8601 forms that Python 3.11 accepts, and
    nothing in Python 3.7 to 3.10. *)
Variable iso_more : string -> option datetime.

(** [datetime.fromisoformat(s)] *)
Definition fromisoformat (s : string) : result datetime :=
  match parse_isoformat s with
  | Some dt => check_fields dt
  | None =>
      match iso_more s with
      | Some dt => check_fields dt
      | None => Raise ("Invalid isoformat string: " ++ py_repr (JStr s))
      end
  end.
End Repr.

Definition month_name (m : Z) : string :=
  match m with
  | 1 => "January" | 2 => "February" | 3 => "March" | 4 => "April"
  | 5 => "May" | 6 => "June" | 7 => "July" | 8 => "August"
  | 9 => "September" | 10 => "October" | 11 => "November" | _ => "December"
  end.

(** [%d]: the day, two digits. *)
Definition pad2 (n : Z) : string :=
  if n <? 10 then "0" ++ PyStr.of_Z n else PyStr.of_Z n.

(** [dt.strftime("%B %d, %Y")], in the C locale. *)
Definition strftime_B_d_Y (dt : datetime) : string :=
  month_name (month dt) ++ " " ++ pad2 (day dt) ++ ", " ++ PyStr.of_Z (year dt).

End PyDatetime.


(** ** The fetcher *)

(** What [requests.get] gives back: the status and the outcome of
    [resp.json()], which raises on a body that is not JSON. *)
Record response : Type := {
  status_code : Z;
  json : result jvalue
}.

(** The remote side: the outcome of the [n]-th request of a run, sent to a
    URL; [Raise] is an exception of [requests.get].  (The request header is
    a constant and is left out.) *)
Definition network : Type := nat -> string -> result response.

(** Code that sends requests: it may raise, and the URLs requested so far
    are kept, oldest first. *)
Module IO.

Definition io (A : Type) : Type := list string -> result A * list string.

Definition ret {A} (a : A) : io A := fun log => (Ok a, log).

Definition bind {A B} (c : io A) (k : A -> io B) : io B :=
  fun log =>
    match c log with
    | (Ok a, log') => k a log'
    | (Raise m, log') => (Raise m, log')
    end.

Definition lift {A} (r : result A) : io A := fun log => (r, log).

Definition requests_get (net : network) (url : string) : io response :=
  fun log => (net (List.length log) url, (log ++ [url])%list).

End IO.

Declare Scope io_scope.
Delimit Scope io_scope with io.
Notation "x <- c ;; k" := (IO.bind c (fun x => k))
  (at level 61, c at next level, right associativity) : io_scope.

(** The record of an article: the dict [get_substack_api_data] returns.
    [title], [author] and [body] are whatever the platform sent. *)
Record ArticleRecord : Type := {
  title : jvalue;
  author : jvalue;
  date : string;
  body : jvalue;
  comments : list string;
  url : string;
  domain : string
}.

(** [extract_slug]: the bare [except] turns any exception into [None]. *)
Definition extract_slug (url : string) : option string :=
  match
    (if PyStr.contains "/p/" url
     then (a <- PyStr.item (PyStr.split "/p/" url) 1 ;;
           b <- PyStr.item (PyStr.split "/" a) 0 ;;
           c <- PyStr.item (PyStr.split "?" b) 0 ;;
           Ok (Some c))%res
     else Ok None)
  with
  | Ok r => r
  | Raise _ => None
  end.

Section Fetcher.
Variable py_repr : jvalue -> string.
Variable iso_more : string -> option PyDatetime.datetime.
Variable net : network.

(** One pass of the loop over the comments (lines 63 to 68), with the
    list built so far. *)
Definition comment_step (c : jvalue) (comments : list string) : result (list string) :=
  (c_body <- Py.get c "body" (JStr "") ;;
   c_user <- Py.get c "name" (JStr "Anonymous") ;;
   Ok (if Py.truthy c_body
       then List.app comments ["<b>" ++ Py.str py_repr c_user ++ ":</b> " ++ Py.str py_repr c_body]
       else comments))%res.

Fixpoint comment_loop (cs : list jvalue) (comments : list string) : result (list string) :=
  match cs with
  | [] => Ok comments
  | c :: rest => (comments' <- comment_step c comments ;; comment_loop rest comments')%res
  end.

(** Lines 61 to 68: the comments read from the decoded answer. *)
Definition read_comments (c_data : jvalue) : result (list string) :=
  (listed <- Py.get c_data "comments" (JArr []) ;;
   cs <- Py.iter listed ;;
   comment_loop cs [])%res.

(** Line 58: the URL of the comments of a post. *)
Definition comment_url_of (domain : string) (post_id : jvalue) : string :=
  "https://" ++ domain ++ "/api/v1/posts/" ++ Py.str py_repr post_id ++ "/comments?sort=newest".

(** Lines 56 to 68: the comments of a post. *)
Definition get_comments (domain : string) (post_id : jvalue) : IO.io (list string) :=
  if Py.truthy post_id
  then
    let comment_url := comment_url_of domain post_id in
    (c_resp <- IO.requests_get net comment_url ;;
     if status_code c_resp =? 200
     then (c_data <- IO.lift (json c_resp) ;;
           IO.lift (read_comments c_data))
     else IO.ret [])%io
  else IO.ret [].

(** Line 52: the date of the post, as the record shows it. *)
Definition format_date (date_iso : jvalue) : result string :=
  if Py.truthy date_iso
  then (s <- Py.replace date_iso "Z" "+00:00" ;;
        dt <- PyDatetime.fromisoformat py_repr iso_more s ;;
        Ok (PyDatetime.strftime_B_d_Y dt))%res
  else Ok "Undated".

(** Lines 48 to 53: the post id, the title, the author, the date and the
    body read from the decoded post. *)
Definition read_post (data : jvalue) : result (jvalue * jvalue * jvalue * string * jvalue) :=
  (post_id <- Py.get data "id" JNull ;;
   title <- Py.get data "title" (JStr "Untitled") ;;
   bylines <- Py.get data "publishedBylines" (JArr [JObj []]) ;;
   byline <- Py.getitem0 bylines ;;
   author <- Py.get byline "name" (JStr "Unknown Author") ;;
   date_iso <- Py.get data "post_date" JNull ;;
   date_str <- format_date date_iso ;;
   body_html <- Py.get data "body_html" (JStr "") ;;
   Ok (post_id, title, author, date_str, body_html))%res.

(** Line 39: the URL of the post. *)
Definition api_url_of (domain slug : string) : string :=
  "https://" ++ domain ++ "/api/v1/posts/" ++ slug.

(** The body of the [try] (lines 43 to 78). *)
Definition fetch_post (domain slug url : string)
  : IO.io (option ArticleRecord * option string) :=
  let api_url := api_url_of domain slug in
  (resp <- IO.requests_get net api_url ;;
   if negb (status_code resp =? 200)
   then IO.ret (None, Some ("API Error: " ++ PyStr.of_Z (status_code resp)))
   else
     data <- IO.lift (json resp) ;;
     post <- IO.lift (read_post data) ;;
     let '(post_id, title, author, date_str, body_html) := post in
     comments <- get_comments domain post_id ;;
     IO.ret (Some {| title := title; author := author; date := date_str;
                     body := body_html; comments := comments;
                     url := url; domain := domain |}, None))%io.

(** Line 34: the host of the URL. *)
Definition url_domain (url : string) : result string :=
  (after_scheme <- PyStr.item (PyStr.split "//" url) 1 ;;
   PyStr.item (PyStr.split "/" after_scheme) 0)%res.

(** [get_substack_api_data], with the requests it sent. *)
Definition get_substack_api_data_run (url : string)
  : (option ArticleRecord * option string) * list string :=
  match extract_slug url with
  | None => ((None, Some "Invalid Substack URL. Must contain '/p/'."), [])
  | Some slug =>
      if negb (Py.truthy (JStr slug))
      then ((None, Some "Invalid Substack URL. Must contain '/p/'."), [])
      else
        match url_domain url with
        | Raise _ => ((None, Some "Could not parse domain."), [])
        | Ok domain =>
            match fetch_post domain slug url [] with
            | (Ok r, log) => (r, log)
            | (Raise e, log) => ((None, Some e), log)
            end
        end
  end.

Definition get_substack_api_data (url : string) : option ArticleRecord * option string :=
  fst (get_substack_api_data_run url).

Definition requests_sent (url : string) : list string :=
  snd (get_substack_api_data_run url).

(** The fetch of [url] returned the record [r], having asked for the
    comments and read the list [cs] from a 200 answer. *)
Definition fetched_with_comments (url : string) (cs : list jvalue) (r : ArticleRecord) : Prop :=
  get_substack_api_data url = (Some r, None)
  /\ exists api_url comment_url c_resp c_data,
       requests_sent url = [api_url; comment_url]
       /\ net 1%nat comment_url = Ok c_resp
       /\ status_code c_resp = 200
       /\ json c_resp = Ok c_data
       /\ Py.get c_data "comments" (JArr []) = Ok (JArr cs).

(** The body and the name of a comment, as the loop reads them. *)
Definition comment_body (c : jvalue) : jvalue :=
  match c with
  | JObj kv => Py.lookup_default "body" (JStr "") kv
  | _ => JStr ""
  end.

Definition comment_name (c : jvalue) : jvalue :=
  match c with
  | JObj kv => Py.lookup_default "name" (JStr "Anonymous") kv
  | _ => JStr "Anonymous"
  end.

(** The entry of a comment in the record. *)
Definition comment_entry (c : jvalue) : string :=
  "<b>" ++ Py.str py_repr (comment_name c) ++ ":</b> " ++ Py.str py_repr (comment_body c).

(** The entry the specification words: ["name: body"]. *)
Definition bare_entry (c : jvalue) : string :=
  Py.str py_repr (comment_name c) ++ ": " ++ Py.str py_repr (comment_body c).

(** A comment has a body: [if c_body:] passes. *)
Definition has_body (c : jvalue) : bool := Py.truthy (comment_body c).

(** The byline of a decoded post, when it has one, can be read: it is a
    list that starts with a dict. *)
Definition bylines_readable (kv : list (string * jvalue)) : Prop :=
  match Py.lookup "publishedBylines" kv with
  | None => True
  | Some (JArr (JObj _ :: _)) => True
  | Some _ => False
  end.

(** The date of a decoded post, when it has one, can be read. *)
Definition date_readable (kv : list (string * jvalue)) : Prop :=
  match Py.lookup "post_date" kv with
  | None => True
  | Some v => exists d, format_date v = Ok d
  end.

(** The comment stage, run after the request to [api_url], raises
    nothing. *)
Definition comments_readable (domain api_url : string) (post_id : jvalue) : Prop :=
  exists cs log, get_comments domain post_id [api_url] = (Ok cs, log).
End Fetcher.

(** ** The cover renderer *)

Definition bytes : Type := list Byte.byte.

(** The part of Pillow the renderer uses: an RGB raster and the drawing
    operations on it.  What is drawn outside the raster is not part of
    the picture: [same_image] reads the pixels inside only. *)
Module PIL.

Definition color : Type := (Z * Z * Z)%type.

Record Image : Type := {
  width : Z;
  height : Z;
  pixel : Z -> Z -> color
}.

(** [Image.new('RGB', (w, h), color=c)] *)
Definition new (w h : Z) (c : color) : Image :=
  {| width := w; height := h; pixel := fun _ _ => c |}.

Definition paint (im : Image) (covers : Z -> Z -> bool) (c : color) : Image :=
  {| width := width im; height := height im;
     pixel := fun x y => if covers x y then c else pixel im x y |}.

Definition within (lo v hi : Z) : bool := (lo <=? v) && (v <=? hi).

(** [d.rectangle([x0, y0, x1, y1], fill=c)]: both corners are inside. *)
Definition rectangle_fill (im : Image) (x0 y0 x1 y1 : Z) (c : color) : Image :=
  paint im (fun x y => within x0 x x1 && within y0 y y1) c.

(** [d.rectangle([x0, y0, x1, y1], outline=c, width=w)]: a frame [w]
    pixels thick, inside the box. *)
Definition rectangle_outline (im : Image) (x0 y0 x1 y1 : Z) (c : color) (w : Z) : Image :=
  paint im (fun x y =>
              within x0 x x1 && within y0 y y1 &&
              negb (within (x0 + w) x (x1 - w) && within (y0 + w) y (y1 - w))) c.

(** [d.line((x0, y, x1, y), fill=c, width=w)], a horizontal segment, the
    only one the renderer draws: rows [y - (w-1)/2] to [y + w/2]. *)
Definition line_horizontal (im : Image) (x0 x1 y : Z) (c : color) (w : Z) : Image :=
  paint im (fun px py => within x0 px x1 && within (y - (w - 1) / 2) py (y + w / 2)) c.

(** The named colours. *)
Definition black : color := (0, 0, 0).
Definition white : color := (255, 255, 255).
Definition gray : color := (128, 128, 128).
Definition lightgray : color := (211, 211, 211).
Definition red : color := (255, 0, 0).

Section Font.
(** [ImageFont.load_default()]: whether the text, drawn at an anchor,
    touches the pixel at an offset from the anchor. *)
Variable font_ink : string -> Z -> Z -> bool.
(** The colour a touched pixel takes, from the fill colour and the colour
    it had: the fill colour with a bitmap font, a blend of the two at the
    edge of a glyph with an outline font. *)
Variable font_shade : string -> Z -> Z -> color -> color -> color.

(** [d.text((x, y), s, fill=c, font=font)] *)
Definition text (im : Image) (x y : Z) (s : string) (c : color) : Image :=
  {| width := width im; height := height im;
     pixel := fun px py =>
                if font_ink s (px - x) (py - y)
                then font_shade s (px - x) (py - y) c (pixel im px py)
                else pixel im px py |}.

(** [d.text] with what its argument came to: a text, or nothing to
    draw. *)
Definition text_of (im : Image) (x y : Z) (t : option string) (c : color) : Image :=
  match t with
  | Some s => text im x y s c
  | None => im
  end.
End Font.

Section TextArgument.
(** The text of the [TypeError] of [d.text(xy, None)]. *)
Variable text_error : string.
(** What [d.text] makes of another value that is not a string: it
    raises, or draws a text, or draws nothing.  Pillow does not say, and
    its releases differ. *)
Variable text_other : jvalue -> result (option string).

(** What [d.text] draws for the value it is given. *)
Definition text_arg (v : jvalue) : result (option string) :=
  match v with
  | JStr s => Ok (Some s)
  | JNull => Raise text_error
  | _ => text_other v
  end.
End TextArgument.

(** Two rasters show the same picture. *)
Definition same_image (a b : Image) : Prop :=
  width a = width b /\ height a = height b /\
  forall x y, 0 <= x < width a -> 0 <= y < height a -> pixel a x y = pixel b x y.

End PIL.

Section CoverRenderer.
Variable py_repr : jvalue -> string.
(** [s.upper()] *)
Variable str_upper : string -> string.
Variable font_ink : string -> Z -> Z -> bool.
Variable font_shade : string -> Z -> Z -> PIL.color -> PIL.color -> PIL.color.
Variable text_error : string.
Variable text_other : jvalue -> result (option string).
(** [img.save(buffer, format="JPEG")] *)
Variable jpeg_encode : PIL.Image -> bytes.

Definition upper (v : jvalue) : result string :=
  match v with
  | JStr s => Ok (str_upper s)
  | _ => Raise (Py.no_attribute v "upper")
  end.

Let text := PIL.text font_ink font_shade.
Let text_of := PIL.text_of font_ink font_shade.
Let text_arg := PIL.text_arg text_error text_other.

(** Lines 95 to 142 of [generate_cover]: the raster that is saved. *)
Definition cover_image (style : string) (data : ArticleRecord) : result PIL.Image :=
  let width := 600 in
  let height := 900 in
  let img := PIL.new width height (255, 255, 255) in
  if String.eqb style "Classic Typography" then
    let img := PIL.new width height (248, 241, 229) in
    let img := PIL.rectangle_outline img 20 20 (width - 20) (height - 20) (0, 0, 0) 3 in
    (t <- text_arg (title data) ;;
     let img := text_of img 50 200 t PIL.black in
     a <- text_arg (author data) ;;
     let img := text_of img 50 400 a PIL.black in
     let img := text img 50 450 (date data) PIL.gray in
     let img := text img 50 (height - 100) "SUBSTACK ARCHIVE" PIL.gray in
     Ok img)%res
  else if String.eqb style "Modern Dark" then
    let img := PIL.new width height (20, 20, 20) in
    let img := PIL.rectangle_fill img 0 150 20 (150 + 200) (255, 87, 34) in
    (t <- text_arg (title data) ;;
     let img := text_of img 50 150 t PIL.white in
     let img := text img 50 500 ("Written by " ++ Py.str py_repr (author data)) PIL.lightgray in
     let img := text img 50 530 (date data) PIL.gray in
     Ok img)%res
  else if String.eqb style "Minimalist White" then
    let img := PIL.new width height (255, 255, 255) in
    let img := text img 50 50 "ARTICLE" PIL.red in
    (t <- text_arg (title data) ;;
     let img := text_of img 50 100 t PIL.black in
     let img := PIL.line_horizontal img 50 550 300 PIL.black 2 in
     a <- upper (author data) ;;
     let img := text img 50 320 a PIL.black in
     let img := text img 50 (height - 50) (domain data) PIL.gray in
     Ok img)%res
  else Ok img.

(** [generate_cover]: the raster, saved as JPEG. *)
Definition generate_cover (style : string) (data : ArticleRecord) : result bytes :=
  (img <- cover_image style data ;; Ok (jpeg_encode img))%res.
End CoverRenderer.

(** ** The packager *)

(** The part of ebooklib the packager uses. *)
Module Epub.

Inductive item : Type :=
| EpubCover (file_name : string) (content : bytes)
| EpubCoverHtml (image_name : string)
| EpubHtml (title file_name lang : string) (content : string)
| EpubNcx
| EpubNav.

Inductive spine_entry : Type :=
| SpineName (name : string)
| SpineItem (it : item).

Record EpubBook : Type := {
  identifier : string;
  title : jvalue;
  language : string;
  authors : list jvalue;
  items : list item;
  toc : list item;
  spine : list spine_entry
}.

(** [epub.EpubBook()]; the identifier it draws is replaced at once. *)
Definition empty : EpubBook :=
  {| identifier := ""; title := JStr ""; language := "en"; authors := [];
     items := []; toc := []; spine := [] |}.

Definition set_identifier (b : EpubBook) (uid : string) : EpubBook :=
  {| identifier := uid; title := title b; language := language b;
     authors := authors b; items := items b; toc := toc b; spine := spine b |}.

Definition set_title (b : EpubBook) (t : jvalue) : EpubBook :=
  {| identifier := identifier b; title := t; language := language b;
     authors := authors b; items := items b; toc := toc b; spine := spine b |}.

Definition set_language (b : EpubBook) (l : string) : EpubBook :=
  {| identifier := identifier b; title := title b; language := l;
     authors := authors b; items := items b; toc := toc b; spine := spine b |}.

Definition add_author (b : EpubBook) (a : jvalue) : EpubBook :=
  {| identifier := identifier b; title := title b; language := language b;
     authors := List.app (authors b) [a]; items := items b; toc := toc b;
     spine := spine b |}.

Definition add_item (b : EpubBook) (it : item) : EpubBook :=
  {| identifier := identifier b; title := title b; language := language b;
     authors := authors b; items := List.app (items b) [it]; toc := toc b;
     spine := spine b |}.

(** [book.set_cover(file_name, content)]: the image and, by default, a
    page that shows it. *)
Definition set_cover (b : EpubBook) (file_name : string) (content : bytes) : EpubBook :=
  add_item (add_item b (EpubCover file_name content)) (EpubCoverHtml file_name).

Definition set_toc (b : EpubBook) (t : list item) : EpubBook :=
  {| identifier := identifier b; title := title b; language := language b;
     authors := authors b; items := items b; toc := t; spine := spine b |}.

Definition set_spine (b : EpubBook) (sp : list spine_entry) : EpubBook :=
  {| identifier := identifier b; title := title b; language := language b;
     authors := authors b; items := items b; toc := toc b; spine := sp |}.

(** [item.is_chapter()]: a document that is neither the cover page nor the
    navigation. *)
Definition is_chapter (it : item) : bool :=
  match it with
  | EpubHtml _ _ _ _ => true
  | _ => false
  end.

Definition is_cover_image (it : item) : bool :=
  match it with
  | EpubCover _ _ => true
  | _ => false
  end.

Definition chapters (b : EpubBook) : list item := filter is_chapter (items b).
Definition cover_images (b : EpubBook) : list item := filter is_cover_image (items b).

End Epub.

Section Packager.
Variable py_repr : jvalue -> string.
(** [epub.write_epub(buffer, book, {})] *)
Variable write_epub : Epub.EpubBook -> result bytes.

Let str := Py.str py_repr.

(** Lines 161 to 167. *)
Definition intro_html (data : ArticleRecord) : string :=
  PyStr.nl ++
  "    <h1>" ++ str (title data) ++ "</h1>" ++ PyStr.nl ++
  "    <h3>" ++ str (author data) ++ "</h3>" ++ PyStr.nl ++
  "    <p><i>" ++ date data ++ "</i></p>" ++ PyStr.nl ++
  "    <p>Source: <a href=" ++ PyStr.dq ++ url data ++ PyStr.dq ++ ">" ++ url data ++ "</a></p>" ++ PyStr.nl ++
  "    <hr/>" ++ PyStr.nl ++
  "    ".

(** [intro_html + data['body']]: a string is joined to a string only. *)
Definition concat_body (intro : string) (b : jvalue) : result string :=
  match b with
  | JStr s => Ok (intro ++ s)
  | _ => Raise ("can only concatenate str (not " ++ PyStr.dq ++ Py.type_name b ++ PyStr.dq ++ ") to str")
  end.

Definition comment_div (c : string) : string :=
  "<div style='margin-bottom:15px; border-left:2px solid #ccc; padding-left:10px;'>" ++ c ++ "</div>".

(** Lines 173 to 176. *)
Definition add_comments (final_html : string) (cs : list string) : string :=
  match cs with
  | [] => final_html
  | _ => fold_left (fun html c => html ++ comment_div c) cs
                   (final_html ++ "<hr/><h1>Comments</h1>")
  end.

(** Lines 152 to 185 of [create_epub]: the book that is written. *)
Definition create_book (data : ArticleRecord) (cover_bytes : bytes) : result Epub.EpubBook :=
  let book := Epub.empty in
  let book := Epub.set_identifier book (url data) in
  let book := Epub.set_title book (title data) in
  let book := Epub.set_language book "en" in
  let book := Epub.add_author book (author data) in
  let book := Epub.set_cover book "cover.jpg" cover_bytes in
  (final_html <- concat_body (intro_html data) (body data) ;;
   let final_html := add_comments final_html (comments data) in
   let c1 := Epub.EpubHtml "Article" "article.xhtml" "en" final_html in
   let book := Epub.add_item book c1 in
   let book := Epub.set_toc book [c1] in
   let book := Epub.set_spine book [Epub.SpineName "nav"; Epub.SpineItem c1] in
   let book := Epub.add_item book Epub.EpubNcx in
   let book := Epub.add_item book Epub.EpubNav in
   Ok book)%res.

(** [create_epub]: the book, written out. *)
Definition create_epub (data : ArticleRecord) (cover_bytes : bytes) : result bytes :=
  (book <- create_book data cover_bytes ;; write_epub book)%res.
End Packager.

(** ** The scenario of the specification, and instances for examples *)
Module Scenario.

(** A [repr] for the examples: a string between quotes. *)
Definition repr (v : jvalue) : string :=
  match v with
  | JStr s => "'" ++ s ++ "'"
  | _ => "<" ++ Py.type_name v ++ ">"
  end.

(** A Python that reads the dates of the format of Python 3.7 only. *)
Definition no_more (s : string) : option PyDatetime.datetime := None.

Definition article_url : string := "https://x.substack.com/p/hello".

Definition metadata : jvalue :=
  JObj [("id", JInt 1); ("title", JStr "Hello");
        ("publishedBylines", JArr [JObj [("name", JStr "A")]]);
        ("post_date", JStr "2024-01-01T00:00:00Z");
        ("body_html", JStr "<p>hi</p>")].

Definition comment_list : jvalue :=
  JObj [("comments", JArr [JObj [("name", JStr "B"); ("body", JStr "nice")]])].

Definition api_url : string := "https://x.substack.com/api/v1/posts/hello".
Definition comment_url : string :=
  "https://x.substack.com/api/v1/posts/1/comments?sort=newest".

(** A remote side that answers [first] to the first request and [second]
    to the second, whatever the URL. *)
Definition answers (first second : response) : network :=
  fun n _ =>
    match n with
    | O => Ok first
    | _ => Ok second
    end.

Definition ok_json (v : jvalue) : response := {| status_code := 200; json := Ok v |}.

Definition not_found : response :=
  {| status_code := 404; json := Raise "Expecting value: line 1 column 1 (char 0)" |}.

Definition net : network := answers (ok_json metadata) (ok_json comment_list).

(** Two comments, the second without a body. *)
Definition two_comments : list jvalue :=
  [JObj [("name", JStr "B"); ("body", JStr "nice")];
   JObj [("name", JStr "C"); ("body", JStr "")]].

(** A post with an id and no title, whose byline has no name and whose
    date is null. *)
Definition bare_post : list (string * jvalue) :=
  [("id", JInt 7); ("publishedBylines", JArr [JObj []]); ("post_date", JNull)].

(** A post with an id and nothing else. *)
Definition fieldless_post : list (string * jvalue) := [("id", JInt 1)].

(** A post with a title, whose list of bylines is empty. *)
Definition byline_free_post : list (string * jvalue) :=
  [("title", JStr "T"); ("publishedBylines", JArr [])].

(** A remote side that answers the first request, and lets the second
    time out. *)
Definition answers_once (first : response) : network :=
  fun n _ =>
    match n with
    | O => Ok first
    | _ => Raise "Read timed out."
    end.

(** A post whose body is null. *)
Definition bodiless_post : list (string * jvalue) :=
  [("id", JInt 1); ("title", JStr "Hello"); ("body_html", JNull)].

(** A post whose title is null. *)
Definition untitled_post : list (string * jvalue) :=
  [("id", JInt 1); ("title", JNull); ("body_html", JStr "<p>hi</p>")].

(** A comment without a name. *)
Definition unsigned_comments : list jvalue := [JObj [("body", JStr "first")]].

Definition net_with_comments (cs : list jvalue) : network :=
  answers (ok_json metadata) (ok_json (JObj [("comments", JArr cs)])).

(** The record of the scenario, as the cover renderer and the packager
    receive it. *)
Definition record : ArticleRecord :=
  {| title := JStr "Hello"; author := JStr "A"; date := "January 01, 2024";
     body := JStr "<p>hi</p>"; comments := ["<b>B:</b> nice"];
     url := article_url; domain := "x.substack.com" |}.

(** A font whose glyphs are blocks, 6 by 11 pixels. *)
Definition block_font (s : string) (dx dy : Z) : bool :=
  (0 <=? dx) && (dx <? 6 * Z.of_nat (String.length s)) && (0 <=? dy) && (dy <? 11).

(** A font without shades: a touched pixel takes the fill colour. *)
Definition solid (s : string) (dx dy : Z) (fill old : PIL.color) : PIL.color := fill.

(** Pillow 9.5.0 on what is not a string: [None] and the numbers raise,
    a list or a dict is drawn as nothing. *)
Definition none_error : string := "argument of type 'NoneType' is not iterable".

Definition other_text (v : jvalue) : result (option string) :=
  match v with
  | JArr _ | JObj _ => Ok None
  | _ => Raise ("argument of type '" ++ Py.type_name v ++ "' is not iterable")
  end.

(** The lines of a text that fits the width: the text itself, or none
    for the empty text. *)
Definition short_wrap (s : string) (w : Z) : list string :=
  match s with
  | EmptyString => []
  | _ => [s]
  end.

(** Upper case of the ASCII letters. *)
Fixpoint ascii_upper (s : string) : string :=
  match s with
  | EmptyString => EmptyString
  | String c s' =>
      let n := nat_of_ascii c in
      String (if (97 <=? n)%nat && (n <=? 122)%nat then ascii_of_nat (n - 32) else c)
             (ascii_upper s')
  end.

(** An encoder that keeps the size and the first pixel. *)
Definition header (im : PIL.Image) : bytes :=
  let '(r, g, b) := PIL.pixel im 0 0 in
  map (fun z => match Byte.of_nat (Z.to_nat z) with Some x => x | None => Byte.x00 end)
      [PIL.width im / 256; PIL.width im mod 256; PIL.height im / 256; PIL.height im mod 256; r; g; b].

End Scenario.

(** ** Where a separator first occurs *)

(** [sep] does not start inside [a] when [a] is followed by [tail]: the
    first occurrence of [sep] in [a ++ tail] is not before the end of
    [a]. *)
Fixpoint clear_before (sep a tail : string) : bool :=
  match a with
  | EmptyString => true
  | String _ a' => negb (PyStr.startswith sep (a ++ tail)) && clear_before sep a' tail
  end.

(** ** Timestamps *)

(** [%04d], [%03d]: a number in four and in three digits. *)
Definition pad4 (n : Z) : string :=
  if n <? 10 then "000" ++ PyStr.of_Z n
  else if n <? 100 then "00" ++ PyStr.of_Z n
  else if n <? 1000 then "0" ++ PyStr.of_Z n
  else PyStr.of_Z n.

Definition pad3 (n : Z) : string :=
  if n <? 10 then "00" ++ PyStr.of_Z n
  else if n <? 100 then "0" ++ PyStr.of_Z n
  else PyStr.of_Z n.

(** A UTC timestamp in ISO 8601, [YYYY-MM-DDTHH:MM:SS[.mmm]Z], with or
    without milliseconds. *)
Definition iso_timestamp (y m d h mi s : Z) (ms : option Z) : string :=
  pad4 y ++ "-" ++ PyDatetime.pad2 m ++ "-" ++ PyDatetime.pad2 d ++ "T" ++
  PyDatetime.pad2 h ++ ":" ++ PyDatetime.pad2 mi ++ ":" ++ PyDatetime.pad2 s ++
  match ms with
  | Some v => "." ++ pad3 v
  | None => ""
  end ++ "Z".

(** The digits of [print n] are [n] itself, and none of them is a
    ["Z"]. *)
Definition prints_digits (k : nat) (print : Z -> string) (n : Z) : bool :=
  match PyDatetime.digits k (print n) 0 with
  | Some (v, EmptyString) => (v =? n) && negb (PyStr.contains "Z" (print n))
  | _ => false
  end.

(** The milliseconds, followed by the UTC offset, are read as a
    fraction of three digits. *)
Definition reads_millis (n : Z) : bool :=
  match PyDatetime.parse_fraction true (pad3 n ++ "+00:00") with
  | Some (v, rest) => (v =? n * 1000) && String.eqb rest "+00:00"
  | None => false
  end.

(** ** Wrapped text *)

Section TextWrapping.
(** The lines [textwrap.wrap(text, width=w)] gives for a width above
    0. *)
Variable wrap : string -> Z -> list string.
Variable font_ink : string -> Z -> Z -> bool.
Variable font_shade : string -> Z -> Z -> PIL.color -> PIL.color -> PIL.color.

(** [textwrap.wrap(text, width=w)]: a [ValueError] for a width that is
    not above 0, whatever the text. *)
Definition textwrap_wrap (text : string) (w : Z) : result (list string) :=
  if w <=? 0
  then Raise ("invalid width " ++ PyStr.of_Z w ++ " (must be > 0)")
  else Ok (wrap text w).

(** The loop of lines 89 to 91, from a raster and a row. *)
Definition draw_lines (lines : list string) (im : PIL.Image) (x y : Z) (fill : PIL.color)
  : PIL.Image * Z :=
  fold_left
    (fun state line =>
       let '(im, current_y) := state in
       (PIL.text font_ink font_shade im x current_y line fill, current_y + 40))
    lines (im, y).

(** [draw_text_wrapped] (lines 85 to 92): the raster with the lines drawn
    on it, 40 pixels apart, and the [current_y] that is returned. *)
Definition draw_text_wrapped (im : PIL.Image) (text : string) (x y max_width : Z)
           (fill : PIL.color) : result (PIL.Image * Z) :=
  (lines <- textwrap_wrap text max_width ;;
   Ok (draw_lines lines im x y fill))%res.
End TextWrapping.

(** ** Records that can be drawn and packaged *)

(** A key of a decoded object is absent, or holds text. *)
Definition text_or_absent (k : string) (kv : list (string * jvalue)) : Prop :=
  match Py.lookup k kv with
  | None => True
  | Some (JStr _) => True
  | Some _ => False
  end.

(** The title, the author and the body of a record are text. *)
Definition textual (r : ArticleRecord) : Prop :=
  (exists t, title r = JStr t) /\ (exists a, author r = JStr a) /\ (exists b, body r = JStr b).

(** The byline of a decoded post is absent, or is a list that starts with
    a dict whose name is absent or text. *)
Definition byline_textual (kv : list (string * jvalue)) : Prop :=
  match Py.lookup "publishedBylines" kv with
  | None => True
  | Some (JArr (JObj byline :: _)) => text_or_absent "name" byline
  | Some _ => False
  end.

(** ** The page *)

(** The script of the page (lines 193 to 251) runs from top to bottom each
    time the user acts.  What it keeps between two runs is the session; a
    run reads the text field and the buttons, and shows widgets. *)
Module UI.

Inductive widget : Type :=
| Title (text : string)
| Markdown (text : string)
| TextInput (label placeholder : string)
| Button (label : string)
| Spinner (text : string)
| Error (text : string)
| Success (text : string)
| Divider
| Subheader (text : string)
| Caption (text : string)
| Image (content : bytes)
| Write (text : string)
| DownloadButton (label : string) (content : bytes) (file_name mime : string).

(** [st.session_state]: each of the keys ['data'] and ['selected_cover']
    is absent or holds a value; ['data'] may hold [None]. *)
Record session : Type := {
  data : option (option ArticleRecord);
  selected_cover : option bytes
}.

(** What the user did before this run: the text of the field, and which
    buttons were pressed. *)
Record inputs : Type := {
  url_input : string;
  fetch_article : bool;
  select_classic : bool;
  select_dark : bool;
  select_minimal : bool
}.

(** A part of the script: it may raise, which ends the run; the session
    and what was shown so far stay. *)
Definition script (A : Type) : Type :=
  session * list widget -> result A * (session * list widget).

Definition ret {A} (a : A) : script A := fun st => (Ok a, st).

Definition bind {A B} (c : script A) (k : A -> script B) : script B :=
  fun st =>
    match c st with
    | (Ok a, st') => k a st'
    | (Raise m, st') => (Raise m, st')
    end.

Definition lift {A} (r : result A) : script A := fun st => (r, st).

Definition show (w : widget) : script unit :=
  fun st => (Ok tt, (fst st, List.app (snd st) [w])).

Definition session_state : script session := fun st => (Ok (fst st), st).

(** [st.session_state['data'] = d] *)
Definition set_data (d : option ArticleRecord) : script unit :=
  fun st => (Ok tt, ({| data := Some d; selected_cover := selected_cover (fst st) |}, snd st)).

(** [st.session_state['selected_cover'] = c] *)
Definition set_selected_cover (c : bytes) : script unit :=
  fun st => (Ok tt, ({| data := data (fst st); selected_cover := Some c |}, snd st)).

(** [data[key]] on what the session holds: [None] has no keys. *)
Definition on_record {A} (d : option ArticleRecord) (f : ArticleRecord -> result A) : result A :=
  match d with
  | Some r => f r
  | None => Raise "'NoneType' object is not subscriptable"
  end.

Definition is_continuation (c : ascii) : bool :=
  (128 <=? nat_of_ascii c)%nat && (nat_of_ascii c <? 192)%nat.

(** [s[:n]]: the first [n] characters, each a first byte with the
    continuation bytes after it. *)
Fixpoint take_chars (n : nat) (s : string) : string :=
  match s with
  | EmptyString => EmptyString
  | String c s' =>
      if is_continuation c then String c (take_chars n s')
      else match n with
           | O => EmptyString
           | S k => String c (take_chars k s')
           end
  end.

(** [v[:15]]: the first 15 characters of a string, the first 15 items of a
    list; no other value can be sliced.  (The text for a dict is that of
    Python 3.11 and earlier; nothing below depends on it.) *)
Definition slice15 (v : jvalue) : result jvalue :=
  match v with
  | JStr s => Ok (JStr (take_chars 15 s))
  | JArr l => Ok (JArr (firstn 15 l))
  | JObj _ => Raise "unhashable type: 'slice'"
  | _ => Raise ("'" ++ Py.type_name v ++ "' object is not subscriptable")
  end.

End UI.

Declare Scope ui_scope.
Delimit Scope ui_scope with ui.
Notation "x <- c ;; k" := (UI.bind c (fun x => k))
  (at level 61, c at next level, right associativity) : ui_scope.
Notation "c ;;; k" := (UI.bind c (fun _ => k))
  (at level 61, right associativity) : ui_scope.

Section Page.
Variable py_repr : jvalue -> string.
Variable iso_more : string -> option PyDatetime.datetime.
Variable str_upper : string -> string.
Variable font_ink : string -> Z -> Z -> bool.
Variable font_shade : string -> Z -> Z -> PIL.color -> PIL.color -> PIL.color.
Variable text_error : string.
Variable text_other : jvalue -> result (option string).
Variable jpeg_encode : PIL.Image -> bytes.
Variable write_epub : Epub.EpubBook -> result bytes.
Variable net : network.

(** [if error:] on the second component of the fetch. *)
Definition error_shown (error : option string) : option string :=
  match error with
  | Some e => if String.eqb e "" then None else Some e
  | None => None
  end.

(** Lines 198 to 207: the fetch button. *)
Definition fetch_part (inp : UI.inputs) : UI.script unit :=
  if negb (String.eqb (UI.url_input inp) "")
  then
    (UI.show (UI.Button "Fetch Article") ;;;
     if UI.fetch_article inp
     then
       (UI.show (UI.Spinner "Talking to Substack API...") ;;;
        let '(data, error) := get_substack_api_data py_repr iso_more net (UI.url_input inp) in
        match error_shown error with
        | Some e => UI.show (UI.Error e)
        | None =>
            UI.set_data data ;;;
            UI.show (UI.Success "Article & Comments Found!")
        end)
     else UI.ret tt)%ui
  else UI.ret tt.

(** One column of lines 218 to 237: the cover of a style, and its
    button. *)
Definition cover_column (caption style label : string) (pressed : bool)
           (data : option ArticleRecord) : UI.script unit :=
  (UI.show (UI.Caption caption) ;;;
   cov <- UI.lift (UI.on_record data
                     (generate_cover py_repr str_upper font_ink font_shade text_error text_other
                         jpeg_encode style)) ;;
   UI.show (UI.Image cov) ;;;
   UI.show (UI.Button label) ;;;
   if pressed then UI.set_selected_cover cov else UI.ret tt)%ui.

(** Lines 239 to 251: the download. *)
Definition download_part (data : option ArticleRecord) : UI.script unit :=
  (s <- UI.session_state ;;
   match UI.selected_cover s with
   | None => UI.ret tt
   | Some cover =>
       UI.show UI.Divider ;;;
       t <- UI.lift (UI.on_record data (fun r => Ok (title r))) ;;
       UI.show (UI.Write ("**Ready to Download:** " ++ Py.str py_repr t)) ;;;
       cs <- UI.lift (UI.on_record data (fun r => Ok (comments r))) ;;
       UI.show (UI.Write ("**Comments included:** "
                            ++ PyStr.of_Z (Z.of_nat (List.length cs)))) ;;;
       epub_file <- UI.lift (UI.on_record data
                               (fun r => create_epub py_repr write_epub r cover)) ;;
       t' <- UI.lift (UI.on_record data (fun r => Ok (title r))) ;;
       short <- UI.lift (UI.slice15 t') ;;
       UI.show (UI.DownloadButton "Download EPUB for Kindle" epub_file
                  (Py.str py_repr short ++ "_Kindle.epub") "application/epub+zip")
   end)%ui.

(** Lines 209 to 251: what is shown once a record is in the session. *)
Definition record_part (inp : UI.inputs) : UI.script unit :=
  (s <- UI.session_state ;;
   match UI.data s with
   | None => UI.ret tt
   | Some data =>
       UI.show UI.Divider ;;;
       UI.show (UI.Subheader "Select a Cover Style") ;;;
       cover_column "Classic" "Classic Typography" "Select Classic"
                    (UI.select_classic inp) data ;;;
       cover_column "Dark" "Modern Dark" "Select Dark" (UI.select_dark inp) data ;;;
       cover_column "Minimal" "Minimalist White" "Select Minimal"
                    (UI.select_minimal inp) data ;;;
       download_part data
   end)%ui.

(** One run of the script. *)
Definition page (inp : UI.inputs) : UI.script unit :=
  (UI.show (UI.Title "Ray's Substack Reader") ;;;
   UI.show (UI.Markdown "Paste a Substack link. Get a Kindle file with comments.") ;;;
   UI.show (UI.TextInput "Substack URL" "https://...") ;;;
   fetch_part inp ;;;
   record_part inp)%ui.

(** A run from a session: the exception that ended it, if any, the
    session it leaves and what it showed. *)
Definition run_page (s : UI.session) (inp : UI.inputs)
  : result unit * (UI.session * list UI.widget) :=
  page inp (s, []).
End Page.

(** Instances for the examples of the page. *)
Module Example.

(** A writer that gives the first bytes of a zip file. *)
Definition zip (book : Epub.EpubBook) : result bytes := Ok [Byte.x50; Byte.x4b].

Definition idle : UI.inputs :=
  {| UI.url_input := ""; UI.fetch_article := false; UI.select_classic := false;
     UI.select_dark := false; UI.select_minimal := false |}.

Definition fetch (url : string) : UI.inputs :=
  {| UI.url_input := url; UI.fetch_article := true; UI.select_classic := false;
     UI.select_dark := false; UI.select_minimal := false |}.

Definition press_dark : UI.inputs :=
  {| UI.url_input := ""; UI.fetch_article := false; UI.select_classic := false;
     UI.select_dark := true; UI.select_minimal := false |}.

(** An earlier article, and the session that holds it with a cover
    chosen for it. *)
Definition earlier : ArticleRecord :=
  {| title := JStr "An earlier article"; author := JStr "Z"; date := "Undated";
     body := JStr "<p>old</p>"; comments := [];
     url := "https://x.substack.com/p/earlier"; domain := "x.substack.com" |}.

Definition chosen : bytes := [Byte.xff; Byte.xd8].

Definition ready : UI.session :=
  {| UI.data := Some (Some earlier); UI.selected_cover := Some chosen |}.

Definition unselected : UI.session :=
  {| UI.data := Some (Some earlier); UI.selected_cover := None |}.

End Example.

Example split_ex :
  PyStr.split "/p/" "https://x.substack.com/p/hello/p/a" =
  ["https://x.substack.com"; "hello"; "a"].
Proof. reflexivity. Qed.

Example replace_ex : PyStr.replace "Z" "+00:00" "2024-01-01T00:00:00Z" = "2024-01-01T00:00:00+00:00".
Proof. reflexivity. Qed.

Example of_Z_ex : PyStr.of_Z 404 = "404" /\ PyStr.of_Z (-12) = "-12" /\ PyStr.of_Z 200 = "200".
Proof. repeat split; reflexivity. Qed.

Example fromiso_ex :
  rbind (PyDatetime.fromisoformat (fun _ => "") (fun _ => None) "2024-02-29T23:59:59.123+05:30")
        (fun dt => Ok (PyDatetime.strftime_B_d_Y dt)) = Ok "February 29, 2024".
Proof. reflexivity. Qed.

Example fromiso_bad :
  PyDatetime.fromisoformat (fun _ => "'x'") (fun _ => None) "2023-02-29"
      = Raise "day is out of range for month"
  /\ PyDatetime.fromisoformat (fun _ => "'x'") (fun _ => None) "garbage"
      = Raise "Invalid isoformat string: 'x'"
  /\ PyDatetime.fromisoformat (fun _ => "'x'") (fun _ => None) "2024-01-01T00:00:00Z"
      = Raise "Invalid isoformat string: 'x'".
Proof. repeat split; reflexivity. Qed.

(** * Properties *)

(** ** Strings *)

Lemma append_length (a b : string) :
  String.length (a ++ b) = (String.length a + String.length b)%nat.
Proof. induction a as [|c a IH]; simpl; [reflexivity | now rewrite IH]. Qed.

Lemma append_assoc (a b c : string) : (a ++ b) ++ c = a ++ b ++ c.
Proof. induction a as [|x a IH]; simpl; [reflexivity | now rewrite IH]. Qed.

Lemma append_nil_r (a : string) : a ++ "" = a.
Proof. induction a as [|x a IH]; simpl; [reflexivity | now rewrite IH]. Qed.

Lemma append_same_l (a b : string) : a ++ b = a -> b = "".
Proof.
  intros H. apply (f_equal String.length) in H. rewrite append_length in H.
  destruct b; [reflexivity | simpl in H; lia].
Qed.

Lemma startswith_spec (p s : string) :
  PyStr.startswith p s = true <-> exists b, s = p ++ b.
Proof.
  revert s. induction p as [|a p IH]; intros s; simpl.
  - split; [exists s; reflexivity | reflexivity].
  - destruct s as [|b s].
    + split; [discriminate | intros [x Hx]; discriminate].
    + destruct (Ascii.eqb_spec a b) as [->|Hne].
      * rewrite IH. split; intros [x Hx]; exists x; [now subst | now injection Hx].
      * split; [discriminate | intros [x Hx]; injection Hx; intros; subst; contradiction].
Qed.

(** [sep in s] holds exactly when [s] has [sep] somewhere inside. *)
Lemma contains_spec (sep s : string) :
  PyStr.contains sep s = true <-> exists a b, s = a ++ sep ++ b.
Proof.
  induction s as [|c s IH].
  - cbn [PyStr.contains]. rewrite startswith_spec. split.
    + intros [b Hb]. exists "", b. exact Hb.
    + intros (a & b & H). destruct a; [exists b; exact H | discriminate].
  - cbn [PyStr.contains]. rewrite orb_true_iff, startswith_spec, IH. split.
    + intros [[b Hb] | (a & b & H)].
      * exists "", b. exact Hb.
      * exists (String c a), b. simpl. now rewrite H.
    + intros (a & b & H). destruct a as [|x a].
      * left. exists b. exact H.
      * right. simpl in H. injection H as _ H. exists a, b. exact H.
Qed.

(** ** The fetcher, step by step *)

Section FetcherSteps.
Variable py_repr : jvalue -> string.
Variable iso_more : string -> option PyDatetime.datetime.
Variable net : network.

(** The comment stage sends one request, or none. *)
Lemma get_comments_eq (domain : string) (post_id : jvalue) (log : list string) :
  get_comments py_repr net domain post_id log =
  if Py.truthy post_id then
    let log' := (log ++ [comment_url_of py_repr domain post_id])%list in
    match net (List.length log) (comment_url_of py_repr domain post_id) with
    | Raise m => (Raise m, log')
    | Ok c_resp =>
        if status_code c_resp =? 200
        then (rbind (json c_resp) (read_comments py_repr), log')
        else (Ok [], log')
    end
  else (Ok [], log).
Proof.
  unfold get_comments. destruct (Py.truthy post_id); [|reflexivity].
  unfold IO.bind, IO.requests_get, IO.lift, IO.ret.
  destruct (net _ _) as [c_resp|m]; [|reflexivity].
  destruct (status_code c_resp =? 200); [|reflexivity].
  destruct (json c_resp); reflexivity.
Qed.

(** The [try] block, request by request. *)
Lemma fetch_post_eq (domain slug url : string) :
  fetch_post py_repr iso_more net domain slug url [] =
  let api_url := api_url_of domain slug in
  match net 0%nat api_url with
  | Raise m => (Raise m, [api_url])
  | Ok resp =>
      if negb (status_code resp =? 200)
      then (Ok (None, Some ("API Error: " ++ PyStr.of_Z (status_code resp))), [api_url])
      else
        match rbind (json resp) (read_post py_repr iso_more) with
        | Raise m => (Raise m, [api_url])
        | Ok (post_id, title, author, date_str, body_html) =>
            match get_comments py_repr net domain post_id [api_url] with
            | (Ok comments, log) =>
                (Ok (Some {| title := title; author := author; date := date_str;
                             body := body_html; comments := comments;
                             url := url; domain := domain |}, None), log)
            | (Raise m, log) => (Raise m, log)
            end
        end
  end.
Proof.
  unfold fetch_post, IO.bind, IO.requests_get, IO.lift, IO.ret. simpl List.length.
  cbv zeta. simpl List.app.
  destruct (net 0%nat _) as [resp|m]; [|reflexivity].
  destruct (negb _); [reflexivity|].
  destruct (json resp) as [data|m]; [|reflexivity]. simpl rbind.
  destruct (read_post py_repr iso_more data) as [[[[[post_id title] author] date_str] body_html]|m];
    [|reflexivity].
  destruct (get_comments _ _ _ _ _) as [[comments|m] log]; reflexivity.
Qed.

(** A URL is refused before any request, or the [try] block decides. *)
Lemma run_eq (url : string) :
  get_substack_api_data_run py_repr iso_more net url =
  match extract_slug url with
  | None => ((None, Some "Invalid Substack URL. Must contain '/p/'."), [])
  | Some slug =>
      if String.eqb slug ""
      then ((None, Some "Invalid Substack URL. Must contain '/p/'."), [])
      else
        match url_domain url with
        | Raise _ => ((None, Some "Could not parse domain."), [])
        | Ok domain =>
            match fetch_post py_repr iso_more net domain slug url [] with
            | (Ok r, log) => (r, log)
            | (Raise e, log) => ((None, Some e), log)
            end
        end
  end.
Proof.
  unfold get_substack_api_data_run. destruct (extract_slug url) as [slug|]; [|reflexivity].
  simpl Py.truthy. rewrite negb_involutive. reflexivity.
Qed.

End FetcherSteps.

(** ** Exceptions have a text *)


Lemma described_ok {A : Type} (a : A) : described (Ok a).
Proof. intros m H. discriminate. Qed.

Lemma described_raise {A : Type} (c : ascii) (s : string) : described (@Raise A (String c s)).
Proof. intros m H. injection H as <-. discriminate. Qed.

Lemma described_bind {A B : Type} (r : result A) (k : A -> result B) :
  described r -> (forall a, described (k a)) -> described (rbind r k).
Proof.
  intros Hr Hk m H. destruct r as [a|m']; simpl in H.
  - now apply (Hk a).
  - injection H as <-. now apply Hr.
Qed.

Lemma rbind_raise {A B : Type} (r : result A) (k : A -> result B) (m : string) :
  rbind r k = Raise m -> r = Raise m \/ exists a, r = Ok a /\ k a = Raise m.
Proof.
  destruct r as [a|m']; simpl; intros H; [right; now exists a | left; now injection H as ->].
Qed.

Create HintDb described.
#[local] Hint Resolve described_ok described_raise : described.

Lemma described_get (d : jvalue) (k : string) (v : jvalue) : described (Py.get d k v).
Proof. destruct d; simpl; unfold Py.no_attribute; simpl; auto with described. Qed.

Lemma described_getitem0 (v : jvalue) : described (Py.getitem0 v).
Proof.
  destruct v as [| | | |s|l|kv]; simpl; auto with described.
  - destruct s; auto with described.
  - destruct l; auto with described.
Qed.

Lemma described_iter (v : jvalue) : described (Py.iter v).
Proof. destruct v; simpl; auto with described. Qed.

Lemma described_replace (v : jvalue) (old new : string) : described (Py.replace v old new).
Proof. destruct v; simpl; unfold Py.no_attribute; simpl; auto with described. Qed.

Lemma described_check_fields (dt : PyDatetime.datetime) : described (PyDatetime.check_fields dt).
Proof.
  unfold PyDatetime.check_fields.
  repeat match goal with
         | |- described (if ?b then _ else _) => destruct b
         | |- described (match ?o with Some _ => _ | None => _ end) => destruct o
         end; simpl; auto with described.
Qed.

#[local] Hint Resolve described_get described_getitem0 described_iter described_replace
  described_check_fields : described.

Section FetcherFacts.
Variable py_repr : jvalue -> string.
Variable iso_more : string -> option PyDatetime.datetime.
Variable net : network.

Lemma described_fromisoformat (s : string) : described
    (PyDatetime.fromisoformat py_repr iso_more s).
Proof.
  unfold PyDatetime.fromisoformat. destruct (PyDatetime.parse_isoformat s);
    [|destruct (iso_more s)]; simpl; auto with described.
Qed.

Lemma described_format_date (v : jvalue) : described (format_date py_repr iso_more v).
Proof.
  unfold format_date. destruct (Py.truthy v); auto with described.
  apply described_bind; auto with described. intros s.
  apply described_bind; [apply described_fromisoformat | auto with described].
Qed.

Lemma described_read_post (data : jvalue) : described (read_post py_repr iso_more data).
Proof.
  unfold read_post.
  repeat (apply described_bind;
          [first [apply described_format_date | auto with described] | intros ?]).
  auto with described.
Qed.

Lemma described_comment_loop (cs : list jvalue) (acc : list string) :
  described (comment_loop py_repr cs acc).
Proof.
  revert acc. induction cs as [|c cs IH]; intros acc; simpl; auto with described.
  apply described_bind; [|intros ?; apply IH].
  unfold comment_step. repeat (apply described_bind; [auto with described | intros ?]).
  auto with described.
Qed.

Lemma described_read_comments (c_data : jvalue) : described (read_comments py_repr c_data).
Proof.
  unfold read_comments.
  repeat (apply described_bind; [auto with described | intros ?]).
  apply described_comment_loop.
Qed.

(** The loop keeps what was collected and adds, in order, the entries of
    the comments that have a body; it raises on what is not a dict. *)
Lemma comment_loop_ok (cs : list jvalue) (acc out : list string) :
  comment_loop py_repr cs acc = Ok out ->
  out = (acc ++ map (comment_entry py_repr) (filter has_body cs))%list
  /\ forall c, In c cs -> exists kv, c = JObj kv.
Proof.
  revert acc. induction cs as [|c cs IH]; intros acc H; simpl in H.
  - injection H as <-. simpl. rewrite app_nil_r. split; [reflexivity | intros c []].
  - destruct c as [| | | | | |kv]; try discriminate.
    unfold comment_step in H. cbn [Py.get rbind] in H.
    simpl filter. unfold has_body at 1. cbn [comment_body].
    destruct (Py.truthy (Py.lookup_default "body" (JStr "") kv));
      apply IH in H; destruct H as [-> Hall]; (split;
        [| intros c [<-|Hin]; [eexists; reflexivity | now apply Hall]]).
    + rewrite <- app_assoc. reflexivity.
    + reflexivity.
Qed.

(** A run that sent a request went through the [try] block. *)
Lemma run_sent_inv (url first : string) (rest : list string) :
  requests_sent py_repr iso_more net url = first :: rest ->
  exists domain slug,
    url_domain url = Ok domain
    /\ get_substack_api_data_run py_repr iso_more net url =
       match fetch_post py_repr iso_more net domain slug url [] with
       | (Ok r, log) => (r, log)
       | (Raise e, log) => ((None, Some e), log)
       end.
Proof.
  unfold requests_sent. rewrite run_eq.
  destruct (extract_slug url) as [slug|]; [|discriminate].
  destruct (String.eqb slug ""); [discriminate|].
  destruct (url_domain url) as [domain|]; [|discriminate].
  intros _. exists domain, slug. split; reflexivity.
Qed.

(** The run after a first answer of status 200 that decodes to [data]. *)
Lemma run_after_metadata (url first : string) (rest : list string)
      (resp : response) (data : jvalue) :
  requests_sent py_repr iso_more net url = first :: rest ->
  net 0%nat first = Ok resp -> status_code resp = 200 -> json resp = Ok data ->
  exists domain,
    url_domain url = Ok domain
    /\ get_substack_api_data_run py_repr iso_more net url =
       match read_post py_repr iso_more data with
       | Raise m => ((None, Some m), [first])
       | Ok (post_id, title, author, date_str, body_html) =>
           match get_comments py_repr net domain post_id [first] with
           | (Ok comments, log) =>
               ((Some {| title := title; author := author; date := date_str;
                         body := body_html; comments := comments;
                         url := url; domain := domain |}, None), log)
           | (Raise m, log) => ((None, Some m), log)
           end
       end.
Proof.
  intros Hsent Hnet H200 Hjson.
  destruct (run_sent_inv _ _ _ Hsent) as (domain & slug & Hdomain & Hrun).
  exists domain. split; [exact Hdomain|].
  unfold requests_sent in Hsent. rewrite Hrun in *.
  rewrite fetch_post_eq in *. cbv zeta in *.
  assert (Hfirst : first = api_url_of domain slug).
  { destruct (net 0%nat (api_url_of domain slug)) as [resp'|m]; simpl in Hsent.
    - destruct (negb _); simpl in Hsent; [congruence|].
      destruct (rbind _ _) as [[[[[post_id title] author] date_str] body_html]|m];
        simpl in Hsent; [|congruence].
      rewrite get_comments_eq in Hsent.
      destruct (Py.truthy post_id); simpl in Hsent; [|congruence].
      destruct (net _ _) as [c|m]; simpl in Hsent; [|congruence].
      destruct (status_code c =? 200); simpl in Hsent; [|congruence].
      destruct (rbind _ _); simpl in Hsent; congruence.
    - congruence. }
  subst first. rewrite Hnet, H200, Hjson. simpl.
  destruct (read_post py_repr iso_more data) as [[[[[post_id title] author] date_str] body_html]|m];
    [|reflexivity].
  destruct (get_comments _ _ _ _ _) as [[comments|m] log]; reflexivity.
Qed.

(** What is read from a decoded post that is a dict. *)
Lemma read_post_dict (kv : list (string * jvalue)) :
  read_post py_repr iso_more (JObj kv) =
  (byline <- Py.getitem0 (Py.lookup_default "publishedBylines" (JArr [JObj []]) kv) ;;
   author <- Py.get byline "name" (JStr "Unknown Author") ;;
   date_str <- format_date py_repr iso_more (Py.lookup_default "post_date" JNull kv) ;;
   Ok (Py.lookup_default "id" JNull kv,
       Py.lookup_default "title" (JStr "Untitled") kv,
       author, date_str,
       Py.lookup_default "body_html" (JStr "") kv))%res.
Proof. reflexivity. Qed.

(** A dict whose byline and date can be read is read without exception:
    the title and the body are what the dict holds, or their defaults; the
    author is the name of the first byline, or the default when there is
    no byline or no name in it. *)
Lemma read_post_readable (kv : list (string * jvalue)) :
  bylines_readable kv -> date_readable py_repr iso_more kv ->
  exists date_str,
    format_date py_repr iso_more (Py.lookup_default "post_date" JNull kv) = Ok date_str
    /\ read_post py_repr iso_more (JObj kv) =
       Ok (Py.lookup_default "id" JNull kv,
           Py.lookup_default "title" (JStr "Untitled") kv,
           match Py.lookup "publishedBylines" kv with
           | Some (JArr (JObj byline :: _)) =>
               Py.lookup_default "name" (JStr "Unknown Author") byline
           | _ => JStr "Unknown Author"
           end,
           date_str,
           Py.lookup_default "body_html" (JStr "") kv).
Proof.
  unfold bylines_readable, date_readable. intros Hby Hdate.
  assert (Hd : exists d,
             format_date py_repr iso_more (Py.lookup_default "post_date" JNull kv) = Ok d).
  { unfold Py.lookup_default. destruct (Py.lookup "post_date" kv) as [v|];
      [exact Hdate | exists "Undated"; reflexivity]. }
  destruct Hd as [d Hd]. exists d. split; [exact Hd|].
  rewrite read_post_dict, Hd. unfold Py.lookup_default at 1.
  destruct (Py.lookup "publishedBylines" kv) as [bylines|].
  - destruct bylines as [| | | | |[|[| | | | | |o] more]|]; try contradiction.
    reflexivity.
  - reflexivity.
Qed.

(** The comments of a record are the entries of the comments it was
    built from that have a body, in their order. *)
Lemma fetched_comments_eq (url : string) (cs : list jvalue) (r : ArticleRecord) :
  fetched_with_comments py_repr iso_more net url cs r ->
  comments r = map (comment_entry py_repr) (filter has_body cs).
Proof.
  intros (Hget & api_url & comment_url & c_resp & c_data & Hsent & Hnet & H200 & Hjson & Hlist).
  unfold get_substack_api_data in Hget.
  destruct (run_sent_inv _ _ _ Hsent) as (domain & slug & _ & Hrun).
  unfold requests_sent in Hsent. rewrite Hrun in *. clear Hrun.
  rewrite fetch_post_eq in *. cbv zeta in *.
  destruct (net 0%nat (api_url_of domain slug)) as [resp|m]; [|discriminate].
  destruct (negb (status_code resp =? 200)); [discriminate|].
  destruct (rbind (json resp) (read_post py_repr iso_more))
    as [[[[[post_id title] author] date_str] body_html]|m]; [|discriminate].
  rewrite get_comments_eq in *.
  destruct (Py.truthy post_id); [|discriminate].
  cbv zeta in *. simpl List.length in *. simpl List.app in *.
  destruct (net 1%nat (comment_url_of py_repr domain post_id)) as [c|m] eqn:Hsecond.
  - assert (Hurl : comment_url = comment_url_of py_repr domain post_id).
    { destruct (status_code c =? 200); [destruct (rbind _ _)|];
        simpl in Hsent; congruence. }
    subst comment_url. rewrite Hnet in Hsecond. injection Hsecond as <-.
    rewrite H200, Hjson in Hget. simpl in Hget.
    unfold read_comments in Hget. rewrite Hlist in Hget. simpl in Hget.
    destruct (comment_loop py_repr cs []) as [out|m] eqn:Hloop; simpl in Hget;
      [|discriminate].
    injection Hget as <-. simpl. apply comment_loop_ok in Hloop. apply Hloop.
  - simpl in Hsent. injection Hsent as _ <-. congruence.
Qed.

End FetcherFacts.

(** ** The fetcher *)

(** C4. A URL in which the marker ["/p/"] does not occur is refused
    with the message that names the missing marker: no record is returned,
    and no request is sent. *)
Theorem fetch_without_marker_is_input_error
  (py_repr : jvalue -> string)
  (iso_more : string -> option PyDatetime.datetime) (net : network) (url : string)
  (Hmarker : forall before after, url <> before ++ "/p/" ++ after) :
  get_substack_api_data py_repr iso_more net url =
    (None, Some "Invalid Substack URL. Must contain '/p/'.")
  /\ requests_sent py_repr iso_more net url = [].
Proof.
  assert (Hin : PyStr.contains "/p/" url = false).
  { destruct (PyStr.contains "/p/" url) eqn:E; [|reflexivity].
    apply contains_spec in E. destruct E as (a & b & E). now apply Hmarker in E. }
  unfold get_substack_api_data, requests_sent, get_substack_api_data_run, extract_slug.
  rewrite Hin. split; reflexivity.
Qed.

Lemma fetch_without_marker_witness :
  get_substack_api_data Scenario.repr Scenario.no_more Scenario.net
      "https://x.substack.com/archive" =
    (None, Some "Invalid Substack URL. Must contain '/p/'.")
  /\ requests_sent Scenario.repr Scenario.no_more Scenario.net "https://x.substack.com/archive"
      = [].
Proof.
  apply (fetch_without_marker_is_input_error Scenario.repr Scenario.no_more Scenario.net
           "https://x.substack.com/archive").
  intros before after H.
  assert (E : PyStr.contains "/p/" "https://x.substack.com/archive" = true)
    by (apply contains_spec; exists before, after; exact H).
  vm_compute in E. discriminate.
Defined.

(** C8. In the scenario of the specification the fetch returns a record
    whose date is "January 01, 2024" and whose comments are the one entry
    [<b>B:</b> nice]: the name is set in bold. *)
Theorem scenario_record
  (py_repr : jvalue -> string)
  (iso_more : string -> option PyDatetime.datetime) (net : network)
  (Hmeta : net 0%nat Scenario.api_url = Ok (Scenario.ok_json Scenario.metadata))
  (Hcomments : net 1%nat Scenario.comment_url = Ok (Scenario.ok_json Scenario.comment_list)) :
  get_substack_api_data py_repr iso_more net Scenario.article_url =
    (Some {| title := JStr "Hello"; author := JStr "A"; date := "January 01, 2024";
             body := JStr "<p>hi</p>"; comments := ["<b>B:</b> nice"];
             url := Scenario.article_url; domain := "x.substack.com" |}, None).
Proof.
  unfold get_substack_api_data. rewrite run_eq.
  replace (extract_slug Scenario.article_url) with (Some "hello") by reflexivity.
  replace (url_domain Scenario.article_url) with (Ok (A:=string) "x.substack.com") by reflexivity.
  cbv beta iota. simpl String.eqb. cbv beta iota.
  rewrite fetch_post_eq. cbv zeta.
  change (api_url_of "x.substack.com" "hello") with Scenario.api_url.
  rewrite Hmeta.
  cbn [Scenario.ok_json status_code json Z.eqb Pos.eqb negb rbind].
  replace (read_post py_repr iso_more Scenario.metadata)
    with (Ok (JInt 1, JStr "Hello", JStr "A", "January 01, 2024", JStr "<p>hi</p>"))
    by reflexivity.
  cbv beta iota. rewrite get_comments_eq.
  simpl Py.truthy. cbv beta iota zeta. simpl List.length.
  change (comment_url_of py_repr "x.substack.com" (JInt 1)) with Scenario.comment_url.
  rewrite Hcomments.
  cbn [Scenario.ok_json status_code json Z.eqb Pos.eqb negb rbind].
  reflexivity.
Qed.

Lemma scenario_record_witness :
  get_substack_api_data Scenario.repr Scenario.no_more Scenario.net Scenario.article_url =
    (Some Scenario.record, None).
Proof.
  apply (scenario_record Scenario.repr Scenario.no_more Scenario.net); reflexivity.
Defined.

(** C8, as stated: the comments of the scenario are not the bare
    ["B: nice"]. *)
Lemma scenario_comments_not_bare :
  exists r,
    get_substack_api_data Scenario.repr Scenario.no_more Scenario.net Scenario.article_url
        = (Some r, None)
    /\ date r = "January 01, 2024"
    /\ comments r <> ["B: nice"].
Proof.
  exists Scenario.record. split; [reflexivity|]. split; [reflexivity|].
  discriminate.
Qed.

(** ** The cover renderer *)

Section CoverFacts.
Variable py_repr : jvalue -> string.
Variable str_upper : string -> string.
Variable font_ink : string -> Z -> Z -> bool.
Variable font_shade : string -> Z -> Z -> PIL.color -> PIL.color -> PIL.color.
Variable text_error : string.
Variable text_other : jvalue -> result (option string).

(** The three styles, on a record whose title and author are text. *)
Lemma cover_image_classic (data : ArticleRecord) (t a : string) :
  title data = JStr t -> author data = JStr a ->
  cover_image py_repr str_upper font_ink font_shade text_error text_other "Classic Typography"
      data =
  Ok (PIL.text font_ink font_shade
        (PIL.text font_ink font_shade
           (PIL.text font_ink font_shade
              (PIL.text font_ink font_shade
                 (PIL.rectangle_outline (PIL.new 600 900 (248, 241, 229)) 20 20 580 880 (0, 0, 0) 3)
                 50 200 t PIL.black)
              50 400 a PIL.black)
           50 450 (date data) PIL.gray)
        50 800 "SUBSTACK ARCHIVE" PIL.gray).
Proof. intros Ht Ha. unfold cover_image. rewrite Ht, Ha. reflexivity. Qed.

Lemma cover_image_dark (data : ArticleRecord) (t : string) :
  title data = JStr t ->
  cover_image py_repr str_upper font_ink font_shade text_error text_other "Modern Dark" data =
  Ok (PIL.text font_ink font_shade
        (PIL.text font_ink font_shade
           (PIL.text font_ink font_shade
              (PIL.rectangle_fill (PIL.new 600 900 (20, 20, 20)) 0 150 20 350 (255, 87, 34))
              50 150 t PIL.white)
           50 500 ("Written by " ++ Py.str py_repr (author data)) PIL.lightgray)
        50 530 (date data) PIL.gray).
Proof. intros Ht. unfold cover_image. rewrite Ht. reflexivity. Qed.

Lemma cover_image_minimal (data : ArticleRecord) (t a : string) :
  title data = JStr t -> author data = JStr a ->
  cover_image py_repr str_upper font_ink font_shade text_error text_other "Minimalist White" data =
  Ok (PIL.text font_ink font_shade
        (PIL.text font_ink font_shade
           (PIL.line_horizontal
              (PIL.text font_ink font_shade
                 (PIL.text font_ink font_shade (PIL.new 600 900 (255, 255, 255)) 50 50 "ARTICLE"
                     PIL.red)
                 50 100 t PIL.black)
              50 550 300 PIL.black 2)
           50 320 (str_upper a) PIL.black)
        50 850 (domain data) PIL.gray).
Proof. intros Ht Ha. unfold cover_image. rewrite Ht, Ha. reflexivity. Qed.

(** A style that is none of the three draws nothing on the first raster. *)
Lemma cover_image_other (style : string) (data : ArticleRecord) :
  style <> "Classic Typography" -> style <> "Modern Dark" -> style <> "Minimalist White" ->
  cover_image py_repr str_upper font_ink font_shade text_error text_other style data
      = Ok (PIL.new 600 900 (255, 255, 255)).
Proof.
  intros H1 H2 H3. unfold cover_image.
  apply String.eqb_neq in H1, H2, H3. now rewrite H1, H2, H3.
Qed.

End CoverFacts.

(** C1. A style tag that is none of the three fixed values raises
    nothing: [generate_cover] returns the encoding of the blank white
    600 by 900 raster it starts from. *)
Theorem generate_cover_unknown_style_is_blank
  (py_repr : jvalue -> string) (str_upper : string -> string)
  (font_ink : string -> Z -> Z -> bool)
  (font_shade : string -> Z -> Z -> PIL.color -> PIL.color -> PIL.color)
  (text_error : string) (text_other : jvalue -> result (option string))
      (jpeg_encode : PIL.Image -> bytes)
  (style : string) (data : ArticleRecord)
  (Hclassic : style <> "Classic Typography")
  (Hdark : style <> "Modern Dark")
  (Hminimal : style <> "Minimalist White") :
  generate_cover py_repr str_upper font_ink font_shade text_error text_other jpeg_encode style
      data =
    Ok (jpeg_encode (PIL.new 600 900 (255, 255, 255))).
Proof.
  unfold generate_cover. now rewrite cover_image_other.
Qed.

Lemma generate_cover_unknown_style_witness :
  generate_cover Scenario.repr Scenario.ascii_upper Scenario.block_font Scenario.solid
      Scenario.none_error Scenario.other_text Scenario.header
    "Vintage" Scenario.record =
    Ok (Scenario.header (PIL.new 600 900 (255, 255, 255))).
Proof.
  apply (generate_cover_unknown_style_is_blank Scenario.repr Scenario.ascii_upper
           Scenario.block_font Scenario.solid Scenario.none_error Scenario.other_text
               Scenario.header "Vintage" Scenario.record);
    discriminate.
Defined.

(** C1, as stated: for the tag "Vintage" no error is raised and an image
    is produced. *)
Lemma generate_cover_unknown_style_no_error :
  "Vintage" <> "Classic Typography" /\ "Vintage" <> "Modern Dark"
  /\ "Vintage" <> "Minimalist White"
  /\ (forall msg,
        generate_cover Scenario.repr Scenario.ascii_upper Scenario.block_font Scenario.solid
            Scenario.none_error Scenario.other_text Scenario.header
          "Vintage" Scenario.record <> Raise msg)
  /\ exists image,
       generate_cover Scenario.repr Scenario.ascii_upper Scenario.block_font Scenario.solid
           Scenario.none_error Scenario.other_text Scenario.header
         "Vintage" Scenario.record = Ok image.
Proof.
  repeat split; try discriminate.
  eexists. reflexivity.
Qed.

(** C7. On every record whose title and author are text, with a font
    that inks nothing 50 pixels or more to the left of where a text is
    anchored, each of the three styles gives a raster of 600 by 900 pixels,
    which [generate_cover] encodes, and the three rasters differ pairwise:
    their top left pixels have the three background colours. *)
Theorem generate_cover_three_styles
  (py_repr : jvalue -> string) (str_upper : string -> string)
  (font_ink : string -> Z -> Z -> bool)
  (font_shade : string -> Z -> Z -> PIL.color -> PIL.color -> PIL.color)
  (text_error : string) (text_other : jvalue -> result (option string))
      (jpeg_encode : PIL.Image -> bytes)
  (data : ArticleRecord) (t a : string)
  (Htitle : title data = JStr t)
  (Hauthor : author data = JStr a)
  (Hfont : forall s dx dy, dx <= -50 -> font_ink s dx dy = false) :
  exists classic dark minimal,
    generate_cover py_repr str_upper font_ink font_shade text_error text_other jpeg_encode
        "Classic Typography" data
      = Ok (jpeg_encode classic)
    /\ generate_cover py_repr str_upper font_ink font_shade text_error text_other jpeg_encode
        "Modern Dark" data
      = Ok (jpeg_encode dark)
    /\ generate_cover py_repr str_upper font_ink font_shade text_error text_other jpeg_encode
        "Minimalist White" data
      = Ok (jpeg_encode minimal)
    /\ (PIL.width classic = 600 /\ PIL.height classic = 900)
    /\ (PIL.width dark = 600 /\ PIL.height dark = 900)
    /\ (PIL.width minimal = 600 /\ PIL.height minimal = 900)
    /\ ~ PIL.same_image classic dark
    /\ ~ PIL.same_image classic minimal
    /\ ~ PIL.same_image dark minimal.
Proof.
  eexists _, _, _. unfold generate_cover.
  rewrite (cover_image_classic py_repr str_upper font_ink font_shade text_error text_other data t
      a Htitle Hauthor).
  rewrite (cover_image_dark py_repr str_upper font_ink font_shade text_error text_other data t
      Htitle).
  rewrite (cover_image_minimal py_repr str_upper font_ink font_shade text_error text_other data t
      a Htitle Hauthor).
  repeat (split; [reflexivity|]).
  repeat (split; [split; reflexivity|]).
  repeat split; intros (_ & _ & Hpix); specialize (Hpix 0 0);
    simpl PIL.width in Hpix; simpl PIL.height in Hpix;
    specialize (Hpix ltac:(lia) ltac:(lia));
    cbv in Hpix; rewrite !Hfont in Hpix by lia; discriminate.
Qed.

Lemma generate_cover_three_styles_witness :
  exists classic dark minimal,
    generate_cover Scenario.repr Scenario.ascii_upper Scenario.block_font Scenario.solid
        Scenario.none_error Scenario.other_text Scenario.header
      "Classic Typography" Scenario.record = Ok (Scenario.header classic)
    /\ generate_cover Scenario.repr Scenario.ascii_upper Scenario.block_font Scenario.solid
        Scenario.none_error Scenario.other_text Scenario.header
      "Modern Dark" Scenario.record = Ok (Scenario.header dark)
    /\ generate_cover Scenario.repr Scenario.ascii_upper Scenario.block_font Scenario.solid
        Scenario.none_error Scenario.other_text Scenario.header
      "Minimalist White" Scenario.record = Ok (Scenario.header minimal)
    /\ (PIL.width classic = 600 /\ PIL.height classic = 900)
    /\ (PIL.width dark = 600 /\ PIL.height dark = 900)
    /\ (PIL.width minimal = 600 /\ PIL.height minimal = 900)
    /\ ~ PIL.same_image classic dark
    /\ ~ PIL.same_image classic minimal
    /\ ~ PIL.same_image dark minimal.
Proof.
  apply (generate_cover_three_styles Scenario.repr Scenario.ascii_upper
           Scenario.block_font Scenario.solid Scenario.none_error Scenario.other_text
               Scenario.header Scenario.record "Hello" "A").
  - reflexivity.
  - reflexivity.
  - intros s dx dy H. unfold Scenario.block_font.
    replace (0 <=? dx) with false by (symmetry; apply Z.leb_gt; lia). reflexivity.
Defined.

(** C7, as stated: the record that the fetcher returns for a post whose
    title is null has no cover, each of the three styles raises on it. *)
Lemma generate_cover_null_title_no_cover :
  exists r,
    get_substack_api_data Scenario.repr Scenario.no_more
      (Scenario.answers (Scenario.ok_json (JObj Scenario.untitled_post)) Scenario.not_found)
      Scenario.article_url = (Some r, None)
    /\ title r = JNull
    /\ generate_cover Scenario.repr Scenario.ascii_upper Scenario.block_font Scenario.solid
         Scenario.none_error Scenario.other_text Scenario.header "Classic Typography" r
             = Raise Scenario.none_error
    /\ generate_cover Scenario.repr Scenario.ascii_upper Scenario.block_font Scenario.solid
         Scenario.none_error Scenario.other_text Scenario.header "Modern Dark" r
             = Raise Scenario.none_error
    /\ generate_cover Scenario.repr Scenario.ascii_upper Scenario.block_font Scenario.solid
         Scenario.none_error Scenario.other_text Scenario.header "Minimalist White" r
             = Raise Scenario.none_error.
Proof.
  eexists. split; [reflexivity|]. repeat split.
Qed.

(** ** The packager *)

Section PackagerFacts.
Variable py_repr : jvalue -> string.

Lemma fold_comment_divs (cs : list string) (html : string) :
  fold_left (fun h c => h ++ comment_div c) cs html =
  html ++ String.concat "" (map comment_div cs).
Proof.
  revert html. induction cs as [|c cs IH]; intros html; simpl.
  - now rewrite append_nil_r.
  - rewrite IH, append_assoc. f_equal.
    destruct cs as [|c' cs']; simpl; [now rewrite append_nil_r | reflexivity].
Qed.

(** The chapter is the article alone without comments, and the article,
    the heading and one block per comment otherwise. *)
Lemma add_comments_eq (html : string) (cs : list string) :
  add_comments html cs =
  match cs with
  | [] => html
  | _ => html ++ "<hr/><h1>Comments</h1>" ++ String.concat "" (map comment_div cs)
  end.
Proof.
  destruct cs as [|c cs]; [reflexivity|].
  unfold add_comments. now rewrite fold_comment_divs, append_assoc.
Qed.

End PackagerFacts.

(** C6. For every record whose body is text and every cover, the book
    that is written has exactly one chapter and exactly one cover image,
    the cover given.  The chapter is the introduction, then the body, then
    the comments section, which is empty when the record has no comment
    and otherwise the heading followed by one block for each comment, in
    order.  So the heading occurs in the chapter of a record that has a
    comment, and, when it does not occur in the introduction and the body,
    in no other chapter. *)
Theorem create_epub_one_chapter_one_cover
  (py_repr : jvalue -> string) (write_epub : Epub.EpubBook -> result bytes)
  (data : ArticleRecord) (cover_bytes : bytes) (html : string)
  (Hbody : body data = JStr html) :
  exists book content,
    create_book py_repr data cover_bytes = Ok book
    /\ create_epub py_repr write_epub data cover_bytes = write_epub book
    /\ Epub.chapters book = [Epub.EpubHtml "Article" "article.xhtml" "en" content]
    /\ Epub.cover_images book = [Epub.EpubCover "cover.jpg" cover_bytes]
    /\ content =
       intro_html py_repr data ++ html ++
       match comments data with
       | [] => ""
       | cs =>
           "<hr/><h1>Comments</h1>" ++
           String.concat ""
             (map (fun c =>
                 "<div style='margin-bottom:15px; border-left:2px solid #ccc; padding-left:10px;'>" ++ c ++ "</div>") cs)
       end
    /\ (comments data <> [] -> PyStr.contains "<hr/><h1>Comments</h1>" content = true)
    /\ (PyStr.contains "<hr/><h1>Comments</h1>" (intro_html py_repr data ++ html) = false ->
        (PyStr.contains "<hr/><h1>Comments</h1>" content = true <-> comments data <> [])).
Proof.
  unfold create_epub, create_book. rewrite Hbody. cbn [concat_body rbind].
  eexists _, _. split; [reflexivity|]. split; [reflexivity|].
  split; [reflexivity|]. split; [reflexivity|].
  rewrite add_comments_eq.
  destruct (comments data) as [|c cs].
  - rewrite !append_nil_r. split; [reflexivity|]. split; [congruence|].
    intros Hclear. rewrite Hclear. split; [discriminate | congruence].
  - assert (Hin : PyStr.contains "<hr/><h1>Comments</h1>"
                    ((intro_html py_repr data ++ html) ++ "<hr/><h1>Comments</h1>" ++
                     String.concat "" (map comment_div (c :: cs))) = true)
      by (apply contains_spec; eexists _, _; reflexivity).
    split; [now rewrite append_assoc|]. split; [intros _; exact Hin|].
    intros _. split; [discriminate | intros _; exact Hin].
Qed.

Lemma create_epub_one_chapter_one_cover_witness :
  exists book content,
    create_book Scenario.repr Scenario.record [Byte.xff; Byte.xd8] = Ok book
    /\ create_epub Scenario.repr (fun _ => Ok []) Scenario.record [Byte.xff; Byte.xd8]
       = (fun _ => Ok []) book
    /\ Epub.chapters book = [Epub.EpubHtml "Article" "article.xhtml" "en" content]
    /\ Epub.cover_images book = [Epub.EpubCover "cover.jpg" [Byte.xff; Byte.xd8]]
    /\ content =
       intro_html Scenario.repr Scenario.record ++ "<p>hi</p>" ++
       match comments Scenario.record with
       | [] => ""
       | cs =>
           "<hr/><h1>Comments</h1>" ++
           String.concat ""
             (map (fun c =>
                 "<div style='margin-bottom:15px; border-left:2px solid #ccc; padding-left:10px;'>" ++ c ++ "</div>") cs)
       end
    /\ (comments Scenario.record <> []
        -> PyStr.contains "<hr/><h1>Comments</h1>" content = true)
    /\ (PyStr.contains "<hr/><h1>Comments</h1>"
          (intro_html Scenario.repr Scenario.record ++ "<p>hi</p>") = false ->
        (PyStr.contains "<hr/><h1>Comments</h1>" content = true
         <-> comments Scenario.record <> [])).
Proof.
  apply (create_epub_one_chapter_one_cover Scenario.repr (fun _ => Ok [])
           Scenario.record [Byte.xff; Byte.xd8] "<p>hi</p>").
  reflexivity.
Defined.

(** C6, as stated: the record that the fetcher returns for a post whose
    body is null has no book, [create_epub] raises on it. *)
Lemma create_epub_null_body_no_book :
  exists r,
    get_substack_api_data Scenario.repr Scenario.no_more
      (Scenario.answers (Scenario.ok_json (JObj Scenario.bodiless_post)) Scenario.not_found)
      Scenario.article_url = (Some r, None)
    /\ body r = JNull
    /\ create_epub Scenario.repr Example.zip r Example.chosen
       = Raise ("can only concatenate str (not " ++ PyStr.dq ++ "NoneType" ++ PyStr.dq
                ++ ") to str").
Proof.
  eexists. split; [reflexivity|]. split; reflexivity.
Qed.

(** C9. The fetch of any URL returns a record and no error, or no record
    and an error: never both, never neither, and no exception leaves it.
    The error is the text of the exception that was caught, and it is
    empty only when one of the requests that were sent raised an exception
    without text, or was answered by a body whose decoding raised one. *)
Theorem fetch_record_or_error
  (py_repr : jvalue -> string)
  (iso_more : string -> option PyDatetime.datetime) (net : network) (url : string) :
  (exists r, get_substack_api_data py_repr iso_more net url = (Some r, None))
  \/ (exists e,
        get_substack_api_data py_repr iso_more net url = (None, Some e)
        /\ (e = "" ->
            exists n u,
              nth_error (requests_sent py_repr iso_more net url) n = Some u
              /\ (net n u = Raise ""
                  \/ exists resp, net n u = Ok resp /\ json resp = Raise ""))).
Proof.
  unfold get_substack_api_data, requests_sent. rewrite run_eq.
  destruct (extract_slug url) as [slug|];
    [|right; eexists; split; [reflexivity | discriminate]].
  destruct (String.eqb slug "");
    [right; eexists; split; [reflexivity | discriminate]|].
  destruct (url_domain url) as [domain|];
    [|right; eexists; split; [reflexivity | discriminate]].
  rewrite fetch_post_eq. cbv zeta.
  destruct (net 0%nat (api_url_of domain slug)) as [resp|m] eqn:Hfirst.
  2:{ right. exists m. split; [reflexivity|]. intros ->.
      exists 0%nat, (api_url_of domain slug). split; [reflexivity | now left]. }
  destruct (negb (status_code resp =? 200)).
  { right. eexists. split; [reflexivity | discriminate]. }
  destruct (rbind (json resp) (read_post py_repr iso_more))
    as [[[[[post_id title] author] date_str] body_html]|m] eqn:Hpost.
  2:{ right. exists m. split; [reflexivity|]. intros ->.
      exists 0%nat, (api_url_of domain slug). split; [reflexivity|].
      right. exists resp. split; [exact Hfirst|].
      apply rbind_raise in Hpost as [H | (d & _ & H)]; [exact H|].
      now apply described_read_post in H. }
  rewrite get_comments_eq.
  destruct (Py.truthy post_id); [|left; eexists; reflexivity].
  cbv zeta. simpl List.length. simpl List.app.
  destruct (net 1%nat (comment_url_of py_repr domain post_id)) as [c_resp|m] eqn:Hsecond.
  2:{ right. exists m. split; [reflexivity|]. intros ->.
      exists 1%nat, (comment_url_of py_repr domain post_id).
      split; [reflexivity | now left]. }
  destruct (status_code c_resp =? 200); [|left; eexists; reflexivity].
  destruct (rbind (json c_resp) (read_comments py_repr)) as [cs|m] eqn:Hcomments.
  - left. eexists. reflexivity.
  - right. exists m. split; [reflexivity|]. intros ->.
    exists 1%nat, (comment_url_of py_repr domain post_id). split; [reflexivity|].
    right. exists c_resp. split; [exact Hsecond|].
    apply rbind_raise in Hcomments as [H | (d & _ & H)]; [exact H|].
    now apply described_read_comments in H.
Qed.

(** C9, as stated: when the request raises an exception without text,
    the fetch returns no record and the empty error. *)
Lemma fetch_error_may_be_empty :
  get_substack_api_data Scenario.repr Scenario.no_more (fun _ _ => Raise "")
    Scenario.article_url = (None, Some "").
Proof. reflexivity. Qed.

(** C5. When the metadata request is answered with status 200 and the
    comment request, once sent, with another status, the fetch returns a
    record with no comments, and no error. *)
Theorem fetch_comment_failure_gives_no_comments
  (py_repr : jvalue -> string)
  (iso_more : string -> option PyDatetime.datetime) (net : network)
      (url api_url comment_url : string)
  (resp c_resp : response)
  (Hsent : requests_sent py_repr iso_more net url = [api_url; comment_url])
  (Hmeta : net 0%nat api_url = Ok resp)
  (Hmeta200 : status_code resp = 200)
  (Hcomments : net 1%nat comment_url = Ok c_resp)
  (Hnot200 : status_code c_resp <> 200) :
  exists r,
    get_substack_api_data py_repr iso_more net url = (Some r, None) /\ comments r = [].
Proof.
  unfold get_substack_api_data.
  destruct (run_sent_inv py_repr iso_more net _ _ _ Hsent) as (domain & slug & _ & Hrun).
  unfold requests_sent in Hsent. rewrite Hrun in *. clear Hrun.
  rewrite fetch_post_eq in *. cbv zeta in *.
  destruct (net 0%nat (api_url_of domain slug)) as [resp'|m] eqn:Hfirst;
    [|discriminate].
  destruct (negb (status_code resp' =? 200)); [discriminate|].
  destruct (rbind (json resp') (read_post py_repr iso_more))
    as [[[[[post_id title] author] date_str] body_html]|m]; [|discriminate].
  rewrite get_comments_eq in *.
  destruct (Py.truthy post_id); [|discriminate].
  cbv zeta in *. simpl List.length in *. simpl List.app in *.
  destruct (net 1%nat (comment_url_of py_repr domain post_id)) as [c|m] eqn:Hsecond.
  - assert (Hurl : comment_url = comment_url_of py_repr domain post_id).
    { destruct (status_code c =? 200); [destruct (rbind _ _)|];
        simpl in Hsent; congruence. }
    subst comment_url. rewrite Hcomments in Hsecond. injection Hsecond as <-.
    apply Z.eqb_neq in Hnot200. rewrite Hnot200.
    eexists. split; reflexivity.
  - simpl in Hsent. injection Hsent as _ <-. congruence.
Qed.

Lemma fetch_comment_failure_witness :
  exists r,
    get_substack_api_data Scenario.repr Scenario.no_more
      (Scenario.answers (Scenario.ok_json Scenario.metadata) Scenario.not_found)
      Scenario.article_url = (Some r, None)
    /\ comments r = [].
Proof.
  apply (fetch_comment_failure_gives_no_comments Scenario.repr Scenario.no_more
           (Scenario.answers (Scenario.ok_json Scenario.metadata) Scenario.not_found)
           Scenario.article_url Scenario.api_url Scenario.comment_url
           (Scenario.ok_json Scenario.metadata) Scenario.not_found).
  - reflexivity.
  - reflexivity.
  - reflexivity.
  - reflexivity.
  - discriminate.
Defined.

(** C2. A record built from a list of comments has one entry for each
    comment that has a body, in the order of the list, and the entry of a
    comment is [<b>name:</b> body]. *)
Theorem fetch_comments_are_bold_entries
  (py_repr : jvalue -> string)
  (iso_more : string -> option PyDatetime.datetime) (net : network) (url : string)
  (cs : list jvalue) (r : ArticleRecord)
  (Hfetched : fetched_with_comments py_repr iso_more net url cs r) :
  List.length (comments r) = List.length (filter has_body cs)
  /\ comments r = map (comment_entry py_repr) (filter has_body cs).
Proof.
  rewrite (fetched_comments_eq py_repr iso_more net url cs r Hfetched).
  split; [apply length_map | reflexivity].
Qed.

Lemma fetch_comments_are_bold_entries_witness :
  List.length (comments Scenario.record)
    = List.length (filter has_body Scenario.two_comments)
  /\ comments Scenario.record
    = map (comment_entry Scenario.repr) (filter has_body Scenario.two_comments).
Proof.
  apply (fetch_comments_are_bold_entries Scenario.repr Scenario.no_more
           (Scenario.net_with_comments Scenario.two_comments) Scenario.article_url).
  split; [reflexivity|].
  exists Scenario.api_url, Scenario.comment_url.
  eexists _, _. repeat split; reflexivity.
Defined.

(** C2, as stated: of two comments, one with a body, the record keeps
    one entry, and it is not the bare ["B: nice"]. *)
Lemma fetch_comments_not_bare_entries :
  fetched_with_comments Scenario.repr Scenario.no_more
    (Scenario.net_with_comments Scenario.two_comments) Scenario.article_url
    Scenario.two_comments Scenario.record
  /\ map (bare_entry Scenario.repr) (filter has_body Scenario.two_comments) = ["B: nice"]
  /\ comments Scenario.record
     <> map (bare_entry Scenario.repr) (filter has_body Scenario.two_comments).
Proof.
  split; [|split; [reflexivity | discriminate]].
  split; [reflexivity|].
  exists Scenario.api_url, Scenario.comment_url.
  eexists _, _. repeat split; reflexivity.
Qed.

(** C10. A comment of the list that has a body and no name is in the
    record, under the name "Anonymous". *)
Theorem fetch_unsigned_comment_is_anonymous
  (py_repr : jvalue -> string)
  (iso_more : string -> option PyDatetime.datetime) (net : network) (url : string)
  (cs : list jvalue) (r : ArticleRecord) (kv : list (string * jvalue))
  (Hfetched : fetched_with_comments py_repr iso_more net url cs r)
  (Hin : In (JObj kv) cs)
  (Hbody : Py.truthy (Py.lookup_default "body" (JStr "") kv) = true)
  (Hunsigned : Py.lookup "name" kv = None) :
  In ("<b>Anonymous:</b> " ++ Py.str py_repr (Py.lookup_default "body" (JStr "") kv))
     (comments r).
Proof.
  rewrite (fetched_comments_eq py_repr iso_more net url cs r Hfetched).
  apply in_map_iff. exists (JObj kv). split.
  - unfold comment_entry, comment_name, comment_body, Py.lookup_default at 1.
    rewrite Hunsigned. reflexivity.
  - apply filter_In. split; [exact Hin | exact Hbody].
Qed.

Lemma fetch_unsigned_comment_witness :
  In ("<b>Anonymous:</b> " ++
        Py.str Scenario.repr (Py.lookup_default "body" (JStr "") [("body", JStr "first")]))
     (comments {| title := JStr "Hello"; author := JStr "A"; date := "January 01, 2024";
                  body := JStr "<p>hi</p>"; comments := ["<b>Anonymous:</b> first"];
                  url := Scenario.article_url; domain := "x.substack.com" |}).
Proof.
  apply (fetch_unsigned_comment_is_anonymous Scenario.repr Scenario.no_more
           (Scenario.net_with_comments Scenario.unsigned_comments) Scenario.article_url
           Scenario.unsigned_comments).
  - split; [reflexivity|].
    exists Scenario.api_url, Scenario.comment_url.
    eexists _, _. repeat split; reflexivity.
  - left. reflexivity.
  - reflexivity.
  - reflexivity.
Defined.

(** C3. When the metadata answer has status 200 and decodes to a dict
    whose byline and date, if present, can be read, and the comment stage
    raises nothing, the fetch returns a record and no error.  In it the
    title is "Untitled" when the post has no title; the author is "Unknown
    Author" when the post has no list of bylines, or its first byline has
    no name; the date is "Undated" when the post has no date, or a date
    that is null or empty.  A title or a name that is there is the one of
    the record. *)
Theorem fetch_missing_fields_default
  (py_repr : jvalue -> string)
  (iso_more : string -> option PyDatetime.datetime) (net : network)
  (url api_url domain : string)
  (rest : list string) (resp : response) (kv : list (string * jvalue))
  (Hsent : requests_sent py_repr iso_more net url = api_url :: rest)
  (Hmeta : net 0%nat api_url = Ok resp)
  (Hmeta200 : status_code resp = 200)
  (Hjson : json resp = Ok (JObj kv))
  (Hdomain : url_domain url = Ok domain)
  (Hbylines : bylines_readable kv)
  (Hdate : date_readable py_repr iso_more kv)
  (Hcomments : comments_readable py_repr net domain api_url (Py.lookup_default "id" JNull kv)) :
  exists r,
    get_substack_api_data py_repr iso_more net url = (Some r, None)
    /\ (Py.lookup "title" kv = None -> title r = JStr "Untitled")
    /\ (Py.lookup "publishedBylines" kv = None
        \/ (exists byline more,
              Py.lookup "publishedBylines" kv = Some (JArr (JObj byline :: more))
              /\ Py.lookup "name" byline = None)
        -> author r = JStr "Unknown Author")
    /\ (Py.lookup "post_date" kv = None
        \/ (exists v, Py.lookup "post_date" kv = Some v /\ Py.truthy v = false)
        -> date r = "Undated")
    /\ (forall t, Py.lookup "title" kv = Some t -> title r = t)
    /\ (forall byline more a,
          Py.lookup "publishedBylines" kv = Some (JArr (JObj byline :: more)) ->
          Py.lookup "name" byline = Some a -> author r = a).
Proof.
  destruct (run_after_metadata py_repr iso_more net _ _ _ _ _ Hsent Hmeta Hmeta200 Hjson)
    as (domain' & Hdomain' & Hrun).
  rewrite Hdomain in Hdomain'. injection Hdomain' as <-.
  destruct (read_post_readable py_repr iso_more kv Hbylines Hdate) as (d & Hd & Hread).
  destruct Hcomments as (cs & log & Hcs).
  unfold get_substack_api_data. rewrite Hrun, Hread, Hcs. cbn [fst].
  eexists. split; [reflexivity|]. cbn [title author date].
  unfold Py.lookup_default in *.
  split; [intros ->; reflexivity|].
  split.
  { intros [-> | (byline & more & -> & ->)]; reflexivity. }
  split.
  { intros [Hnone | (v & Hsome & Hfalsy)].
    - rewrite Hnone in Hd. cbn in Hd. now injection Hd as <-.
    - rewrite Hsome in Hd. unfold format_date in Hd. rewrite Hfalsy in Hd.
      now injection Hd as <-. }
  split; [intros t ->; reflexivity|].
  intros byline more a -> ->. reflexivity.
Qed.

Lemma fetch_missing_fields_default_witness :
  exists r,
    get_substack_api_data Scenario.repr Scenario.no_more
      (Scenario.answers (Scenario.ok_json (JObj Scenario.bare_post)) Scenario.not_found)
      Scenario.article_url = (Some r, None)
    /\ title r = JStr "Untitled"
    /\ author r = JStr "Unknown Author"
    /\ date r = "Undated".
Proof.
  destruct (fetch_missing_fields_default Scenario.repr Scenario.no_more
              (Scenario.answers (Scenario.ok_json (JObj Scenario.bare_post))
                 Scenario.not_found)
              Scenario.article_url Scenario.api_url "x.substack.com"
              ["https://x.substack.com/api/v1/posts/7/comments?sort=newest"]
              (Scenario.ok_json (JObj Scenario.bare_post)) Scenario.bare_post
              eq_refl eq_refl eq_refl eq_refl eq_refl I
              (ex_intro _ "Undated" eq_refl)
              (ex_intro _ []
                 (ex_intro _ [Scenario.api_url;
                              "https://x.substack.com/api/v1/posts/7/comments?sort=newest"]
                    eq_refl)))
    as (r & Hr & Htitle & Hauthor & Hdate & _).
  exists r. split; [exact Hr|].
  split; [apply Htitle; reflexivity|].
  split.
  - apply Hauthor. right. exists [], []. split; reflexivity.
  - apply Hdate. right. exists JNull. split; reflexivity.
Defined.

(** C3, as stated: a post without title, author and date, answered with
    status 200, gives no record when the request for its comments times
    out; and a post whose list of bylines is empty gives no record, and no
    "Unknown Author". *)
Lemma fetch_missing_fields_no_record :
  status_code (Scenario.ok_json (JObj Scenario.fieldless_post)) = 200
  /\ Py.lookup "title" Scenario.fieldless_post = None
  /\ Py.lookup "publishedBylines" Scenario.fieldless_post = None
  /\ Py.lookup "post_date" Scenario.fieldless_post = None
  /\ get_substack_api_data Scenario.repr Scenario.no_more
       (Scenario.answers_once (Scenario.ok_json (JObj Scenario.fieldless_post)))
       Scenario.article_url = (None, Some "Read timed out.")
  /\ get_substack_api_data Scenario.repr Scenario.no_more
       (Scenario.answers (Scenario.ok_json (JObj Scenario.byline_free_post))
          Scenario.not_found)
       Scenario.article_url = (None, Some "list index out of range").
Proof. repeat split. Qed.

(** * Further properties *)

(** ** Splitting *)

Lemma split_from_cons (sep s : string) (skip : nat) :
  exists h t, PyStr.split_from sep s skip = h :: t.
Proof.
  revert skip. induction s as [|c s IH]; intros skip; simpl.
  - eexists _, _. reflexivity.
  - destruct skip as [|k]; [|apply IH].
    destruct (PyStr.startswith sep (String c s)); [eexists _, _; reflexivity|].
    destruct (IH O) as (h & t & ->). eexists _, _. reflexivity.
Qed.

Lemma split_from_skip (sep p s : string) :
  PyStr.split_from sep (p ++ s) (String.length p) = PyStr.split_from sep s O.
Proof. induction p as [|c p IH]; simpl; [reflexivity | exact IH]. Qed.

Lemma startswith_append (p s : string) : PyStr.startswith p (p ++ s) = true.
Proof. apply startswith_spec. exists s. reflexivity. Qed.

Lemma startswith_append_r (p s t : string) :
  PyStr.startswith p s = true -> PyStr.startswith p (s ++ t) = true.
Proof.
  rewrite !startswith_spec. intros [b ->]. exists (b ++ t). apply append_assoc.
Qed.

(** Where [sep] first occurs, [split] makes its first cut. *)
Lemma split_at_first (c : ascii) (sep' a b : string) :
  clear_before (String c sep') a (String c sep' ++ b) = true ->
  PyStr.split (String c sep') (a ++ String c sep' ++ b) = a :: PyStr.split (String c sep') b.
Proof.
  unfold PyStr.split. induction a as [|x a IH]; intros Hclear.
  - cbn [append]. change (String c sep' ++ b) with (String c (sep' ++ b)).
    cbn [PyStr.split_from]. change (String c (sep' ++ b)) with (String c sep' ++ b).
    rewrite startswith_append. cbn [String.length Nat.pred].
    now rewrite split_from_skip.
  - cbn [clear_before] in Hclear. apply andb_true_iff in Hclear as [Hhead Hrest].
    apply negb_true_iff in Hhead.
    change (String x a ++ String c sep' ++ b) with (String x (a ++ String c sep' ++ b)) in *.
    cbn [PyStr.split_from]. rewrite Hhead, (IH Hrest). reflexivity.
Qed.

(** Without an occurrence of [sep], [split] gives the string itself. *)
Lemma split_without (sep s : string) :
  PyStr.contains sep s = false -> PyStr.split sep s = [s].
Proof.
  unfold PyStr.split. induction s as [|c s IH]; intros H; [reflexivity|].
  cbn [PyStr.contains] in H. apply orb_false_iff in H as [Hhead Hrest].
  cbn [PyStr.split_from]. rewrite Hhead, (IH Hrest). reflexivity.
Qed.

(** A string that contains [sep] is cut at a first occurrence. *)
Lemma first_occurrence (sep s : string) :
  PyStr.contains sep s = true ->
  exists a b, s = a ++ sep ++ b /\ clear_before sep a (sep ++ b) = true.
Proof.
  induction s as [|c s IH]; cbn [PyStr.contains].
  - intros H. apply startswith_spec in H as [b Hb]. exists "", b. split; [exact Hb | reflexivity].
  - destruct (PyStr.startswith sep (String c s)) eqn:Hhead.
    + intros _. apply startswith_spec in Hhead as [b Hb]. exists "", b.
      split; [exact Hb | reflexivity].
    + cbn [orb]. intros H. destruct (IH H) as (a & b & -> & Hclear).
      exists (String c a), b. split; [reflexivity|].
      cbn [clear_before]. change (String c a ++ sep ++ b) with (String c (a ++ sep ++ b)).
      now rewrite Hhead, Hclear.
Qed.

Lemma clear_before_not_contains (c : ascii) (sep' a tail : string) :
  clear_before (String c sep') a tail = true -> PyStr.contains (String c sep') a = false.
Proof.
  induction a as [|x a IH]; [reflexivity|].
  cbn [clear_before PyStr.contains]. intros H.
  apply andb_true_iff in H as [Hhead Hrest]. apply negb_true_iff in Hhead.
  rewrite (IH Hrest), orb_false_r.
  destruct (PyStr.startswith (String c sep') (String x a)) eqn:E; [|reflexivity].
  apply (startswith_append_r _ _ tail) in E. congruence.
Qed.

(** The first piece of a split is a prefix of the string without [sep]. *)
Lemma split_head (c : ascii) (sep' s : string) :
  exists h t r,
    PyStr.split (String c sep') s = h :: t /\ s = h ++ r
    /\ PyStr.contains (String c sep') h = false.
Proof.
  destruct (PyStr.contains (String c sep') s) eqn:E.
  - destruct (first_occurrence _ _ E) as (a & b & -> & Hclear).
    exists a, (PyStr.split (String c sep') b), (String c sep' ++ b).
    split; [now apply split_at_first|]. split; [reflexivity|].
    now apply clear_before_not_contains in Hclear.
  - exists s, [], "". split; [now apply split_without|].
    split; [now rewrite append_nil_r | exact E].
Qed.

(** The first piece of a split ends where the string ends, or where
    [sep] begins. *)
Lemma split_head_rest (c : ascii) (sep' s : string) :
  exists h t r,
    PyStr.split (String c sep') s = h :: t /\ s = h ++ r
    /\ PyStr.contains (String c sep') h = false
    /\ (r = "" \/ exists b, r = String c sep' ++ b).
Proof.
  destruct (PyStr.contains (String c sep') s) eqn:E.
  - destruct (first_occurrence _ _ E) as (a & b & -> & Hclear).
    exists a, (PyStr.split (String c sep') b), (String c sep' ++ b).
    split; [now apply split_at_first|]. split; [reflexivity|].
    split; [now apply clear_before_not_contains in Hclear|].
    right. now exists b.
  - exists s, [], "". split; [now apply split_without|].
    split; [now rewrite append_nil_r|]. split; [exact E | now left].
Qed.

Lemma contains_append_l (p h r : string) :
  PyStr.contains p (h ++ r) = false -> PyStr.contains p h = false.
Proof.
  intros H. destruct (PyStr.contains p h) eqn:E; [|reflexivity].
  apply contains_spec in E as (a & b & ->).
  assert (PyStr.contains p ((a ++ p ++ b) ++ r) = true); [|congruence].
  apply contains_spec. exists a, (b ++ r). now rewrite !append_assoc.
Qed.

(** ** The slug *)

(** How [extract_slug] cuts a URL that has the marker. *)
Lemma extract_slug_cut (url : string) :
  PyStr.contains "/p/" url = true ->
  exists a b after r1 piece r2 slug r3,
    url = a ++ "/p/" ++ b
    /\ clear_before "/p/" a ("/p/" ++ b) = true
    /\ b = after ++ r1 /\ after = piece ++ r2 /\ piece = slug ++ r3
    /\ PyStr.contains "/" piece = false
    /\ PyStr.contains "?" slug = false
    /\ extract_slug url = Some slug.
Proof.
  intros Hin. destruct (first_occurrence _ _ Hin) as (a & b & Hurl & Hclear).
  destruct (split_head "/" "p/" b) as (after & t1 & r1 & Hs1 & Hb & _).
  destruct (split_head "/" "" after) as (piece & t2 & r2 & Hs2 & Hafter & Hpiece).
  destruct (split_head "?" "" piece) as (slug & t3 & r3 & Hs3 & Hp & Hslug).
  exists a, b, after, r1, piece, r2, slug, r3.
  repeat (split; [assumption|]).
  unfold extract_slug. rewrite Hin. subst url.
  rewrite (split_at_first "/" "p/" a b Hclear), Hs1. cbn [PyStr.item nth_error rbind].
  rewrite Hs2. cbn [PyStr.item nth_error rbind]. rewrite Hs3. reflexivity.
Qed.

(** X1. [extract_slug] gives a slug exactly when the marker ["/p/"] occurs
    in the URL. *)
Theorem extract_slug_some_iff_marker (url : string) :
  (exists slug, extract_slug url = Some slug)
  <-> (exists before after, url = before ++ "/p/" ++ after).
Proof.
  rewrite <- contains_spec. split.
  - intros [slug H]. unfold extract_slug in H.
    destruct (PyStr.contains "/p/" url); [reflexivity | discriminate].
  - intros H. destruct (extract_slug_cut url H) as (a & b & ? & ? & ? & ? & slug & ? & H').
    exists slug. apply H'.
Qed.

(** X2. A slug that [extract_slug] gives has no ["/"] and no ["?"] in
    it. *)
Theorem extract_slug_has_no_separator (url slug : string)
  (Hslug : extract_slug url = Some slug) :
  PyStr.contains "/" slug = false /\ PyStr.contains "?" slug = false.
Proof.
  assert (Hin : PyStr.contains "/p/" url = true).
  { unfold extract_slug in Hslug. destruct (PyStr.contains "/p/" url); [reflexivity | discriminate]. }
  destruct (extract_slug_cut url Hin)
    as (a & b & after & r1 & piece & r2 & slug' & r3 & _ & _ & _ & _ & Hp & Hpiece & Hq & H').
  rewrite H' in Hslug. injection Hslug as <-. split; [|exact Hq].
  subst piece. now apply contains_append_l in Hpiece.
Qed.

Lemma extract_slug_has_no_separator_witness :
  PyStr.contains "/" "hello" = false /\ PyStr.contains "?" "hello" = false.
Proof.
  apply (extract_slug_has_no_separator "https://x.substack.com/p/hello/comments?x=1" "hello").
  reflexivity.
Defined.

(** A string without the first character of [sep] is kept whole in
    front of the first piece of what follows it. *)
Lemma split_head_append (c : ascii) (sep' x y : string) :
  PyStr.contains (String c "") x = false ->
  exists h t,
    PyStr.split (String c sep') y = h :: t
    /\ PyStr.split (String c sep') (x ++ y) = (x ++ h) :: t.
Proof.
  unfold PyStr.split. induction x as [|d x IH]; intros Hx.
  - destruct (split_from_cons (String c sep') y O) as (h & t & H).
    exists h, t. split; [exact H | exact H].
  - cbn [PyStr.contains PyStr.startswith] in Hx.
    apply orb_false_iff in Hx as [Hd Hx].
    destruct (Ascii.eqb c d) eqn:Hcd; [discriminate|].
    destruct (IH Hx) as (h & t & Hy & Hxy). exists h, t. split; [exact Hy|].
    change (String d x ++ y) with (String d (x ++ y)).
    cbn [PyStr.split_from PyStr.startswith]. rewrite Hcd, Hxy. reflexivity.
Qed.

(** X3. The slug written after the first marker is read back: from
    [base ++ "/p/" ++ slug ++ rest], where the marker does not occur
    earlier, the slug has no ["/"] and no ["?"], and [rest] is empty or
    starts with ["/"] or ["?"], [extract_slug] gives [slug]. *)
Theorem extract_slug_round_trip (base slug rest : string)
  (Hfirst : clear_before "/p/" base ("/p/" ++ slug ++ rest) = true)
  (Hslash : PyStr.contains "/" slug = false)
  (Hquery : PyStr.contains "?" slug = false)
  (Hrest : rest = "" \/ (exists r, rest = "/" ++ r) \/ (exists r, rest = "?" ++ r)) :
  extract_slug (base ++ "/p/" ++ slug ++ rest) = Some slug.
Proof.
  assert (Hin : PyStr.contains "/p/" (base ++ "/p/" ++ slug ++ rest) = true)
    by (apply contains_spec; eexists _, _; reflexivity).
  unfold extract_slug. rewrite Hin.
  rewrite (split_at_first "/" "p/" base (slug ++ rest) Hfirst).
  destruct (split_head_append "/" "p/" slug rest Hslash) as (h1 & t1 & Hr1 & ->).
  cbn [PyStr.item nth_error rbind].
  destruct (split_head_append "/" "" slug h1 Hslash) as (h2 & t2 & Hr2 & ->).
  cbn [PyStr.item nth_error rbind].
  destruct (split_head_append "?" "" slug h2 Hquery) as (h3 & t3 & Hr3 & ->).
  cbn [PyStr.item nth_error rbind].
  enough (h3 = "") as -> by now rewrite append_nil_r.
  destruct Hrest as [-> | [[r ->] | [r ->]]].
  - cbv in Hr1. injection Hr1 as <- <-. cbv in Hr2. injection Hr2 as <- <-.
    cbv in Hr3. now injection Hr3 as <- <-.
  - assert (Hh2 : h2 = "").
    { destruct (split_head "/" "p/" ("/" ++ r)) as (h & t & r1 & Hs & Hpre & _).
      rewrite Hs in Hr1. injection Hr1 as -> ->.
      destruct h1 as [|x h1]; [cbv in Hr2; now injection Hr2 as <- |].
      injection Hpre as <- _. cbv [PyStr.split PyStr.split_from PyStr.startswith] in Hr2.
      rewrite Ascii.eqb_refl in Hr2. now injection Hr2 as <-. }
    subst h2. cbv in Hr3. now injection Hr3 as <- <-.
  - destruct (split_head_append "/" "p/" "?" r eq_refl) as (h1' & t1' & _ & Hq1).
    rewrite Hq1 in Hr1. injection Hr1 as <- <-.
    destruct (split_head_append "/" "" "?" h1' eq_refl) as (h2' & t2' & _ & Hq2).
    cbn [append] in Hq2, Hr2. rewrite Hq2 in Hr2. injection Hr2 as <- <-.
    cbv [PyStr.split PyStr.split_from PyStr.startswith append] in Hr3.
    rewrite Ascii.eqb_refl in Hr3. now injection Hr3 as <-.
Qed.

Lemma extract_slug_round_trip_witness :
  extract_slug ("https://read.substack.com" ++ "/p/" ++ "welcome-to-substack" ++ "?utm=1")
  = Some "welcome-to-substack".
Proof.
  apply (extract_slug_round_trip "https://read.substack.com" "welcome-to-substack" "?utm=1").
  - reflexivity.
  - reflexivity.
  - reflexivity.
  - right. right. exists "utm=1". reflexivity.
Defined.

(** ** The requests of a fetch *)

Section FetcherRequests.
Variable py_repr : jvalue -> string.
Variable iso_more : string -> option PyDatetime.datetime.
Variable net : network.

(** The requests of the [try] block: one, or two when the post has an
    id. *)
Lemma fetch_post_log (domain slug url : string) :
  snd (fetch_post py_repr iso_more net domain slug url []) = [api_url_of domain slug]
  \/ exists post_id,
       snd (fetch_post py_repr iso_more net domain slug url [])
       = [api_url_of domain slug; comment_url_of py_repr domain post_id].
Proof.
  rewrite fetch_post_eq. cbv zeta.
  destruct (net 0%nat _) as [resp|m]; [|now left].
  destruct (negb _); [now left|].
  destruct (rbind _ _) as [[[[[post_id title] author] date_str] body_html]|m]; [|now left].
  rewrite get_comments_eq.
  destruct (Py.truthy post_id); [|now left].
  right. exists post_id. cbv zeta. simpl List.length. simpl List.app.
  destruct (net 1%nat _) as [c|m]; [|reflexivity].
  destruct (status_code c =? 200); [destruct (rbind _ _)|]; reflexivity.
Qed.

(** A run that sent a request: the URL was accepted and the first
    request went to the post. *)
Lemma run_sent_first (url first : string) (rest : list string) :
  requests_sent py_repr iso_more net url = first :: rest ->
  exists domain slug,
    extract_slug url = Some slug /\ slug <> ""
    /\ url_domain url = Ok domain
    /\ first = api_url_of domain slug
    /\ get_substack_api_data_run py_repr iso_more net url =
       match fetch_post py_repr iso_more net domain slug url [] with
       | (Ok r, log) => (r, log)
       | (Raise e, log) => ((None, Some e), log)
       end.
Proof.
  unfold requests_sent. rewrite run_eq.
  destruct (extract_slug url) as [slug|]; [|discriminate].
  destruct (String.eqb_spec slug ""); [discriminate|].
  destruct (url_domain url) as [domain|]; [|discriminate].
  intros Hsent. exists domain, slug. repeat (split; [easy|]). split; [|reflexivity].
  assert (Hlog : snd (fetch_post py_repr iso_more net domain slug url []) = first :: rest).
  { destruct (fetch_post py_repr iso_more net domain slug url []) as [[r|e] log]; exact Hsent. }
  destruct (fetch_post_log domain slug url) as [H | [post_id H]];
    rewrite H in Hlog; now injection Hlog.
Qed.

(** A run that sent two requests, by the answer to the second. *)
Lemma run_two_requests (url api_url comment_url : string) :
  requests_sent py_repr iso_more net url = [api_url; comment_url] ->
  exists domain title author date_str body_html,
    get_substack_api_data py_repr iso_more net url =
    match
      match net 1%nat comment_url with
      | Raise m => Raise m
      | Ok c_resp =>
          if status_code c_resp =? 200
          then rbind (json c_resp) (read_comments py_repr)
          else Ok []
      end
    with
    | Ok comments =>
        (Some {| title := title; author := author; date := date_str;
                 body := body_html; comments := comments;
                 url := url; domain := domain |}, None)
    | Raise m => (None, Some m)
    end.
Proof.
  intros Hsent. unfold get_substack_api_data.
  destruct (run_sent_first _ _ _ Hsent) as (domain & slug & _ & _ & _ & _ & Hrun).
  unfold requests_sent in Hsent. rewrite Hrun in *. clear Hrun.
  rewrite fetch_post_eq in *. cbv zeta in *.
  destruct (net 0%nat (api_url_of domain slug)) as [resp|m]; [|discriminate].
  destruct (negb (status_code resp =? 200)); [discriminate|].
  destruct (rbind (json resp) (read_post py_repr iso_more))
    as [[[[[post_id title] author] date_str] body_html]|m]; [|discriminate].
  exists domain, title, author, date_str, body_html.
  rewrite get_comments_eq in *.
  destruct (Py.truthy post_id); [|discriminate].
  cbv zeta in *. simpl List.length in *. simpl List.app in *.
  assert (Hurl : comment_url = comment_url_of py_repr domain post_id).
  { destruct (net 1%nat _) as [c|m]; [|simpl in Hsent; congruence].
    destruct (status_code c =? 200); [destruct (rbind _ _)|]; simpl in Hsent; congruence. }
  subst comment_url.
  destruct (net 1%nat _) as [c|m]; [|reflexivity].
  destruct (status_code c =? 200); [destruct (rbind _ _)|]; reflexivity.
Qed.

(** A run that returned a record sent a request. *)
Lemma run_record_sent (url : string) (r : ArticleRecord) :
  get_substack_api_data py_repr iso_more net url = (Some r, None) ->
  exists first rest, requests_sent py_repr iso_more net url = first :: rest.
Proof.
  unfold get_substack_api_data, requests_sent. rewrite run_eq.
  destruct (extract_slug url) as [slug|]; [|discriminate].
  destruct (String.eqb slug ""); [discriminate|].
  destruct (url_domain url) as [domain|]; [|discriminate].
  intros _.
  assert (Hlog : snd (match fetch_post py_repr iso_more net domain slug url [] with
                      | (Ok r0, log) => (r0, log)
                      | (Raise e, log) => ((None, Some e), log)
                      end) = snd (fetch_post py_repr iso_more net domain slug url []))
    by (destruct (fetch_post py_repr iso_more net domain slug url []) as [[r0|e] log]; reflexivity).
  rewrite Hlog.
  destruct (fetch_post_log domain slug url) as [H | [post_id H]]; rewrite H;
    eexists _, _; reflexivity.
Qed.

End FetcherRequests.

(** X4. A fetch sends no request, or one request to the post, or that
    one and one for the comments of the post: never a third, never one
    twice. *)
Theorem fetch_sends_at_most_two_requests
  (py_repr : jvalue -> string)
  (iso_more : string -> option PyDatetime.datetime) (net : network) (url : string) :
  requests_sent py_repr iso_more net url = []
  \/ exists domain slug,
       extract_slug url = Some slug /\ url_domain url = Ok domain
       /\ (requests_sent py_repr iso_more net url = [api_url_of domain slug]
           \/ exists post_id,
                requests_sent py_repr iso_more net url
                = [api_url_of domain slug; comment_url_of py_repr domain post_id]).
Proof.
  destruct (requests_sent py_repr iso_more net url) as [|first rest] eqn:Hsent; [now left|].
  right. destruct (run_sent_first _ _ _ _ _ _ Hsent)
      as (domain & slug & Hslug & _ & Hdom & _ & Hrun).
  exists domain, slug. split; [exact Hslug|]. split; [exact Hdom|].
  unfold requests_sent in Hsent. rewrite Hrun in Hsent.
  assert (Hlog : snd (fetch_post py_repr iso_more net domain slug url []) = first :: rest).
  { destruct (fetch_post py_repr iso_more net domain slug url []) as [[r|e] log]; exact Hsent. }
  rewrite <- Hlog. apply fetch_post_log.
Qed.

(** X5. A fetch that sends no request ends in one of the two input
    errors, and ends in the same way whatever the remote side is. *)
Theorem fetch_without_request_is_input_error
  (py_repr : jvalue -> string)
  (iso_more : string -> option PyDatetime.datetime) (net : network) (url : string)
  (Hnone : requests_sent py_repr iso_more net url = []) :
  (get_substack_api_data py_repr iso_more net url
     = (None, Some "Invalid Substack URL. Must contain '/p/'.")
   \/ get_substack_api_data py_repr iso_more net url = (None, Some "Could not parse domain."))
  /\ forall net', get_substack_api_data py_repr iso_more net' url = get_substack_api_data py_repr
      iso_more net url.
Proof.
  unfold get_substack_api_data, requests_sent in *. rewrite run_eq in Hnone.
  assert (Heq := run_eq py_repr iso_more net url).
  destruct (extract_slug url) as [slug|] eqn:Hslug.
  2:{ rewrite Heq. split; [now left|]. intros net'. now rewrite run_eq, Hslug. }
  destruct (String.eqb slug "") eqn:Hempty.
  { rewrite Heq. split; [now left|]. intros net'. now rewrite run_eq, Hslug, Hempty. }
  destruct (url_domain url) as [domain|] eqn:Hdom.
  2:{ rewrite Heq. split; [now right|]. intros net'. now rewrite run_eq, Hslug, Hempty, Hdom. }
  exfalso.
  assert (Hlog : snd (fetch_post py_repr iso_more net domain slug url []) = []).
  { destruct (fetch_post py_repr iso_more net domain slug url []) as [[r|e] log]; exact Hnone. }
  destruct (fetch_post_log py_repr iso_more net domain slug url) as [H | [post_id H]];
    rewrite H in Hlog; discriminate.
Qed.

Lemma fetch_without_request_witness :
  (get_substack_api_data Scenario.repr Scenario.no_more Scenario.net "x.substack.com/p/hello"
     = (None, Some "Invalid Substack URL. Must contain '/p/'.")
   \/ get_substack_api_data Scenario.repr Scenario.no_more Scenario.net "x.substack.com/p/hello"
     = (None, Some "Could not parse domain."))
  /\ forall net', get_substack_api_data Scenario.repr Scenario.no_more net' "x.substack.com/p/hello"
                  = get_substack_api_data Scenario.repr Scenario.no_more Scenario.net
                      "x.substack.com/p/hello".
Proof.
  apply (fetch_without_request_is_input_error Scenario.repr Scenario.no_more Scenario.net
           "x.substack.com/p/hello").
  reflexivity.
Defined.

(** X6. When the post request is answered with a status other than 200,
    the fetch returns the error ["API Error: "] followed by the status,
    and asks for nothing more. *)
Theorem fetch_api_error_carries_status
  (py_repr : jvalue -> string)
  (iso_more : string -> option PyDatetime.datetime) (net : network) (url first : string)
  (rest : list string) (resp : response)
  (Hsent : requests_sent py_repr iso_more net url = first :: rest)
  (Hmeta : net 0%nat first = Ok resp)
  (Hstatus : status_code resp <> 200) :
  get_substack_api_data py_repr iso_more net url
    = (None, Some ("API Error: " ++ PyStr.of_Z (status_code resp)))
  /\ rest = [].
Proof.
  destruct (run_sent_first _ _ _ _ _ _ Hsent) as (domain & slug & _ & _ & _ & -> & Hrun).
  unfold get_substack_api_data, requests_sent in *. rewrite Hrun in *.
  rewrite fetch_post_eq in *. cbv zeta in *. rewrite Hmeta in *.
  apply Z.eqb_neq in Hstatus. rewrite Hstatus in *. simpl in *.
  split; [reflexivity | now injection Hsent].
Qed.

Lemma fetch_api_error_witness :
  get_substack_api_data Scenario.repr Scenario.no_more
      (Scenario.answers Scenario.not_found Scenario.not_found)
    Scenario.article_url = (None, Some ("API Error: " ++ PyStr.of_Z 404))
  /\ @nil string = [].
Proof.
  apply (fetch_api_error_carries_status Scenario.repr Scenario.no_more
           (Scenario.answers Scenario.not_found Scenario.not_found)
           Scenario.article_url Scenario.api_url [] Scenario.not_found).
  - reflexivity.
  - reflexivity.
  - discriminate.
Defined.

(** How [url_domain] cuts a URL: the domain is the text between the
    first ["//"] and the next ["/"], or the end of the URL. *)
Lemma url_domain_cut (url0 dom : string) :
  url_domain url0 = Ok dom ->
  (exists before rest,
     url0 = before ++ "//" ++ dom ++ rest
     /\ clear_before "//" before ("//" ++ dom ++ rest) = true
     /\ (rest = "" \/ exists path, rest = "/" ++ path))
  /\ PyStr.contains "/" dom = false.
Proof.
  unfold url_domain. intros Hdom.
  destruct (PyStr.contains "//" url0) eqn:E.
  2:{ rewrite (split_without _ _ E) in Hdom. discriminate. }
  destruct (first_occurrence _ _ E) as (a & b & -> & Hclear).
  rewrite (split_at_first "/" "/" a b Hclear) in Hdom.
  destruct (split_head_rest "/" "/" b) as (h & t & r & Hs & -> & _ & Hr).
  rewrite Hs in Hdom. cbn [PyStr.item nth_error rbind] in Hdom.
  destruct (split_head_rest "/" "" h) as (d & t2 & r2 & Hs2 & -> & Hd & Hr2).
  rewrite Hs2 in Hdom. cbn [PyStr.item nth_error] in Hdom. injection Hdom as <-.
  split; [|exact Hd].
  exists a, (r2 ++ r). rewrite append_assoc in Hclear. rewrite append_assoc.
  split; [reflexivity|]. split; [exact Hclear|].
  destruct Hr2 as [-> | [b2 ->]].
  - destruct Hr as [-> | [b1 ->]]; [now left|]. right. exists ("/" ++ b1). reflexivity.
  - right. exists (b2 ++ r). reflexivity.
Qed.

(** X7. A record that is returned keeps the URL it was asked for.  Its
    domain is the text of that URL between the first ["//"] and the next
    ["/"], or the end of the URL when no ["/"] follows: the host, with
    whatever the URL has between the host and that ["/"].  The URL has a
    slug that is not empty, and the first request went to the post of that
    domain and slug. *)
Theorem fetch_record_provenance
  (py_repr : jvalue -> string)
  (iso_more : string -> option PyDatetime.datetime) (net : network) (url0 : string)
  (r : ArticleRecord)
  (Hfetched : get_substack_api_data py_repr iso_more net url0 = (Some r, None)) :
  url r = url0
  /\ url_domain url0 = Ok (domain r)
  /\ (exists before rest,
        url0 = before ++ "//" ++ domain r ++ rest
        /\ clear_before "//" before ("//" ++ domain r ++ rest) = true
        /\ (rest = "" \/ exists path, rest = "/" ++ path))
  /\ PyStr.contains "/" (domain r) = false
  /\ exists slug rest,
       extract_slug url0 = Some slug /\ slug <> ""
       /\ requests_sent py_repr iso_more net url0 = api_url_of (domain r) slug :: rest.
Proof.
  destruct (run_record_sent py_repr iso_more net url0 r Hfetched) as (first & rest & Hsent).
  unfold get_substack_api_data in Hfetched.
  destruct (run_sent_first _ _ _ _ _ _ Hsent) as (dom & slug & Hslug & Hne & Hdom & -> & Hrun).
  rewrite Hrun in Hfetched. rewrite fetch_post_eq in Hfetched. cbv zeta in Hfetched.
  assert (Hr : url r = url0 /\ domain r = dom).
  { destruct (net 0%nat _) as [resp|m]; [|discriminate].
    destruct (negb _); [discriminate|].
    destruct (rbind _ _) as [[[[[post_id title] author] date_str] body_html]|m];
      [|discriminate].
    destruct (get_comments _ _ _ _ _) as [[cs|m] log]; [|discriminate].
    injection Hfetched as <-. split; reflexivity. }
  destruct Hr as [Hu ->]. split; [exact Hu|]. split; [exact Hdom|].
  destruct (url_domain_cut url0 dom Hdom) as [Hcut Hslash].
  split; [exact Hcut|]. split; [exact Hslash|].
  exists slug, rest. repeat split; assumption.
Qed.

Lemma fetch_record_provenance_witness :
  url Scenario.record = Scenario.article_url
  /\ url_domain Scenario.article_url = Ok (domain Scenario.record)
  /\ (exists before rest,
        Scenario.article_url = before ++ "//" ++ domain Scenario.record ++ rest
        /\ clear_before "//" before ("//" ++ domain Scenario.record ++ rest) = true
        /\ (rest = "" \/ exists path, rest = "/" ++ path))
  /\ PyStr.contains "/" (domain Scenario.record) = false
  /\ exists slug rest,
       extract_slug Scenario.article_url = Some slug /\ slug <> ""
       /\ requests_sent Scenario.repr Scenario.no_more Scenario.net Scenario.article_url
          = api_url_of (domain Scenario.record) slug :: rest.
Proof.
  apply (fetch_record_provenance Scenario.repr Scenario.no_more Scenario.net
           Scenario.article_url Scenario.record).
  reflexivity.
Defined.

(** X8. A post without an id, or with an id that is null, zero or empty,
    has its comments left unasked: one request is sent, and a record that
    is returned has no comments. *)
Theorem fetch_without_post_id_skips_comments
  (py_repr : jvalue -> string)
  (iso_more : string -> option PyDatetime.datetime) (net : network) (url first : string)
  (rest : list string) (resp : response) (kv : list (string * jvalue))
  (Hsent : requests_sent py_repr iso_more net url = first :: rest)
  (Hmeta : net 0%nat first = Ok resp)
  (Hmeta200 : status_code resp = 200)
  (Hjson : json resp = Ok (JObj kv))
  (Hid : Py.truthy (Py.lookup_default "id" JNull kv) = false) :
  rest = []
  /\ forall r, get_substack_api_data py_repr iso_more net url = (Some r, None) -> comments r = [].
Proof.
  destruct (run_after_metadata py_repr iso_more net _ _ _ _ _ Hsent Hmeta Hmeta200 Hjson)
    as (dom & _ & Hrun).
  unfold get_substack_api_data, requests_sent in *. rewrite Hrun in *. clear Hrun.
  rewrite read_post_dict in *.
  destruct (Py.getitem0 _) as [byline|m]; cbn [rbind] in *;
    [|split; [now injection Hsent | discriminate]].
  destruct (Py.get byline _ _) as [a|m]; cbn [rbind] in *;
    [|split; [now injection Hsent | discriminate]].
  destruct (format_date py_repr iso_more _) as [d|m]; cbn [rbind] in *;
    [|split; [now injection Hsent | discriminate]].
  rewrite get_comments_eq, Hid in *. simpl in *.
  split; [now injection Hsent|]. intros r H. now injection H as <-.
Qed.

Lemma fetch_without_post_id_witness :
  @nil string = []
  /\ forall r,
       get_substack_api_data Scenario.repr Scenario.no_more
         (Scenario.answers (Scenario.ok_json (JObj [("id", JInt 0); ("title", JStr "T")]))
                           (Scenario.ok_json Scenario.comment_list))
         Scenario.article_url = (Some r, None) -> comments r = [].
Proof.
  apply (fetch_without_post_id_skips_comments Scenario.repr Scenario.no_more
           (Scenario.answers (Scenario.ok_json (JObj [("id", JInt 0); ("title", JStr "T")]))
                             (Scenario.ok_json Scenario.comment_list))
           Scenario.article_url Scenario.api_url []
           (Scenario.ok_json (JObj [("id", JInt 0); ("title", JStr "T")]))
           [("id", JInt 0); ("title", JStr "T")]);
    reflexivity.
Defined.

(** X9. A post whose [publishedBylines] is the empty list has no author
    to fall back on: the fetch returns the error of the failed index, and
    no record. *)
Theorem fetch_empty_bylines_is_error
  (py_repr : jvalue -> string)
  (iso_more : string -> option PyDatetime.datetime) (net : network) (url first : string)
  (rest : list string) (resp : response) (kv : list (string * jvalue))
  (Hsent : requests_sent py_repr iso_more net url = first :: rest)
  (Hmeta : net 0%nat first = Ok resp)
  (Hmeta200 : status_code resp = 200)
  (Hjson : json resp = Ok (JObj kv))
  (Hbylines : Py.lookup "publishedBylines" kv = Some (JArr [])) :
  get_substack_api_data py_repr iso_more net url = (None, Some "list index out of range").
Proof.
  destruct (run_after_metadata py_repr iso_more net _ _ _ _ _ Hsent Hmeta Hmeta200 Hjson)
    as (dom & _ & Hrun).
  unfold get_substack_api_data. rewrite Hrun, read_post_dict.
  unfold Py.lookup_default at 1. rewrite Hbylines. reflexivity.
Qed.

Lemma fetch_empty_bylines_witness :
  get_substack_api_data Scenario.repr Scenario.no_more
    (Scenario.answers
       (Scenario.ok_json (JObj [("title", JStr "T"); ("publishedBylines", JArr [])]))
       Scenario.not_found)
    Scenario.article_url = (None, Some "list index out of range").
Proof.
  apply (fetch_empty_bylines_is_error Scenario.repr Scenario.no_more
           (Scenario.answers
              (Scenario.ok_json (JObj [("title", JStr "T"); ("publishedBylines", JArr [])]))
              Scenario.not_found)
           Scenario.article_url Scenario.api_url []
           (Scenario.ok_json (JObj [("title", JStr "T"); ("publishedBylines", JArr [])]))
           [("title", JStr "T"); ("publishedBylines", JArr [])]);
    reflexivity.
Defined.

(** X10. An exception of the comment request is not passed over as a
    status is: the fetch returns its text as the error, and no record. *)
Theorem fetch_comment_exception_is_error
  (py_repr : jvalue -> string)
  (iso_more : string -> option PyDatetime.datetime) (net : network)
      (url api_url comment_url msg : string)
  (Hsent : requests_sent py_repr iso_more net url = [api_url; comment_url])
  (Hraise : net 1%nat comment_url = Raise msg) :
  get_substack_api_data py_repr iso_more net url = (None, Some msg).
Proof.
  destruct (run_two_requests py_repr iso_more net _ _ _ Hsent) as (dom & t & a & d & b & Hrun).
  rewrite Hrun, Hraise. reflexivity.
Qed.

Lemma fetch_comment_exception_witness :
  get_substack_api_data Scenario.repr Scenario.no_more
    (fun n _ => match n with
                | O => Ok (Scenario.ok_json Scenario.metadata)
                | _ => Raise "Read timed out."
                end)
    Scenario.article_url = (None, Some "Read timed out.").
Proof.
  apply (fetch_comment_exception_is_error Scenario.repr Scenario.no_more
           (fun n _ => match n with
                       | O => Ok (Scenario.ok_json Scenario.metadata)
                       | _ => Raise "Read timed out."
                       end)
           Scenario.article_url Scenario.api_url Scenario.comment_url);
    reflexivity.
Defined.

(** X11. One comment that is not a dict loses the article: when the
    list of comments has such an element, the fetch returns an error and
    no record, whatever the other comments are. *)
Theorem fetch_malformed_comment_is_error
  (py_repr : jvalue -> string)
  (iso_more : string -> option PyDatetime.datetime) (net : network)
      (url api_url comment_url : string)
  (c_resp : response) (c_data : jvalue) (cs : list jvalue) (c : jvalue)
  (Hsent : requests_sent py_repr iso_more net url = [api_url; comment_url])
  (Hcomments : net 1%nat comment_url = Ok c_resp)
  (H200 : status_code c_resp = 200)
  (Hjson : json c_resp = Ok c_data)
  (Hlist : Py.get c_data "comments" (JArr []) = Ok (JArr cs))
  (Hin : In c cs)
  (Hmalformed : forall kv, c <> JObj kv) :
  exists msg, get_substack_api_data py_repr iso_more net url = (None, Some msg).
Proof.
  destruct (run_two_requests py_repr iso_more net _ _ _ Hsent) as (dom & t & a & d & b & Hrun).
  rewrite Hrun, Hcomments, H200, Hjson. cbn [Z.eqb Pos.eqb rbind].
  unfold read_comments. rewrite Hlist. cbn [rbind Py.iter].
  destruct (comment_loop py_repr cs []) as [out|m] eqn:Hloop.
  - apply comment_loop_ok in Hloop as [_ Hall].
    destruct (Hall c Hin) as [kv ->]. now destruct (Hmalformed kv).
  - exists m. reflexivity.
Qed.

Lemma fetch_malformed_comment_witness :
  exists msg,
    get_substack_api_data Scenario.repr Scenario.no_more
      (Scenario.net_with_comments [JObj [("name", JStr "B"); ("body", JStr "nice")]; JNull])
      Scenario.article_url = (None, Some msg).
Proof.
  apply (fetch_malformed_comment_is_error Scenario.repr Scenario.no_more
           (Scenario.net_with_comments [JObj [("name", JStr "B"); ("body", JStr "nice")]; JNull])
           Scenario.article_url Scenario.api_url Scenario.comment_url
           (Scenario.ok_json
              (JObj [("comments", JArr [JObj [("name", JStr "B"); ("body", JStr "nice")]; JNull])]))
           (JObj [("comments", JArr [JObj [("name", JStr "B"); ("body", JStr "nice")]; JNull])])
           [JObj [("name", JStr "B"); ("body", JStr "nice")]; JNull] JNull).
  - reflexivity.
  - reflexivity.
  - reflexivity.
  - reflexivity.
  - reflexivity.
  - right. left. reflexivity.
  - discriminate.
Defined.

(** ** Printing numbers *)

Lemma digits_fuel_acc (fuel n : nat) (acc : string) :
  PyStr.digits_fuel fuel n acc = PyStr.digits_fuel fuel n "" ++ acc.
Proof.
  revert n acc. induction fuel as [|f IH]; intros n acc; [reflexivity|].
  cbn [PyStr.digits_fuel]. cbv zeta.
  destruct (Nat.div n 10) as [|q]; [reflexivity|].
  rewrite IH. rewrite (IH _ (String _ "")). now rewrite append_assoc.
Qed.

Lemma digits_fuel_enough (f1 f2 n : nat) (acc : string) :
  (n < f1)%nat -> (n < f2)%nat ->
  PyStr.digits_fuel f1 n acc = PyStr.digits_fuel f2 n acc.
Proof.
  revert f2 n acc. induction f1 as [|f1 IH]; intros f2 n acc H1 H2; [lia|].
  destruct f2 as [|f2]; [lia|].
  cbn [PyStr.digits_fuel]. cbv zeta.
  destruct (Nat.div n 10) as [|q] eqn:E; [reflexivity|].
  assert (Hq : (Nat.div n 10 < n)%nat) by (apply Nat.div_lt; lia || (destruct n; [discriminate | lia])).
  apply IH; lia.
Qed.

(** The digits of a number: those of its tenth, then its last digit. *)
Lemma of_nat_step (n : nat) :
  (10 <= n)%nat ->
  PyStr.of_nat n
  = PyStr.of_nat (Nat.div n 10) ++ String (ascii_of_nat (48 + Nat.modulo n 10)) "".
Proof.
  intros H. unfold PyStr.of_nat. cbn [PyStr.digits_fuel]. cbv zeta.
  assert (Hq : (0 < Nat.div n 10 < n)%nat).
  { split; [apply Nat.div_str_pos; lia | apply Nat.div_lt; lia]. }
  destruct (Nat.div n 10) as [|q] eqn:E; [lia|].
  rewrite digits_fuel_acc.
  rewrite (digits_fuel_enough n (S (S q)) (S q) "") by lia.
  reflexivity.
Qed.

Lemma of_nat_small (n : nat) :
  (n < 10)%nat -> PyStr.of_nat n = String (ascii_of_nat (48 + n)) "".
Proof.
  intros H. unfold PyStr.of_nat. cbn [PyStr.digits_fuel]. cbv zeta.
  rewrite (Nat.div_small n 10 H), (Nat.mod_small n 10 H). reflexivity.
Qed.

Lemma digit_char (k : nat) :
  (k < 10)%nat ->
  PyDatetime.digit (ascii_of_nat (48 + k)) = Some (Z.of_nat k)
  /\ Ascii.eqb "Z" (ascii_of_nat (48 + k)) = false.
Proof.
  intros H. do 10 (destruct k as [|k]; [split; reflexivity|]). lia.
Qed.

Lemma pad4_prints (n : Z) : 1000 <= n < 10000 -> prints_digits 4 pad4 n = true.
Proof.
  intros H. unfold prints_digits, pad4.
  replace (n <? 10) with false by (symmetry; apply Z.ltb_ge; lia).
  replace (n <? 100) with false by (symmetry; apply Z.ltb_ge; lia).
  replace (n <? 1000) with false by (symmetry; apply Z.ltb_ge; lia).
  destruct n as [|p|p]; try lia. cbn [PyStr.of_Z].
  remember (Pos.to_nat p) as k eqn:Hk.
  assert (Hz : Z.pos p = Z.of_nat k) by lia. rewrite Hz in *. clear Hk Hz p.
  set (q1 := Nat.div k 10). set (q2 := Nat.div q1 10). set (d3 := Nat.div q2 10).
  set (d2 := Nat.modulo q2 10). set (d1 := Nat.modulo q1 10). set (d0 := Nat.modulo k 10).
  pose proof (Nat.div_mod_eq k 10) as E0. pose proof (Nat.div_mod_eq q1 10) as E1.
  pose proof (Nat.div_mod_eq q2 10) as E2.
  fold q1 d0 in E0. fold q2 d1 in E1. fold d3 d2 in E2.
  assert (H2 : (d2 < 10)%nat) by (subst d2; apply Nat.mod_upper_bound; lia).
  assert (H1 : (d1 < 10)%nat) by (subst d1; apply Nat.mod_upper_bound; lia).
  assert (H0 : (d0 < 10)%nat) by (subst d0; apply Nat.mod_upper_bound; lia).
  assert (H3 : (d3 < 10)%nat) by lia.
  rewrite (of_nat_step k) by lia. fold q1 d0.
  rewrite (of_nat_step q1) by lia. fold q2 d1.
  rewrite (of_nat_step q2) by lia. fold d3 d2.
  rewrite (of_nat_small d3 H3).
  destruct (digit_char d3 H3) as [D3 Z3]. destruct (digit_char d2 H2) as [D2 Z2].
  destruct (digit_char d1 H1) as [D1 Z1]. destruct (digit_char d0 H0) as [D0 Z0].
  cbn [append PyDatetime.digits PyStr.contains PyStr.startswith].
  rewrite D3, D2, D1, D0, Z3, Z2, Z1, Z0. cbn [orb negb andb].
  rewrite andb_true_r. apply Z.eqb_eq. lia.
Qed.

(** ** The date of a post *)

(** A test that holds below a bound, checked on each number. *)
Lemma below_forallb (f : Z -> bool) (bound : nat) :
  forallb (fun k => f (Z.of_nat k)) (seq 0 bound) = true ->
  forall n, 0 <= n < Z.of_nat bound -> f n = true.
Proof.
  intros H n Hn. rewrite forallb_forall in H.
  specialize (H (Z.to_nat n)). rewrite Z2Nat.id in H by lia.
  apply H. apply in_seq. lia.
Qed.

Lemma pad2_prints (n : Z) : 0 <= n < 100 -> prints_digits 2 PyDatetime.pad2 n = true.
Proof. apply (below_forallb (prints_digits 2 PyDatetime.pad2) 100). vm_compute. reflexivity. Qed.


Lemma pad3_reads (n : Z) : 0 <= n < 1000 -> reads_millis n = true.
Proof. apply (below_forallb reads_millis 1000). vm_compute. reflexivity. Qed.

Lemma digits_append (k : nat) (a rest : string) (acc v : Z) :
  PyDatetime.digits k a acc = Some (v, "") ->
  PyDatetime.digits k (a ++ rest) acc = Some (v, rest).
Proof.
  revert a acc. induction k as [|k IH]; intros a acc; simpl.
  - intros H. injection H as <- ->. reflexivity.
  - destruct a as [|c a]; [discriminate|]. simpl.
    destruct (PyDatetime.digit c); [apply IH | discriminate].
Qed.

(** What [prints_digits] says of a number. *)
Lemma prints_digits_spec (k : nat) (print : Z -> string) (n : Z) :
  prints_digits k print n = true ->
  (forall rest, PyDatetime.digits k (print n ++ rest) 0 = Some (n, rest))
  /\ PyStr.contains "Z" (print n) = false.
Proof.
  unfold prints_digits.
  destruct (PyDatetime.digits k (print n) 0) as [[v [|c s]]|] eqn:E; try discriminate.
  intros H. apply andb_true_iff in H as [Hv HZ]. apply Z.eqb_eq in Hv. subst v.
  split; [intros rest; now apply digits_append | now apply negb_true_iff in HZ].
Qed.

Lemma replace_without (old new s : string) :
  PyStr.contains old s = false -> PyStr.replace old new s = s.
Proof.
  unfold PyStr.replace. induction s as [|c s IH]; [reflexivity|].
  cbn [PyStr.contains PyStr.replace_from]. intros H.
  apply orb_false_iff in H as [Hhead Hrest]. now rewrite Hhead, (IH Hrest).
Qed.

Lemma contains_char_append (c : ascii) (a b : string) :
  PyStr.contains (String c "") (a ++ b)
  = PyStr.contains (String c "") a || PyStr.contains (String c "") b.
Proof.
  induction a as [|x a IH].
  - cbn [append PyStr.contains PyStr.startswith orb]. reflexivity.
  - change (String x a ++ b) with (String x (a ++ b)).
    cbn [PyStr.contains PyStr.startswith]. rewrite IH.
    destruct (Ascii.eqb c x); [reflexivity|]. reflexivity.
Qed.

(** Replacing one character goes through a concatenation. *)
Lemma replace_char_append (c : ascii) (new a b : string) :
  PyStr.replace (String c "") new (a ++ b)
  = PyStr.replace (String c "") new a ++ PyStr.replace (String c "") new b.
Proof.
  unfold PyStr.replace. induction a as [|x a IH]; [reflexivity|].
  change (String x a ++ b) with (String x (a ++ b)).
  cbn [PyStr.replace_from PyStr.startswith String.length Nat.pred].
  destruct (Ascii.eqb c x).
  - cbn [PyStr.startswith]. rewrite IH. now rewrite append_assoc.
  - rewrite IH. reflexivity.
Qed.

Lemma drop_continuation_digits (k : nat) (s : string) (acc : Z) (r : Z * string) :
  PyDatetime.digits (S k) s acc = Some r -> PyDatetime.drop_continuation s = s.
Proof.
  destruct s as [|c s]; [reflexivity|].
  cbn [PyDatetime.digits PyDatetime.drop_continuation]. unfold PyDatetime.digit. cbv zeta.
  destruct ((48 <=? nat_of_ascii c)%nat && (nat_of_ascii c <=? 57)%nat) eqn:E;
    [|discriminate].
  intros _. apply andb_true_iff in E as [_ E]. apply Nat.leb_le in E.
  assert (H : (128 <=? nat_of_ascii c)%nat = false) by (apply Nat.leb_gt; lia).
  rewrite H. reflexivity.
Qed.

Lemma pad3_prints (n : Z) : 0 <= n < 1000 -> prints_digits 3 pad3 n = true.
Proof. apply (below_forallb (prints_digits 3 pad3) 1000). vm_compute. reflexivity. Qed.

(** The date that was printed is the date that is read. *)
Lemma parse_date_printed (y m d : Z) (rest : string) :
  1000 <= y < 10000 -> 0 <= m < 100 -> 0 <= d < 100 ->
  PyDatetime.parse_date
    (pad4 y ++ "-" ++ PyDatetime.pad2 m ++ "-" ++ PyDatetime.pad2 d ++ rest)
  = Some (y, m, d, rest).
Proof.
  intros Hy Hm Hd.
  destruct (prints_digits_spec _ _ _ (pad4_prints y Hy)) as [Py _].
  destruct (prints_digits_spec _ _ _ (pad2_prints m Hm)) as [Pm _].
  destruct (prints_digits_spec _ _ _ (pad2_prints d Hd)) as [Pd _].
  unfold PyDatetime.parse_date. rewrite Py. cbn [PyDatetime.obind append PyDatetime.expect].
  rewrite Ascii.eqb_refl. cbn [PyDatetime.obind]. rewrite Pm.
  cbn [PyDatetime.obind append PyDatetime.expect].
  rewrite Ascii.eqb_refl. cbn [PyDatetime.obind]. rewrite Pd. reflexivity.
Qed.

(** The time that was printed, with its milliseconds if any and the UTC
    offset after it, is the time that is read. *)
Lemma parse_time_printed (h mi s : Z) (ms : option Z) :
  0 <= h < 100 -> 0 <= mi < 100 -> 0 <= s < 100 ->
  match ms with Some v => 0 <= v < 1000 | None => True end ->
  PyDatetime.parse_time
    (PyDatetime.pad2 h ++ ":" ++ PyDatetime.pad2 mi ++ ":" ++ PyDatetime.pad2 s ++
     match ms with Some v => "." ++ pad3 v | None => "" end ++ "+00:00")
  = Some (h, mi, s, match ms with Some v => v * 1000 | None => 0 end, "+00:00").
Proof.
  intros Hh Hmi Hs Hms.
  destruct (prints_digits_spec _ _ _ (pad2_prints h Hh)) as [Ph _].
  destruct (prints_digits_spec _ _ _ (pad2_prints mi Hmi)) as [Pmi _].
  destruct (prints_digits_spec _ _ _ (pad2_prints s Hs)) as [Ps _].
  unfold PyDatetime.parse_time. rewrite Ph. cbn [PyDatetime.obind append].
  rewrite Pmi. cbn [PyDatetime.obind append].
  unfold PyDatetime.parse_seconds. rewrite Ps. cbn [PyDatetime.obind].
  destruct ms as [v|].
  - cbn [append].
    pose proof (pad3_reads v Hms) as Hr. unfold reads_millis in Hr.
    destruct (PyDatetime.parse_fraction true (pad3 v ++ "+00:00")) as [[u rest]|];
      [|discriminate].
    apply andb_true_iff in Hr as [Hu Hrest].
    apply Z.eqb_eq in Hu. apply String.eqb_eq in Hrest. subst u rest. reflexivity.
  - reflexivity.
Qed.

(** X12. The timestamp of a real instant of the years 1000 to 9999,
    written [YYYY-MM-DDTHH:MM:SS[.mmm]Z], is shown as the month by name, the
    day in two digits and the year: the time of day plays no part. *)
Theorem format_date_of_timestamp
  (py_repr : jvalue -> string)
  (iso_more : string -> option PyDatetime.datetime) (y m d h mi s : Z) (ms : option Z)
  (Hyear : 1000 <= y <= 9999)
  (Hmonth : 1 <= m <= 12)
  (Hday : 1 <= d <= PyDatetime.days_in_month y m)
  (Hhour : 0 <= h <= 23)
  (Hminute : 0 <= mi <= 59)
  (Hsecond : 0 <= s <= 59)
  (Hmillis : match ms with Some v => 0 <= v < 1000 | None => True end) :
  format_date py_repr iso_more (JStr (iso_timestamp y m d h mi s ms))
  = Ok (PyDatetime.month_name m ++ " " ++ PyDatetime.pad2 d ++ ", " ++ PyStr.of_Z y).
Proof.
  assert (Hd31 : PyDatetime.days_in_month y m <= 31).
  { unfold PyDatetime.days_in_month.
    repeat match goal with |- context [if ?b then _ else _] => destruct b end; lia. }
  destruct (prints_digits_spec _ _ _ (pad4_prints y ltac:(lia))) as [_ Zy].
  destruct (prints_digits_spec _ _ _ (pad2_prints m ltac:(lia))) as [_ Zm].
  destruct (prints_digits_spec _ _ _ (pad2_prints d ltac:(lia))) as [_ Zd].
  destruct (prints_digits_spec _ _ _ (pad2_prints h ltac:(lia))) as [Ph Zh].
  destruct (prints_digits_spec _ _ _ (pad2_prints mi ltac:(lia))) as [_ Zmi].
  destruct (prints_digits_spec _ _ _ (pad2_prints s ltac:(lia))) as [_ Zs].
  pose proof (parse_time_printed h mi s ms ltac:(lia) ltac:(lia) ltac:(lia) Hmillis) as Ptime.
  unfold iso_timestamp.
  set (frac := match ms with Some v => "." ++ pad3 v | None => "" end) in *.
  assert (Zfrac : PyStr.contains "Z" frac = false).
  { subst frac. destruct ms as [v|]; [|reflexivity].
    destruct (prints_digits_spec _ _ _ (pad3_prints v Hmillis)) as [_ Zv].
    now rewrite contains_char_append, Zv. }
  unfold format_date.
  assert (Htruthy : forall rest, Py.truthy (JStr (pad4 y ++ "-" ++ rest)) = true)
    by (intros rest; cbn [Py.truthy]; destruct (pad4 y); reflexivity).
  rewrite Htruthy. cbn [Py.replace rbind].
  rewrite !replace_char_append.
  rewrite !(replace_without "Z" "+00:00") by (assumption || reflexivity).
  change (PyStr.replace "Z" "+00:00" "Z") with "+00:00".
  unfold PyDatetime.fromisoformat, PyDatetime.parse_isoformat.
  rewrite parse_date_printed by lia.
  cbn [PyDatetime.obind append PyDatetime.drop_char].
  cbn [append] in Ptime.
  rewrite (drop_continuation_digits 1 _ 0 _ (Ph _)), Ptime.
  cbn [PyDatetime.obind]. change (PyDatetime.parse_offset "+00:00") with (Some 0).
  cbn [PyDatetime.obind rbind].
  unfold PyDatetime.check_fields.
  cbn [PyDatetime.year PyDatetime.month PyDatetime.day PyDatetime.hour PyDatetime.minute
       PyDatetime.second PyDatetime.utcoffset].
  replace ((1 <=? y) && (y <=? 9999)) with true
    by (symmetry; apply andb_true_iff; split; apply Z.leb_le; lia).
  replace ((1 <=? m) && (m <=? 12)) with true
    by (symmetry; apply andb_true_iff; split; apply Z.leb_le; lia).
  replace ((1 <=? d) && (d <=? PyDatetime.days_in_month y m)) with true
    by (symmetry; apply andb_true_iff; split; apply Z.leb_le; lia).
  replace (h <=? 23) with true by (symmetry; apply Z.leb_le; lia).
  replace (mi <=? 59) with true by (symmetry; apply Z.leb_le; lia).
  replace (s <=? 59) with true by (symmetry; apply Z.leb_le; lia).
  reflexivity.
Qed.

Lemma format_date_of_timestamp_witness :
  format_date Scenario.repr Scenario.no_more (JStr (iso_timestamp 2024 2 29 23 59 58 (Some 7)))
  = Ok (PyDatetime.month_name 2 ++ " " ++ PyDatetime.pad2 29 ++ ", " ++ PyStr.of_Z 2024).
Proof.
  apply (format_date_of_timestamp Scenario.repr Scenario.no_more 2024 2 29 23 59 58 (Some 7));
    vm_compute; intuition discriminate.
Defined.

(** X13. A date written with the suffix [Z] is read as the same text
    written with the offset [+00:00]: as the same date, or with the same
    error. *)
Theorem format_date_zulu_is_utc (py_repr : jvalue -> string)
  (iso_more : string -> option PyDatetime.datetime) (s : string) :
  format_date py_repr iso_more (JStr (s ++ "Z")) = format_date py_repr iso_more
      (JStr (s ++ "+00:00")).
Proof.
  unfold format_date.
  assert (Htruthy : forall c t, Py.truthy (JStr (s ++ String c t)) = true)
    by (intros c t; cbn [Py.truthy]; destruct s; reflexivity).
  rewrite !Htruthy. cbn [Py.replace rbind].
  rewrite !replace_char_append. reflexivity.
Qed.

(** ** The covers *)

(** X14. Whatever the style tag and the record, a cover that is drawn is
    600 pixels wide and 900 high. *)
Theorem cover_image_has_canonical_size
  (py_repr : jvalue -> string) (str_upper : string -> string)
  (font_ink : string -> Z -> Z -> bool)
  (font_shade : string -> Z -> Z -> PIL.color -> PIL.color -> PIL.color)
  (text_error : string) (text_other : jvalue -> result (option string))
  (style : string) (data : ArticleRecord) (im : PIL.Image)
  (Hdrawn : cover_image py_repr str_upper font_ink font_shade text_error text_other style data
      = Ok im) :
  PIL.width im = 600 /\ PIL.height im = 900.
Proof.
  unfold cover_image, upper in Hdrawn.
  destruct (String.eqb style "Classic Typography");
    [|destruct (String.eqb style "Modern Dark");
      [|destruct (String.eqb style "Minimalist White")]];
    destruct (PIL.text_arg text_error text_other (title data)) as [[t|]|];
    try discriminate; cbn [rbind] in Hdrawn;
    try (destruct (PIL.text_arg text_error text_other (author data)) as [[a|]|];
         try discriminate; cbn [rbind] in Hdrawn);
    try (destruct (author data); try discriminate; cbn [rbind] in Hdrawn);
    injection Hdrawn as <-; split; reflexivity.
Qed.

Lemma cover_image_has_canonical_size_witness :
  PIL.width (PIL.new 600 900 (255, 255, 255)) = 600
  /\ PIL.height (PIL.new 600 900 (255, 255, 255)) = 900.
Proof.
  apply (cover_image_has_canonical_size Scenario.repr Scenario.ascii_upper
           Scenario.block_font Scenario.solid Scenario.none_error Scenario.other_text "Vintage"
               Scenario.record).
  reflexivity.
Defined.

(** X15. A record whose title is null, as the fetcher returns it for a
    post whose title is null, has no cover in any of the three styles:
    [generate_cover] raises the [TypeError] of [d.text]. *)
Theorem generate_cover_null_title_raises
  (py_repr : jvalue -> string) (str_upper : string -> string)
  (font_ink : string -> Z -> Z -> bool)
  (font_shade : string -> Z -> Z -> PIL.color -> PIL.color -> PIL.color)
  (text_error : string) (text_other : jvalue -> result (option string))
  (jpeg_encode : PIL.Image -> bytes)
  (style : string) (data : ArticleRecord)
  (Hstyle : style = "Classic Typography" \/ style = "Modern Dark"
            \/ style = "Minimalist White")
  (Htitle : title data = JNull) :
  generate_cover py_repr str_upper font_ink font_shade text_error text_other jpeg_encode
    style data = Raise text_error.
Proof.
  unfold generate_cover, cover_image. rewrite Htitle.
  destruct Hstyle as [-> | [-> | ->]]; reflexivity.
Qed.

Lemma generate_cover_null_title_witness :
  generate_cover Scenario.repr Scenario.ascii_upper Scenario.block_font Scenario.solid
    Scenario.none_error Scenario.other_text Scenario.header "Modern Dark"
    {| title := JNull; author := JStr "A"; date := "Undated"; body := JStr "";
       comments := []; url := Scenario.article_url; domain := "x.substack.com" |}
  = Raise Scenario.none_error.
Proof.
  apply (generate_cover_null_title_raises Scenario.repr Scenario.ascii_upper
           Scenario.block_font Scenario.solid Scenario.none_error Scenario.other_text
           Scenario.header "Modern Dark").
  - right. left. reflexivity.
  - reflexivity.
Defined.

(** X16. An author that is not text is written out by the dark style,
    which draws its cover, and stops the white style, which raises the
    [AttributeError] of [.upper()] on it. *)
Theorem generate_cover_author_not_text
  (py_repr : jvalue -> string) (str_upper : string -> string)
  (font_ink : string -> Z -> Z -> bool)
  (font_shade : string -> Z -> Z -> PIL.color -> PIL.color -> PIL.color)
  (text_error : string) (text_other : jvalue -> result (option string))
  (jpeg_encode : PIL.Image -> bytes)
  (data : ArticleRecord) (t : string)
  (Htitle : title data = JStr t)
  (Hauthor : forall a, author data <> JStr a) :
  (exists cover,
     generate_cover py_repr str_upper font_ink font_shade text_error text_other jpeg_encode
       "Modern Dark" data = Ok cover)
  /\ generate_cover py_repr str_upper font_ink font_shade text_error text_other jpeg_encode
       "Minimalist White" data
     = Raise ("'" ++ Py.type_name (author data) ++ "' object has no attribute 'upper'").
Proof.
  unfold generate_cover, cover_image, upper. rewrite Htitle.
  destruct (author data) as [| | | |a| |] eqn:E; try (now destruct (Hauthor a));
    cbn; split; try (eexists; reflexivity); reflexivity.
Qed.

Lemma generate_cover_author_not_text_witness :
  (exists cover,
     generate_cover Scenario.repr Scenario.ascii_upper Scenario.block_font Scenario.solid
       Scenario.none_error Scenario.other_text Scenario.header "Modern Dark"
       {| title := JStr "T"; author := JInt 7; date := "Undated"; body := JStr "";
          comments := []; url := Scenario.article_url; domain := "x.substack.com" |}
     = Ok cover)
  /\ generate_cover Scenario.repr Scenario.ascii_upper Scenario.block_font Scenario.solid
       Scenario.none_error Scenario.other_text Scenario.header "Minimalist White"
       {| title := JStr "T"; author := JInt 7; date := "Undated"; body := JStr "";
          comments := []; url := Scenario.article_url; domain := "x.substack.com" |}
     = Raise "'int' object has no attribute 'upper'".
Proof.
  apply (generate_cover_author_not_text Scenario.repr Scenario.ascii_upper
           Scenario.block_font Scenario.solid Scenario.none_error Scenario.other_text
           Scenario.header
           {| title := JStr "T"; author := JInt 7; date := "Undated"; body := JStr "";
              comments := []; url := Scenario.article_url; domain := "x.substack.com" |}
           "T").
  - reflexivity.
  - discriminate.
Defined.

(** X17. With a font that inks nothing to the left of where a text is
    anchored, no text reaches the 50 pixels on the left of a cover: there
    the dark cover shows its orange bar, 21 pixels wide, from row 150 to
    row 350, on its background, the white cover is white, and the classic
    cover shows the left side of its black frame, 3 pixels thick, on
    cream. *)
Theorem cover_left_margin
  (py_repr : jvalue -> string) (str_upper : string -> string)
  (font_ink : string -> Z -> Z -> bool)
  (font_shade : string -> Z -> Z -> PIL.color -> PIL.color -> PIL.color)
  (text_error : string) (text_other : jvalue -> result (option string))
  (data : ArticleRecord) (classic dark minimal : PIL.Image)
  (Hfont : forall s dx dy, dx < 0 -> font_ink s dx dy = false)
  (Hclassic : cover_image py_repr str_upper font_ink font_shade text_error text_other
      "Classic Typography" data = Ok classic)
  (Hdark : cover_image py_repr str_upper font_ink font_shade text_error text_other "Modern Dark"
      data = Ok dark)
  (Hminimal : cover_image py_repr str_upper font_ink font_shade text_error text_other
      "Minimalist White" data = Ok minimal) :
  forall x y, 0 <= x < 50 -> 0 <= y < 900 ->
    PIL.pixel dark x y
      = (if (x <=? 20) && (150 <=? y) && (y <=? 350) then (255, 87, 34) else (20, 20, 20))
    /\ PIL.pixel minimal x y = (255, 255, 255)
    /\ PIL.pixel classic x y
      = (if (20 <=? x) && (20 <=? y) && (y <=? 880)
            && ((x <=? 22) || (y <=? 22) || (878 <=? y))
         then (0, 0, 0) else (248, 241, 229)).
Proof.
  intros x y Hx Hy.
  assert (Hink : forall s ay, font_ink s (x - 50) (y - ay) = false)
    by (intros; apply Hfont; lia).
  unfold cover_image, upper in *. cbn [String.eqb Ascii.eqb Bool.eqb] in *.
  destruct (PIL.text_arg text_error text_other (title data)) as [t|]; [|discriminate].
  cbn [rbind] in *.
  destruct (author data) as [| | | |a| |]; try discriminate.
  cbn [PIL.text_arg rbind] in *.
  injection Hclassic as <-. injection Hdark as <-. injection Hminimal as <-.
  destruct t as [t|];
    unfold PIL.text_of, PIL.text, PIL.line_horizontal, PIL.rectangle_fill,
      PIL.rectangle_outline, PIL.paint, PIL.new, PIL.within; cbn [PIL.pixel PIL.width PIL.height];
    rewrite !Hink;
    replace (900 - 20) with 880 by reflexivity;
    replace (600 - 20) with 580 by reflexivity;
    replace (150 + 200) with 350 by reflexivity;
    repeat split;
    repeat match goal with
           | |- context [?a <=? ?b] => destruct (Z.leb_spec a b)
           end; cbn; try reflexivity; lia.
Qed.

Lemma block_font_right_of_anchor (s : string) (dx dy : Z) :
  dx < 0 -> Scenario.block_font s dx dy = false.
Proof.
  intros H. unfold Scenario.block_font.
  replace (0 <=? dx) with false by (symmetry; apply Z.leb_gt; lia). reflexivity.
Qed.

Lemma block_font_below_anchor (s : string) (dx dy : Z) :
  dy < 0 -> Scenario.block_font s dx dy = false.
Proof.
  intros H. unfold Scenario.block_font.
  replace (0 <=? dy) with false by (symmetry; apply Z.leb_gt; lia).
  now rewrite andb_false_r.
Qed.

Lemma cover_left_margin_witness :
  exists classic dark minimal,
    cover_image Scenario.repr Scenario.ascii_upper Scenario.block_font Scenario.solid
        Scenario.none_error Scenario.other_text
      "Classic Typography" Scenario.record = Ok classic
    /\ cover_image Scenario.repr Scenario.ascii_upper Scenario.block_font Scenario.solid
        Scenario.none_error Scenario.other_text
      "Modern Dark" Scenario.record = Ok dark
    /\ cover_image Scenario.repr Scenario.ascii_upper Scenario.block_font Scenario.solid
        Scenario.none_error Scenario.other_text
      "Minimalist White" Scenario.record = Ok minimal
    /\ PIL.pixel dark 10 200
       = (if (10 <=? 20) && (150 <=? 200) && (200 <=? 350)
          then (255, 87, 34) else (20, 20, 20))
    /\ PIL.pixel minimal 10 200 = (255, 255, 255)
    /\ PIL.pixel classic 10 200
       = (if (20 <=? 10) && (20 <=? 200) && (200 <=? 880)
             && ((10 <=? 22) || (200 <=? 22) || (878 <=? 200))
          then (0, 0, 0) else (248, 241, 229)).
Proof.
  eexists _, _, _. split; [reflexivity|]. split; [reflexivity|]. split; [reflexivity|].
  apply (cover_left_margin Scenario.repr Scenario.ascii_upper Scenario.block_font Scenario.solid
      Scenario.none_error Scenario.other_text
           Scenario.record _ _ _ block_font_right_of_anchor eq_refl eq_refl eq_refl
           10 200); lia.
Defined.

(** X18. With a font that inks nothing above where a text is anchored,
    the divider of the white cover is whole: on row 300 every pixel from
    column 50 to column 550 is black. *)
Theorem cover_minimal_divider
  (py_repr : jvalue -> string) (str_upper : string -> string)
  (font_ink : string -> Z -> Z -> bool)
  (font_shade : string -> Z -> Z -> PIL.color -> PIL.color -> PIL.color)
  (text_error : string) (text_other : jvalue -> result (option string))
  (data : ArticleRecord) (minimal : PIL.Image)
  (Hfont : forall s dx dy, dy < 0 -> font_ink s dx dy = false)
  (Hminimal : cover_image py_repr str_upper font_ink font_shade text_error text_other
      "Minimalist White" data = Ok minimal) :
  forall x, 50 <= x <= 550 -> PIL.pixel minimal x 300 = (0, 0, 0).
Proof.
  intros x Hx.
  unfold cover_image, upper in *. cbn [String.eqb Ascii.eqb Bool.eqb] in *.
  destruct (PIL.text_arg text_error text_other (title data)) as [t|]; [|discriminate].
  cbn [rbind] in *.
  destruct (author data) as [| | | |a| |]; try discriminate.
  cbn [rbind] in *. injection Hminimal as <-.
  unfold PIL.text, PIL.line_horizontal, PIL.paint, PIL.new, PIL.within.
  cbn [PIL.pixel PIL.width PIL.height].
  rewrite !(Hfont _ _ _) by lia.
  replace (50 <=? x) with true by (symmetry; apply Z.leb_le; lia).
  replace (x <=? 550) with true by (symmetry; apply Z.leb_le; lia).
  reflexivity.
Qed.

Lemma cover_minimal_divider_witness :
  exists minimal,
    cover_image Scenario.repr Scenario.ascii_upper Scenario.block_font Scenario.solid
        Scenario.none_error Scenario.other_text
      "Minimalist White" Scenario.record = Ok minimal
    /\ PIL.pixel minimal 300 300 = (0, 0, 0).
Proof.
  eexists. split; [reflexivity|].
  apply (cover_minimal_divider Scenario.repr Scenario.ascii_upper Scenario.block_font
      Scenario.solid Scenario.none_error Scenario.other_text
           Scenario.record _ block_font_below_anchor eq_refl 300); lia.
Defined.

(** ** Wrapped text *)

Section WrappedText.
Variable font_ink : string -> Z -> Z -> bool.
Variable font_shade : string -> Z -> Z -> PIL.color -> PIL.color -> PIL.color.

(** The loop moves down 40 pixels for each line, keeps the size of the
    raster, and leaves a pixel that no line touches as it was. *)
Lemma draw_lines_spec (lines : list string) (im : PIL.Image) (x y : Z) (fill : PIL.color) :
  snd (draw_lines font_ink font_shade lines im x y fill)
    = y + 40 * Z.of_nat (List.length lines)
  /\ PIL.width (fst (draw_lines font_ink font_shade lines im x y fill)) = PIL.width im
  /\ PIL.height (fst (draw_lines font_ink font_shade lines im x y fill)) = PIL.height im
  /\ forall px py,
       (forall i line, nth_error lines i = Some line
                       -> font_ink line (px - x) (py - (y + 40 * Z.of_nat i)) = false)
       -> PIL.pixel (fst (draw_lines font_ink font_shade lines im x y fill)) px py
          = PIL.pixel im px py.
Proof.
  unfold draw_lines. revert im y. induction lines as [|l lines IH]; intros im y.
  - cbn [fold_left fst snd List.length]. split; [lia|]. split; [reflexivity|].
    split; reflexivity.
  - cbn [fold_left].
    destruct (IH (PIL.text font_ink font_shade im x y l fill) (y + 40)) as (Hy & Hw & Hh & Hpix).
    split; [rewrite Hy; cbn [List.length]; lia|].
    split; [rewrite Hw; reflexivity|]. split; [rewrite Hh; reflexivity|].
    intros px py Hnone. rewrite Hpix.
    + unfold PIL.text. cbn [PIL.pixel].
      specialize (Hnone O l eq_refl).
      replace (y + 40 * Z.of_nat 0) with y in Hnone by lia. now rewrite Hnone.
    + intros i line Hnth.
      replace (y + 40 + 40 * Z.of_nat i) with (y + 40 * Z.of_nat (S i)) by lia.
      now apply (Hnone (S i)).
Qed.

End WrappedText.

(** X19. For a width above 0, [draw_text_wrapped] returns the row under
    the last line, 40 pixels further down for each line of the wrapped
    text, and leaves the size of the raster as it was; for a width of 0 or
    less it raises the [ValueError] of [textwrap.wrap]. *)
Theorem draw_text_wrapped_advances_by_lines
  (wrap : string -> Z -> list string) (font_ink : string -> Z -> Z -> bool)
  (font_shade : string -> Z -> Z -> PIL.color -> PIL.color -> PIL.color)
  (im : PIL.Image) (text : string) (x y max_width : Z) (fill : PIL.color) :
  (0 < max_width ->
   exists out,
     draw_text_wrapped wrap font_ink font_shade im text x y max_width fill
       = Ok (out, y + 40 * Z.of_nat (List.length (wrap text max_width)))
     /\ PIL.width out = PIL.width im
     /\ PIL.height out = PIL.height im)
  /\ (max_width <= 0 ->
      draw_text_wrapped wrap font_ink font_shade im text x y max_width fill
        = Raise ("invalid width " ++ PyStr.of_Z max_width ++ " (must be > 0)")).
Proof.
  unfold draw_text_wrapped, textwrap_wrap. split; intros Hw.
  - replace (max_width <=? 0) with false by (symmetry; apply Z.leb_gt; lia).
    cbn [rbind].
    destruct (draw_lines_spec font_ink font_shade (wrap text max_width) im x y fill)
      as (H1 & H2 & H3 & _).
    destruct (draw_lines font_ink font_shade (wrap text max_width) im x y fill) as [out cy].
    cbn [fst snd] in *. subst cy. exists out. auto.
  - replace (max_width <=? 0) with true by (symmetry; apply Z.leb_le; lia).
    reflexivity.
Qed.

Lemma draw_text_wrapped_advances_witness :
  (exists out,
     draw_text_wrapped Scenario.short_wrap Scenario.block_font Scenario.solid
       (PIL.new 600 900 PIL.white) "Hello" 50 200 20 PIL.black
       = Ok (out, 200 + 40 * Z.of_nat (List.length (Scenario.short_wrap "Hello" 20)))
     /\ PIL.width out = PIL.width (PIL.new 600 900 PIL.white)
     /\ PIL.height out = PIL.height (PIL.new 600 900 PIL.white))
  /\ draw_text_wrapped Scenario.short_wrap Scenario.block_font Scenario.solid
       (PIL.new 600 900 PIL.white) "Hello" 50 200 0 PIL.black
     = Raise ("invalid width " ++ PyStr.of_Z 0 ++ " (must be > 0)").
Proof.
  split.
  - apply (draw_text_wrapped_advances_by_lines Scenario.short_wrap Scenario.block_font
             Scenario.solid (PIL.new 600 900 PIL.white) "Hello" 50 200 20 PIL.black).
    lia.
  - apply (draw_text_wrapped_advances_by_lines Scenario.short_wrap Scenario.block_font
             Scenario.solid (PIL.new 600 900 PIL.white) "Hello" 50 200 0 PIL.black).
    lia.
Defined.



(** ** The book *)

(** X22. A record whose body is not text cannot be packaged:
    [create_epub] raises before anything is written, whatever the writer
    would do. *)
Theorem create_epub_needs_text_body
  (py_repr : jvalue -> string) (write_epub : Epub.EpubBook -> result bytes)
  (data : ArticleRecord) (cover_bytes : bytes)
  (Hbody : forall html, body data <> JStr html) :
  exists msg,
    create_book py_repr data cover_bytes = Raise msg
    /\ create_epub py_repr write_epub data cover_bytes = Raise msg.
Proof.
  unfold create_epub, create_book.
  destruct (body data) as [| | | |html| |] eqn:E; try (now destruct (Hbody html));
    cbn [concat_body rbind]; eexists; split; reflexivity.
Qed.

Lemma create_epub_needs_text_body_witness :
  exists msg,
    create_book Scenario.repr
      {| title := JStr "T"; author := JStr "A"; date := "Undated"; body := JNull;
         comments := []; url := Scenario.article_url; domain := "x.substack.com" |}
      [] = Raise msg
    /\ create_epub Scenario.repr (fun _ => Ok [])
         {| title := JStr "T"; author := JStr "A"; date := "Undated"; body := JNull;
            comments := []; url := Scenario.article_url; domain := "x.substack.com" |}
         [] = Raise msg.
Proof.
  apply (create_epub_needs_text_body Scenario.repr (fun _ => Ok [])).
  discriminate.
Defined.

(** ** From the fetch to the book *)

Lemma lookup_default_text (k default : string) (kv : list (string * jvalue)) :
  text_or_absent k kv -> exists s, Py.lookup_default k (JStr default) kv = JStr s.
Proof.
  unfold text_or_absent, Py.lookup_default.
  destruct (Py.lookup k kv) as [[| | | |s| |]|]; try contradiction; intros _; eexists; reflexivity.
Qed.

(** X23. When the post that is fetched has text, or nothing, for its
    title, the name of its first byline and its body, the record that is
    returned has text in its title, author and body, so that nothing
    raises after the fetch: each of the three covers is drawn and the book
    is assembled. *)
Theorem fetch_textual_post_can_be_packaged
  (py_repr : jvalue -> string)
  (iso_more : string -> option PyDatetime.datetime) (str_upper : string -> string)
  (font_ink : string -> Z -> Z -> bool)
  (font_shade : string -> Z -> Z -> PIL.color -> PIL.color -> PIL.color)
  (text_error : string) (text_other : jvalue -> result (option string))
      (jpeg_encode : PIL.Image -> bytes)
  (net : network) (url0 first : string) (rest : list string)
  (resp : response) (kv : list (string * jvalue)) (r : ArticleRecord)
  (cover_bytes : bytes)
  (Hsent : requests_sent py_repr iso_more net url0 = first :: rest)
  (Hmeta : net 0%nat first = Ok resp)
  (Hmeta200 : status_code resp = 200)
  (Hjson : json resp = Ok (JObj kv))
  (Htitle : text_or_absent "title" kv)
  (Hbyline : byline_textual kv)
  (Hbody : text_or_absent "body_html" kv)
  (Hfetched : get_substack_api_data py_repr iso_more net url0 = (Some r, None)) :
  textual r
  /\ (forall style,
        style = "Classic Typography" \/ style = "Modern Dark" \/ style = "Minimalist White" ->
        exists cover,
          generate_cover py_repr str_upper font_ink font_shade text_error text_other jpeg_encode
              style r = Ok cover)
  /\ exists book, create_book py_repr r cover_bytes = Ok book.
Proof.
  assert (Htext : textual r).
  { destruct (run_after_metadata py_repr iso_more net _ _ _ _ _ Hsent Hmeta Hmeta200 Hjson)
      as (dom & _ & Hrun).
    unfold get_substack_api_data in Hfetched. rewrite Hrun, read_post_dict in Hfetched.
    destruct (lookup_default_text "title" "Untitled" kv Htitle) as [t Ht].
    destruct (lookup_default_text "body_html" "" kv Hbody) as [b Hb].
    rewrite Ht, Hb in Hfetched.
    assert (Hauthor :
              forall v,
                (byline <- Py.getitem0
                             (Py.lookup_default "publishedBylines" (JArr [JObj []]) kv) ;;
                 Py.get byline "name" (JStr "Unknown Author"))%res = Ok v ->
                exists a, v = JStr a).
    { unfold byline_textual in Hbyline. unfold Py.lookup_default at 1.
      destruct (Py.lookup "publishedBylines" kv) as [bylines|].
      - destruct bylines as [| | | | |[|[| | | | | |o] more]|]; try contradiction.
        cbn [Py.getitem0 Py.get rbind]. intros v Hv. injection Hv as <-.
        now apply lookup_default_text.
      - cbn. intros v Hv. injection Hv as <-. eexists. reflexivity. }
    destruct (Py.getitem0 _) as [byline|]; [|discriminate]. cbn [rbind] in *.
    destruct (Py.get byline _ _) as [a|]; [|discriminate]. cbn [rbind] in *.
    destruct (Hauthor a eq_refl) as [a' ->].
    destruct (format_date py_repr iso_more _) as [d|]; [|discriminate]. cbn [rbind] in *.
    destruct (get_comments _ _ _ _ _) as [[cs|] log]; [|discriminate].
    injection Hfetched as <-. repeat split; eexists; reflexivity. }
  split; [exact Htext|].
  destruct Htext as ([t Ht] & [a Ha] & [b Hb]). split.
  - intros style [-> | [-> | ->]]; unfold generate_cover.
    + rewrite (cover_image_classic py_repr str_upper font_ink font_shade text_error text_other r t
        a Ht Ha). eexists. reflexivity.
    + rewrite (cover_image_dark py_repr str_upper font_ink font_shade text_error text_other r t
        Ht). eexists. reflexivity.
    + rewrite (cover_image_minimal py_repr str_upper font_ink font_shade text_error text_other r t
        a Ht Ha). eexists. reflexivity.
  - unfold create_book. rewrite Hb. cbn [concat_body rbind]. eexists. reflexivity.
Qed.

Lemma fetch_textual_post_witness :
  textual Scenario.record
  /\ (forall style,
        style = "Classic Typography" \/ style = "Modern Dark" \/ style = "Minimalist White" ->
        exists cover,
          generate_cover Scenario.repr Scenario.ascii_upper Scenario.block_font Scenario.solid
              Scenario.none_error Scenario.other_text
            Scenario.header style Scenario.record = Ok cover)
  /\ exists book, create_book Scenario.repr Scenario.record [] = Ok book.
Proof.
  apply (fetch_textual_post_can_be_packaged Scenario.repr Scenario.no_more Scenario.ascii_upper
           Scenario.block_font Scenario.solid Scenario.none_error Scenario.other_text
               Scenario.header Scenario.net Scenario.article_url
           Scenario.api_url [Scenario.comment_url] (Scenario.ok_json Scenario.metadata)
           [("id", JInt 1); ("title", JStr "Hello");
            ("publishedBylines", JArr [JObj [("name", JStr "A")]]);
            ("post_date", JStr "2024-01-01T00:00:00Z");
            ("body_html", JStr "<p>hi</p>")]);
    try reflexivity; exact I.
Defined.

(** ** The page *)

Section PageFacts.
Variable py_repr : jvalue -> string.
Variable iso_more : string -> option PyDatetime.datetime.
Variable str_upper : string -> string.
Variable font_ink : string -> Z -> Z -> bool.
Variable font_shade : string -> Z -> Z -> PIL.color -> PIL.color -> PIL.color.
Variable text_error : string.
Variable text_other : jvalue -> result (option string).
Variable jpeg_encode : PIL.Image -> bytes.
Variable write_epub : Epub.EpubBook -> result bytes.
Variable net : network.

(** The fetch button: the session is kept, or takes what the fetch
    returned when it reported no error. *)
Lemma fetch_part_eq (inp : UI.inputs) (s : UI.session) (out : list UI.widget) :
  fetch_part py_repr iso_more net inp (s, out) =
  if negb (String.eqb (UI.url_input inp) "") then
    if UI.fetch_article inp then
      match error_shown (snd (get_substack_api_data py_repr iso_more net (UI.url_input inp))) with
      | Some e =>
          (Ok tt, (s, out ++ [UI.Button "Fetch Article";
                              UI.Spinner "Talking to Substack API..."; UI.Error e])%list)
      | None =>
          (Ok tt,
           ({| UI.data := Some
               (fst (get_substack_api_data py_repr iso_more net (UI.url_input inp)));
               UI.selected_cover := UI.selected_cover s |},
            out ++ [UI.Button "Fetch Article"; UI.Spinner "Talking to Substack API...";
                    UI.Success "Article & Comments Found!"])%list)
      end
    else (Ok tt, (s, out ++ [UI.Button "Fetch Article"])%list)
  else (Ok tt, (s, out)).
Proof.
  unfold fetch_part. destruct (negb _); [|reflexivity].
  unfold UI.bind, UI.show, UI.ret, UI.set_data. cbn [fst snd].
  destruct (UI.fetch_article inp); [|reflexivity].
  destruct (get_substack_api_data py_repr iso_more net (UI.url_input inp)) as [d e]. cbn [fst snd].
  destruct (error_shown e); cbn [fst snd]; rewrite <- !app_assoc; reflexivity.
Qed.

(** A column: the caption, then the cover and its button when the cover
    is drawn; the cover is selected when the button was pressed. *)
Lemma cover_column_eq (caption style label : string) (pressed : bool)
      (data : option ArticleRecord) (s : UI.session) (out : list UI.widget) :
  cover_column py_repr str_upper font_ink font_shade text_error text_other jpeg_encode caption
      style label pressed data (s, out) =
  match UI.on_record data
      (generate_cover py_repr str_upper font_ink font_shade text_error text_other jpeg_encode
      style) with
  | Raise m => (Raise m, (s, out ++ [UI.Caption caption])%list)
  | Ok cov =>
      (Ok tt,
       ((if pressed
         then {| UI.data := UI.data s; UI.selected_cover := Some cov |}
         else s),
        out ++ [UI.Caption caption; UI.Image cov; UI.Button label])%list)
  end.
Proof.
  unfold cover_column, UI.bind, UI.show, UI.lift, UI.ret, UI.set_selected_cover.
  cbn [fst snd].
  destruct (UI.on_record data _) as [cov|m]; [|reflexivity].
  destruct pressed; cbn [fst snd]; rewrite <- !app_assoc; reflexivity.
Qed.

(** The download: nothing without a selected cover; with one, the two
    lines, then the button when the book is written and the title can be
    cut. *)
Lemma download_part_eq (data : option ArticleRecord) (s : UI.session) (out : list UI.widget) :
  download_part py_repr write_epub data (s, out) =
  match UI.selected_cover s with
  | None => (Ok tt, (s, out))
  | Some cover =>
      match data with
      | None => (Raise "'NoneType' object is not subscriptable", (s, out ++ [UI.Divider])%list)
      | Some r =>
          let lines :=
            [UI.Divider;
             UI.Write ("**Ready to Download:** " ++ Py.str py_repr (title r));
             UI.Write ("**Comments included:** "
                         ++ PyStr.of_Z (Z.of_nat (List.length (comments r))))] in
          match create_epub py_repr write_epub r cover with
          | Raise m => (Raise m, (s, out ++ lines)%list)
          | Ok epub_file =>
              match UI.slice15 (title r) with
              | Raise m => (Raise m, (s, out ++ lines)%list)
              | Ok short =>
                  (Ok tt,
                   (s, out ++ lines ++
                       [UI.DownloadButton "Download EPUB for Kindle" epub_file
                          (Py.str py_repr short ++ "_Kindle.epub")
                          "application/epub+zip"])%list)
              end
          end
      end
  end.
Proof.
  unfold download_part, UI.bind, UI.show, UI.lift, UI.ret, UI.session_state.
  cbn [fst snd]. destruct (UI.selected_cover s) as [cover|]; [|reflexivity].
  destruct data as [r|]; [|reflexivity]. cbn [UI.on_record fst snd]. cbv zeta.
  destruct (create_epub py_repr write_epub r cover) as [epub_file|m];
    [|rewrite <- !app_assoc; reflexivity].
  destruct (UI.slice15 (title r)) as [short|m]; rewrite <- !app_assoc; reflexivity.
Qed.

(** When [d.text] raises on whatever is not a string, a cover in the
    classic style was drawn from a title that is text. *)
Lemma classic_cover_text (r : ArticleRecord) (cov : bytes) :
  (forall v, exists m, text_other v = Raise m) ->
  generate_cover py_repr str_upper font_ink font_shade text_error text_other jpeg_encode
    "Classic Typography" r = Ok cov ->
  exists t, title r = JStr t.
Proof.
  intros Hstrict. unfold generate_cover, cover_image. cbn [String.eqb Ascii.eqb Bool.eqb].
  destruct (title r) as [|b|z|f|t|l|kv] eqn:E; cbn [PIL.text_arg];
    try (intros _; eexists; reflexivity);
    try discriminate;
    match goal with
    | |- context [text_other ?v] => destruct (Hstrict v) as [m ->]; discriminate
    end.
Qed.

Ltac split_in H :=
  repeat (apply in_app_or in H; destruct H as [H|H]);
  try solve [simpl in H; intuition discriminate].

(** An image among the widgets shown is an old one, or the cover that a
    column drew. *)
Ltac image_shown H r :=
  split_in H;
  first [ left; exact H
        | right; exists r; eexists;
          simpl in H; destruct H as [H|[H|[H|[]]]]; try discriminate;
          injection H as <-;
          split; [reflexivity|]; split; [|eassumption]; auto ].

Ltac download_not_shown H := split_in H; left; exact H.

(** What the part of the page under the form does to the session and to
    what is shown: the record stays; an image is the cover of the record
    in one of the three styles; a download ends a run without exception
    and holds the book of the record with the selected cover, under the
    first 15 characters of the title. *)
Lemma record_part_spec (inp : UI.inputs) (s s' : UI.session) (out out' : list UI.widget)
      (res : result unit) :
  record_part py_repr str_upper font_ink font_shade text_error text_other jpeg_encode write_epub
      inp (s, out)
    = (res, (s', out')) ->
  UI.data s' = UI.data s
  /\ (forall b, In (UI.Image b) out' ->
        In (UI.Image b) out
        \/ exists r style,
             UI.data s = Some (Some r)
             /\ (style = "Classic Typography" \/ style = "Modern Dark"
                 \/ style = "Minimalist White")
             /\ generate_cover py_repr str_upper font_ink font_shade text_error text_other
                 jpeg_encode style r = Ok b)
  /\ (forall label content file_name mime,
        In (UI.DownloadButton label content file_name mime) out' ->
        In (UI.DownloadButton label content file_name mime) out
        \/ (res = Ok tt
            /\ exists r cover short classic,
                 UI.data s = Some (Some r)
                 /\ UI.selected_cover s' = Some cover
                 /\ UI.slice15 (title r) = Ok short
                 /\ create_epub py_repr write_epub r cover = Ok content
                 /\ file_name = Py.str py_repr short ++ "_Kindle.epub"
                 /\ mime = "application/epub+zip"
                 /\ generate_cover py_repr str_upper font_ink font_shade text_error
                      text_other jpeg_encode "Classic Typography" r = Ok classic)).
Proof.
  clear iso_more net.
  unfold record_part, UI.bind at 1, UI.session_state. cbn [fst snd].
  destruct (UI.data s) as [d|] eqn:Hdata.
  2:{ unfold UI.ret. intros H. injection H as <- <- <-. rewrite Hdata. auto. }
  unfold UI.bind, UI.show. cbn [fst snd]. rewrite cover_column_eq.
  destruct d as [r|].
  2:{ cbn [UI.on_record]. intros H. injection H as <- <- <-.
      split; [exact Hdata|]. split; intros; [image_shown H r | download_not_shown H]. }
  cbn [UI.on_record].
  destruct (generate_cover py_repr str_upper font_ink font_shade text_error text_other jpeg_encode
      "Classic Typography" r)
    as [c1|m1] eqn:G1.
  2:{ intros H. injection H as <- <- <-.
      split; [exact Hdata|]. split; intros; [image_shown H r | download_not_shown H]. }
  rewrite cover_column_eq. cbn [UI.on_record].
  destruct (generate_cover py_repr str_upper font_ink font_shade text_error text_other jpeg_encode
      "Modern Dark" r)
    as [c2|m2] eqn:G2.
  2:{ intros H. injection H as <- <- <-.
      split; [destruct (UI.select_classic inp); exact Hdata|].
      split; intros; [image_shown H r | download_not_shown H]. }
  rewrite cover_column_eq. cbn [UI.on_record].
  destruct (generate_cover py_repr str_upper font_ink font_shade text_error text_other jpeg_encode
      "Minimalist White" r)
    as [c3|m3] eqn:G3.
  2:{ intros H. injection H as <- <- <-.
      split; [destruct (UI.select_classic inp), (UI.select_dark inp); exact Hdata|].
      split; intros; [image_shown H r | download_not_shown H]. }
  rewrite download_part_eq.
  match goal with
  | |- context [UI.selected_cover ?st] => set (s3 := st)
  end.
  assert (Hdata3 : UI.data s3 = Some (Some r))
    by (subst s3; destruct (UI.select_classic inp), (UI.select_dark inp),
          (UI.select_minimal inp); exact Hdata).
  destruct (UI.selected_cover s3) as [cover|] eqn:Hsel.
  2:{ intros H. injection H as <- <- <-. split; [exact Hdata3|].
      split; intros; [image_shown H r | download_not_shown H]. }
  cbv zeta.
  destruct (create_epub py_repr write_epub r cover) as [epub_file|m] eqn:Hbook.
  2:{ intros H. injection H as <- <- <-. split; [exact Hdata3|].
      split; intros; [image_shown H r | download_not_shown H]. }
  destruct (UI.slice15 (title r)) as [short|m] eqn:Hshort.
  2:{ intros H. injection H as <- <- <-. split; [exact Hdata3|].
      split; intros; [image_shown H r | download_not_shown H]. }
  intros H. injection H as <- <- <-. split; [exact Hdata3|].
  split; [intros; image_shown H r|].
  intros label content file_name mime H. split_in H.
  right. split; [reflexivity|].
  exists r, cover, short, c1.
  simpl in H. destruct H as [H|[H|[H|[H|[]]]]]; try discriminate.
  injection H as <- <- <- <-. auto 10.
Qed.

(** A run is the form, then the fetch button, then the part under the
    form. *)
Lemma run_page_eq (s : UI.session) (inp : UI.inputs) :
  run_page py_repr iso_more str_upper font_ink font_shade text_error text_other jpeg_encode
      write_epub net s inp =
  match
    fetch_part py_repr iso_more net inp
      (s, [UI.Title "Ray's Substack Reader";
           UI.Markdown "Paste a Substack link. Get a Kindle file with comments.";
           UI.TextInput "Substack URL" "https://..."])
  with
  | (Ok _, st) => record_part py_repr str_upper font_ink font_shade text_error text_other
      jpeg_encode write_epub inp st
  | (Raise m, st) => (Raise m, st)
  end.
Proof.
  unfold run_page, page, UI.bind, UI.show. cbn [fst snd List.app].
  destruct (fetch_part py_repr iso_more net inp _) as [[[]|m] st]; reflexivity.
Qed.

(** With a record in the session whose three covers are drawn, the part
    under the form shows them and goes on to the download, with the cover
    of the last button pressed as the selected one. *)
Lemma record_part_drawn (inp : UI.inputs) (s : UI.session) (out : list UI.widget)
      (r : ArticleRecord) (c1 c2 c3 : bytes) :
  UI.data s = Some (Some r) ->
  generate_cover py_repr str_upper font_ink font_shade text_error text_other jpeg_encode
      "Classic Typography" r = Ok c1 ->
  generate_cover py_repr str_upper font_ink font_shade text_error text_other jpeg_encode
      "Modern Dark" r = Ok c2 ->
  generate_cover py_repr str_upper font_ink font_shade text_error text_other jpeg_encode
      "Minimalist White" r = Ok c3 ->
  record_part py_repr str_upper font_ink font_shade text_error text_other jpeg_encode write_epub
      inp (s, out) =
  download_part py_repr write_epub (Some r)
    ({| UI.data := Some (Some r);
        UI.selected_cover :=
          if UI.select_minimal inp then Some c3
          else if UI.select_dark inp then Some c2
          else if UI.select_classic inp then Some c1
          else UI.selected_cover s |},
     out ++ [UI.Divider; UI.Subheader "Select a Cover Style";
             UI.Caption "Classic"; UI.Image c1; UI.Button "Select Classic";
             UI.Caption "Dark"; UI.Image c2; UI.Button "Select Dark";
             UI.Caption "Minimal"; UI.Image c3; UI.Button "Select Minimal"])%list.
Proof.
  intros Hdata G1 G2 G3.
  unfold record_part, UI.bind at 1, UI.session_state. cbn [fst snd]. rewrite Hdata.
  unfold UI.bind, UI.show. cbn [fst snd].
  rewrite cover_column_eq. cbn [UI.on_record]. rewrite G1.
  rewrite cover_column_eq. cbn [UI.on_record]. rewrite G2.
  rewrite cover_column_eq. cbn [UI.on_record]. rewrite G3.
  rewrite <- !app_assoc. cbn [List.app].
  f_equal. f_equal.
  destruct s as [d sel]. cbn [UI.data UI.selected_cover] in *. subst d.
  destruct (UI.select_classic inp), (UI.select_dark inp), (UI.select_minimal inp);
    reflexivity.
Qed.

(** The part under the form adds to what is shown, and takes nothing
    away. *)
Lemma record_part_appends (inp : UI.inputs) (s : UI.session) (out : list UI.widget) :
  exists shown,
    snd (snd (record_part py_repr str_upper font_ink font_shade text_error text_other jpeg_encode
        write_epub inp (s, out)))
    = (out ++ shown)%list.
Proof.
  unfold record_part, UI.bind at 1, UI.session_state. cbn [fst snd].
  destruct (UI.data s) as [d|]; [|exists []; cbn; now rewrite app_nil_r].
  unfold UI.bind, UI.show. cbn [fst snd]. rewrite cover_column_eq.
  destruct (UI.on_record d _) as [c1|m1];
    [|eexists; cbn [fst snd]; rewrite <- !app_assoc; reflexivity].
  rewrite cover_column_eq.
  destruct (UI.on_record d _) as [c2|m2];
    [|eexists; cbn [fst snd]; rewrite <- !app_assoc; reflexivity].
  rewrite cover_column_eq.
  destruct (UI.on_record d _) as [c3|m3];
    [|eexists; cbn [fst snd]; rewrite <- !app_assoc; reflexivity].
  rewrite download_part_eq.
  match goal with
  | |- context [UI.selected_cover ?st] => destruct (UI.selected_cover st)
  end; [|eexists; cbn [fst snd]; rewrite <- !app_assoc; reflexivity].
  destruct d as [r|]; [|eexists; cbn [fst snd]; rewrite <- !app_assoc; reflexivity].
  cbv zeta. destruct (create_epub _ _ _ _);
    [|eexists; cbn [fst snd]; rewrite <- !app_assoc; reflexivity].
  destruct (UI.slice15 _); eexists; cbn [fst snd]; rewrite <- !app_assoc; reflexivity.
Qed.

End PageFacts.

(** X24. A run of the page offers a download only when it ends without
    exception with a record and a selected cover in the session; the file
    is the book of that record with that cover, and its name is the slice
    [[:15]] of the title, as text, followed by ["_Kindle.epub"].  When
    [d.text] raises on whatever is not a string, the title is text and the
    name starts with its first 15 characters. *)
Theorem page_download_needs_record_and_cover
  (py_repr : jvalue -> string)
  (iso_more : string -> option PyDatetime.datetime) (str_upper : string -> string)
  (font_ink : string -> Z -> Z -> bool)
  (font_shade : string -> Z -> Z -> PIL.color -> PIL.color -> PIL.color)
  (text_error : string) (text_other : jvalue -> result (option string))
  (jpeg_encode : PIL.Image -> bytes)
  (write_epub : Epub.EpubBook -> result bytes) (net : network)
  (s : UI.session) (inp : UI.inputs) (label file_name mime : string) (content : bytes)
  (Hshown : In (UI.DownloadButton label content file_name mime)
               (snd (snd (run_page py_repr iso_more str_upper font_ink font_shade text_error
                   text_other
                 jpeg_encode write_epub net s inp)))) :
  fst (run_page py_repr iso_more str_upper font_ink font_shade text_error text_other
                 jpeg_encode write_epub net s inp) = Ok tt
  /\ exists r cover short,
       UI.data (fst (snd
           (run_page py_repr iso_more str_upper font_ink font_shade text_error text_other
                 jpeg_encode write_epub net s inp))) = Some (Some r)
       /\ UI.selected_cover
           (fst (snd (run_page py_repr iso_more str_upper font_ink font_shade text_error text_other
                 jpeg_encode write_epub net s inp))) = Some cover
       /\ UI.slice15 (title r) = Ok short
       /\ create_epub py_repr write_epub r cover = Ok content
       /\ file_name = Py.str py_repr short ++ "_Kindle.epub"
       /\ mime = "application/epub+zip"
       /\ ((forall v, exists m, text_other v = Raise m) ->
           exists t, title r = JStr t /\ file_name = UI.take_chars 15 t ++ "_Kindle.epub").
Proof.
  rewrite run_page_eq in *. rewrite fetch_part_eq in *.
  match goal with
  | H : In _ (snd (snd (match ?x with _ => _ end))) |- _ =>
      destruct x as [[[]|m] [s1 out1]] eqn:Hfetch
  end.
  2:{ exfalso.
      destruct (negb _); [destruct (UI.fetch_article inp); [destruct (error_shown _)|]|];
        discriminate. }
  assert (Hclean : forall l c f m, ~ In (UI.DownloadButton l c f m) out1).
  { intros l c f m H.
    destruct (negb _); [destruct (UI.fetch_article inp); [destruct (error_shown _)|]|];
      injection Hfetch as <- <-; simpl in H; intuition discriminate. }
  destruct (record_part py_repr str_upper font_ink font_shade text_error text_other
              jpeg_encode write_epub inp (s1, out1))
    as [res [s' out']] eqn:Hrec.
  destruct (record_part_spec py_repr str_upper font_ink font_shade text_error text_other
              jpeg_encode write_epub inp s1 s' out1 out' res Hrec) as (Hdata & _ & Hdl).
  cbn [fst snd] in *.
  destruct (Hdl _ _ _ _ Hshown)
    as [H | (-> & r & cover & short & c1 & Hr & Hc & Hs & Hb & Hf & Hm & G1)].
  - now destruct (Hclean _ _ _ _ H).
  - split; [reflexivity|]. exists r, cover, short. rewrite Hdata.
    repeat (split; [assumption|]).
    intros Hstrict.
    destruct (classic_cover_text py_repr str_upper font_ink font_shade text_error text_other
                jpeg_encode r c1 Hstrict G1) as [t Ht].
    exists t. split; [exact Ht|].
    rewrite Ht in Hs. cbn [UI.slice15] in Hs. injection Hs as <-. exact Hf.
Qed.

Lemma page_download_witness :
  fst (run_page Scenario.repr Scenario.no_more Scenario.ascii_upper Scenario.block_font
                 Scenario.solid Scenario.none_error Scenario.other_text Scenario.header
                 Example.zip Scenario.net Example.ready Example.idle) = Ok tt
  /\ exists r cover short,
       UI.data (fst (snd
           (run_page Scenario.repr Scenario.no_more Scenario.ascii_upper Scenario.block_font
                 Scenario.solid Scenario.none_error Scenario.other_text Scenario.header
                 Example.zip Scenario.net Example.ready Example.idle))) = Some (Some r)
       /\ UI.selected_cover
           (fst (snd
           (run_page Scenario.repr Scenario.no_more Scenario.ascii_upper Scenario.block_font
                 Scenario.solid Scenario.none_error Scenario.other_text Scenario.header
                 Example.zip Scenario.net Example.ready Example.idle))) = Some cover
       /\ UI.slice15 (title r) = Ok short
       /\ create_epub Scenario.repr Example.zip r cover = Ok [Byte.x50; Byte.x4b]
       /\ "An earlier arti_Kindle.epub" = Py.str Scenario.repr short ++ "_Kindle.epub"
       /\ "application/epub+zip" = "application/epub+zip"
       /\ ((forall v, exists m, Scenario.other_text v = Raise m) ->
           exists t, title r = JStr t
                     /\ "An earlier arti_Kindle.epub" = UI.take_chars 15 t ++ "_Kindle.epub").
Proof.
  apply (page_download_needs_record_and_cover Scenario.repr Scenario.no_more
           Scenario.ascii_upper Scenario.block_font Scenario.solid Scenario.none_error
           Scenario.other_text Scenario.header Example.zip Scenario.net Example.ready
           Example.idle "Download EPUB for Kindle").
  vm_compute. do 17 right. left. reflexivity.
Defined.

(** X25. When the fetch that the button started returns an error, the
    run shows the error and leaves the record of the session as it was. *)
Theorem page_failed_fetch_keeps_record
  (py_repr : jvalue -> string)
  (iso_more : string -> option PyDatetime.datetime) (str_upper : string -> string)
  (font_ink : string -> Z -> Z -> bool)
  (font_shade : string -> Z -> Z -> PIL.color -> PIL.color -> PIL.color)
  (text_error : string) (text_other : jvalue -> result (option string))
      (jpeg_encode : PIL.Image -> bytes)
  (write_epub : Epub.EpubBook -> result bytes) (net : network)
  (s : UI.session) (inp : UI.inputs) (e : string)
  (Hurl : UI.url_input inp <> "")
  (Hpressed : UI.fetch_article inp = true)
  (Hfetch : get_substack_api_data py_repr iso_more net (UI.url_input inp) = (None, Some e))
  (Herror : e <> "") :
  UI.data (fst (snd
      (run_page py_repr iso_more str_upper font_ink font_shade text_error text_other jpeg_encode
      write_epub net s inp)))
    = UI.data s
  /\ In (UI.Error e)
        (snd (snd (run_page py_repr iso_more str_upper font_ink font_shade text_error text_other
            jpeg_encode write_epub net s inp))).
Proof.
  rewrite run_page_eq, fetch_part_eq.
  apply String.eqb_neq in Hurl, Herror. rewrite Hurl, Hpressed, Hfetch.
  cbn [negb snd error_shown]. rewrite Herror.
  match goal with
  | |- context [record_part _ _ _ _ _ _ _ _ _ (?s1, ?out1)] =>
      destruct (record_part_appends py_repr str_upper font_ink font_shade text_error text_other
          jpeg_encode write_epub
                  inp s1 out1) as [shown Hshown];
      destruct (record_part py_repr str_upper font_ink font_shade text_error text_other
          jpeg_encode write_epub inp (s1, out1))
        as [res [s' out']] eqn:Hrec
  end.
  cbn [fst snd] in *. subst out'.
  destruct (record_part_spec py_repr str_upper font_ink font_shade text_error text_other
      jpeg_encode write_epub
              _ _ _ _ _ _ Hrec) as (Hdata & _).
  split; [exact Hdata|]. apply in_or_app. left. apply in_or_app. right.
  simpl. auto.
Qed.

Lemma page_failed_fetch_witness :
  UI.data (fst (snd
      (run_page Scenario.repr Scenario.no_more Scenario.ascii_upper Scenario.block_font
      Scenario.solid Scenario.none_error Scenario.other_text
                       Scenario.header Example.zip
                       (Scenario.answers Scenario.not_found Scenario.not_found)
                       Example.ready (Example.fetch Scenario.article_url))))
    = UI.data Example.ready
  /\ In (UI.Error "API Error: 404")
        (snd (snd (run_page Scenario.repr Scenario.no_more Scenario.ascii_upper
            Scenario.block_font Scenario.solid Scenario.none_error Scenario.other_text
                     Scenario.header Example.zip
                     (Scenario.answers Scenario.not_found Scenario.not_found)
                     Example.ready (Example.fetch Scenario.article_url)))).
Proof.
  apply (page_failed_fetch_keeps_record Scenario.repr Scenario.no_more Scenario.ascii_upper
           Scenario.block_font Scenario.solid Scenario.none_error Scenario.other_text
               Scenario.header Example.zip
           (Scenario.answers Scenario.not_found Scenario.not_found)
           Example.ready (Example.fetch Scenario.article_url) "API Error: 404").
  - discriminate.
  - reflexivity.
  - reflexivity.
  - discriminate.
Defined.

(** X26. A fetch that succeeds replaces the record of the session and
    leaves the selected cover where it is: when no cover button is pressed
    in that run, the download that is offered holds the new record under
    the cover that was selected for the one before. *)
Theorem page_refetch_keeps_selected_cover
  (py_repr : jvalue -> string)
  (iso_more : string -> option PyDatetime.datetime) (str_upper : string -> string)
  (font_ink : string -> Z -> Z -> bool)
  (font_shade : string -> Z -> Z -> PIL.color -> PIL.color -> PIL.color)
  (text_error : string) (text_other : jvalue -> result (option string))
      (jpeg_encode : PIL.Image -> bytes)
  (write_epub : Epub.EpubBook -> result bytes) (net : network)
  (s : UI.session) (inp : UI.inputs) (r : ArticleRecord) (cover book : bytes)
  (t a : string)
  (Hurl : UI.url_input inp <> "")
  (Hpressed : UI.fetch_article inp = true)
  (Hclassic : UI.select_classic inp = false)
  (Hdark : UI.select_dark inp = false)
  (Hminimal : UI.select_minimal inp = false)
  (Hfetch : get_substack_api_data py_repr iso_more net (UI.url_input inp) = (Some r, None))
  (Htitle : title r = JStr t)
  (Hauthor : author r = JStr a)
  (Hselected : UI.selected_cover s = Some cover)
  (Hbook : create_epub py_repr write_epub r cover = Ok book) :
  fst (run_page py_repr iso_more str_upper font_ink font_shade text_error text_other jpeg_encode
      write_epub net s inp) = Ok tt
  /\ fst (snd (run_page py_repr iso_more str_upper font_ink font_shade text_error text_other
      jpeg_encode write_epub net s inp))
     = {| UI.data := Some (Some r); UI.selected_cover := Some cover |}
  /\ In (UI.DownloadButton "Download EPUB for Kindle" book
           (UI.take_chars 15 t ++ "_Kindle.epub") "application/epub+zip")
        (snd (snd (run_page py_repr iso_more str_upper font_ink font_shade text_error text_other
            jpeg_encode write_epub net s inp))).
Proof.
  rewrite run_page_eq, fetch_part_eq.
  apply String.eqb_neq in Hurl. rewrite Hurl, Hpressed, Hfetch.
  cbn [negb fst snd error_shown].
  erewrite record_part_drawn;
    [ | reflexivity
      | unfold generate_cover;
        rewrite (cover_image_classic py_repr str_upper font_ink font_shade text_error text_other r
            t a Htitle Hauthor);
        reflexivity
      | unfold generate_cover;
        rewrite (cover_image_dark py_repr str_upper font_ink font_shade text_error text_other r t
            Htitle); reflexivity
      | unfold generate_cover;
        rewrite (cover_image_minimal py_repr str_upper font_ink font_shade text_error text_other r
            t a Htitle Hauthor);
        reflexivity ].
  rewrite Hclassic, Hdark, Hminimal. cbn [UI.selected_cover]. rewrite Hselected.
  rewrite download_part_eq. cbn [UI.selected_cover]. cbv zeta.
  rewrite Hbook, Htitle. cbn [UI.slice15 Py.str fst snd].
  split; [reflexivity|]. split; [reflexivity|].
  apply in_or_app. right. apply in_or_app. right. simpl. auto.
Qed.

Lemma page_refetch_witness :
  fst (run_page Scenario.repr Scenario.no_more Scenario.ascii_upper Scenario.block_font
      Scenario.solid Scenario.none_error Scenario.other_text Scenario.header
         Example.zip Scenario.net Example.ready (Example.fetch Scenario.article_url))
    = Ok tt
  /\ fst (snd (run_page Scenario.repr Scenario.no_more Scenario.ascii_upper Scenario.block_font
      Scenario.solid Scenario.none_error Scenario.other_text
                 Scenario.header Example.zip Scenario.net Example.ready
                 (Example.fetch Scenario.article_url)))
     = {| UI.data := Some (Some Scenario.record); UI.selected_cover := Some Example.chosen |}
  /\ In (UI.DownloadButton "Download EPUB for Kindle" [Byte.x50; Byte.x4b]
           (UI.take_chars 15 "Hello" ++ "_Kindle.epub") "application/epub+zip")
        (snd (snd (run_page Scenario.repr Scenario.no_more Scenario.ascii_upper
            Scenario.block_font Scenario.solid Scenario.none_error Scenario.other_text
                     Scenario.header Example.zip Scenario.net Example.ready
                     (Example.fetch Scenario.article_url)))).
Proof.
  apply (page_refetch_keeps_selected_cover Scenario.repr Scenario.no_more Scenario.ascii_upper
           Scenario.block_font Scenario.solid Scenario.none_error Scenario.other_text
               Scenario.header Example.zip Scenario.net Example.ready
           (Example.fetch Scenario.article_url) Scenario.record Example.chosen
           [Byte.x50; Byte.x4b] "Hello" "A");
    try reflexivity; discriminate.
Defined.

(** X27. An image that a run of the page shows is the cover, in one of
    the three styles, of the record that the session holds at the end of
    the run. *)
Theorem page_image_is_cover_of_record
  (py_repr : jvalue -> string)
  (iso_more : string -> option PyDatetime.datetime) (str_upper : string -> string)
  (font_ink : string -> Z -> Z -> bool)
  (font_shade : string -> Z -> Z -> PIL.color -> PIL.color -> PIL.color)
  (text_error : string) (text_other : jvalue -> result (option string))
      (jpeg_encode : PIL.Image -> bytes)
  (write_epub : Epub.EpubBook -> result bytes) (net : network)
  (s : UI.session) (inp : UI.inputs) (image : bytes)
  (Hshown : In (UI.Image image)
               (snd (snd (run_page py_repr iso_more str_upper font_ink font_shade text_error
                   text_other jpeg_encode write_epub net
                            s inp)))) :
  exists r style,
    UI.data (fst (snd
        (run_page py_repr iso_more str_upper font_ink font_shade text_error text_other jpeg_encode
        write_epub net
                         s inp))) = Some (Some r)
    /\ (style = "Classic Typography" \/ style = "Modern Dark" \/ style = "Minimalist White")
    /\ generate_cover py_repr str_upper font_ink font_shade text_error text_other jpeg_encode
        style r = Ok image.
Proof.
  rewrite run_page_eq in *. rewrite fetch_part_eq in *.
  match goal with
  | H : In _ (snd (snd (match ?x with _ => _ end))) |- _ =>
      destruct x as [[[]|m] [s1 out1]] eqn:Hfetch
  end.
  2:{ exfalso.
      destruct (negb _); [destruct (UI.fetch_article inp); [destruct (error_shown _)|]|];
        discriminate. }
  assert (Hclean : forall b, ~ In (UI.Image b) out1).
  { intros b H.
    destruct (negb _); [destruct (UI.fetch_article inp); [destruct (error_shown _)|]|];
      injection Hfetch as <- <-; simpl in H; intuition discriminate. }
  destruct (record_part py_repr str_upper font_ink font_shade text_error text_other jpeg_encode
      write_epub inp (s1, out1))
    as [res [s' out']] eqn:Hrec.
  destruct (record_part_spec py_repr str_upper font_ink font_shade text_error text_other
      jpeg_encode write_epub
              inp s1 s' out1 out' res Hrec) as (Hdata & Himg & _).
  cbn [fst snd] in *.
  destruct (Himg _ Hshown) as [H | (r & style & Hr & Hstyle & Hcover)].
  - now destruct (Hclean _ H).
  - exists r, style. rewrite Hdata. auto.
Qed.

Lemma page_image_witness :
  exists r style,
    UI.data (fst (snd
        (run_page Scenario.repr Scenario.no_more Scenario.ascii_upper Scenario.block_font
        Scenario.solid Scenario.none_error Scenario.other_text
                         Scenario.header Example.zip Scenario.net Example.unselected
                         Example.idle))) = Some (Some r)
    /\ (style = "Classic Typography" \/ style = "Modern Dark" \/ style = "Minimalist White")
    /\ generate_cover Scenario.repr Scenario.ascii_upper Scenario.block_font Scenario.solid
        Scenario.none_error Scenario.other_text Scenario.header
         style r
       = Ok (Scenario.header (PIL.new 600 900 (20, 20, 20))).
Proof.
  apply (page_image_is_cover_of_record Scenario.repr Scenario.no_more Scenario.ascii_upper
           Scenario.block_font Scenario.solid Scenario.none_error Scenario.other_text
               Scenario.header Example.zip Scenario.net
           Example.unselected Example.idle).
  vm_compute. do 9 right. left. reflexivity.
Defined.

(** X28. With a record in the session whose three covers are drawn, and
    the fetch button not pressed, the cover that a run leaves selected is
    the cover of the button that was pressed, the last of them if several
    were, and the cover selected before if none was. *)
Theorem page_selects_pressed_cover
  (py_repr : jvalue -> string)
  (iso_more : string -> option PyDatetime.datetime) (str_upper : string -> string)
  (font_ink : string -> Z -> Z -> bool)
  (font_shade : string -> Z -> Z -> PIL.color -> PIL.color -> PIL.color)
  (text_error : string) (text_other : jvalue -> result (option string))
      (jpeg_encode : PIL.Image -> bytes)
  (write_epub : Epub.EpubBook -> result bytes) (net : network)
  (s : UI.session) (inp : UI.inputs) (r : ArticleRecord) (c1 c2 c3 : bytes)
  (Hidle : UI.fetch_article inp = false)
  (Hdata : UI.data s = Some (Some r))
  (Hclassic : generate_cover py_repr str_upper font_ink font_shade text_error text_other
      jpeg_encode "Classic Typography" r
              = Ok c1)
  (Hdark : generate_cover py_repr str_upper font_ink font_shade text_error text_other jpeg_encode
      "Modern Dark" r = Ok c2)
  (Hminimal : generate_cover py_repr str_upper font_ink font_shade text_error text_other
      jpeg_encode "Minimalist White" r
              = Ok c3) :
  fst (snd (run_page py_repr iso_more str_upper font_ink font_shade text_error text_other
      jpeg_encode write_epub net s inp))
  = {| UI.data := Some (Some r);
       UI.selected_cover :=
         if UI.select_minimal inp then Some c3
         else if UI.select_dark inp then Some c2
         else if UI.select_classic inp then Some c1
         else UI.selected_cover s |}.
Proof.
  rewrite run_page_eq, fetch_part_eq, Hidle.
  assert (Hrec : forall out,
             fst (snd (record_part py_repr str_upper font_ink font_shade text_error text_other
                 jpeg_encode write_epub inp
                         (s, out)))
             = {| UI.data := Some (Some r);
                  UI.selected_cover :=
                    if UI.select_minimal inp then Some c3
                    else if UI.select_dark inp then Some c2
                    else if UI.select_classic inp then Some c1
                    else UI.selected_cover s |}).
  { intros out. rewrite
      (record_part_drawn _ _ _ _ _ _ _ _ _ _ _ _ c1 c2 c3 Hdata Hclassic Hdark Hminimal).
    rewrite download_part_eq.
    match goal with
    | |- context [match ?sel with Some _ => _ | None => _ end] => destruct sel
    end; [|reflexivity].
    cbv zeta. destruct (create_epub _ _ _ _); [|reflexivity].
    destruct (UI.slice15 _); reflexivity. }
  destruct (negb _); apply Hrec.
Qed.

Lemma page_selects_pressed_cover_witness :
  fst (snd (run_page Scenario.repr Scenario.no_more Scenario.ascii_upper Scenario.block_font
      Scenario.solid Scenario.none_error Scenario.other_text Scenario.header
              Example.zip Scenario.net Example.unselected Example.press_dark))
  = {| UI.data := Some (Some Example.earlier);
       UI.selected_cover :=
         if UI.select_minimal Example.press_dark
         then Some (Scenario.header (PIL.new 600 900 (255, 255, 255)))
         else if UI.select_dark Example.press_dark
              then Some (Scenario.header (PIL.new 600 900 (20, 20, 20)))
              else if UI.select_classic Example.press_dark
                   then Some (Scenario.header (PIL.new 600 900 (248, 241, 229)))
                   else UI.selected_cover Example.unselected |}.
Proof.
  apply (page_selects_pressed_cover Scenario.repr Scenario.no_more Scenario.ascii_upper
      Scenario.block_font Scenario.solid Scenario.none_error Scenario.other_text
           Scenario.header Example.zip Scenario.net Example.unselected Example.press_dark
           Example.earlier); reflexivity.
Defined.
